(** * opendaq-demo: the scrolling sine chart of [src/App.tsx]

    A shallow embedding of the React component [App]: the per-frame
    signal generator of [updateFrame], the canvas ruler of
    [drawTimeAxis], the density inputs of the control panel, the
    tooltip formatter of the chart and the life cycle of the effect
    that owns the frame loop.

    - ECMAScript numbers are IEEE 754 binary64 values.  They are
      modelled by [spec_float] with the operations of the standard
      library's [SpecFloat] at precision 53 and maximal exponent 1024,
      so every rounding of the source is the rounding of the model.
      [Math.sin], which the language leaves to the implementation, is a
      parameter.
    - A [for] loop whose counter is a number takes fuel and returns
      [None] when the fuel runs out; a theorem about a result says
      which fuel gives it.
    - The 2D context is the list of the calls it has received; a
      [Date] is its time value; the local time zone is a parameter.
    - The component is a record of its state variables, its refs and
      the part of the host it acts on; the host's clock is the sequence
      of the values that [Date.now()] returns. *)

From Stdlib Require Import ZArith List Bool String Ascii Lia DecimalString.
From Stdlib Require Import SpecFloat.
Import ListNotations.

Local Open Scope Z_scope.

(** ** ECMAScript numbers *)

Module JS.

Definition num : Type := spec_float.

Definition prec : Z := 53.
Definition emax : Z := 1024.

Definition add : num -> num -> num := SFadd prec emax.
Definition sub : num -> num -> num := SFsub prec emax.
Definition mul : num -> num -> num := SFmul prec emax.
Definition div : num -> num -> num := SFdiv prec emax.
Definition neg : num -> num := SFopp.

(** The relational operators; every comparison with [NaN] is false. *)
Definition ltb : num -> num -> bool := SFltb.
Definition leb : num -> num -> bool := SFleb.
Definition gtb (a b : num) : bool := SFltb b a.
Definition geb (a b : num) : bool := SFleb b a.

(** The number denoted by an integer literal, and by [Date.now()]. *)
Definition ofZ (z : Z) : num := binary_normalize prec emax z 0 false.

Definition NaN : num := S754_nan.
Definition Infinity : num := S754_infinity false.

Definition is_nan (x : num) : bool :=
  match x with S754_nan => true | _ => false end.

Definition is_finite (x : num) : bool :=
  match x with S754_zero _ | S754_finite _ _ _ => true | _ => false end.

(** [valid x]: [x] is a binary64 value (canonical mantissa and exponent). *)
Definition valid (x : num) : bool := valid_binary prec emax x.

(** The literal [0.02]: the double nearest to 1/50. *)
Definition lit_0_02 : num := S754_finite false 5764607523034235 (-58).

(** [Math.PI], the double nearest to pi: 3.141592653589793. *)
Definition PI : num := S754_finite false 7074237752028440 (-51).

(** [n % d] (Number::remainder): the result has the sign of the
    dividend and is always exact. *)
Definition rem (n d : num) : num :=
  match n, d with
  | S754_nan, _ | _, S754_nan => S754_nan
  | S754_infinity _, _ => S754_nan
  | _, S754_infinity _ => n
  | _, S754_zero _ => S754_nan
  | S754_zero _, _ => n
  | S754_finite sn mn en, S754_finite _ md ed =>
      let ez := Z.min en ed in
      let r := Z.rem (Zpos (fst (shl_align mn en ez)))
                     (Zpos (fst (shl_align md ed ez))) in
      binary_normalize prec emax (cond_Zopp sn r) ez sn
  end.

(** [Math.max] and [Math.min] (ECMA-262 21.3.2.24 and 21.3.2.25): the
    result is [NaN] as soon as one argument is; [+0] is larger than
    [-0]. *)
Definition is_neg_zero (x : num) : bool :=
  match x with S754_zero true => true | _ => false end.
Definition is_pos_zero (x : num) : bool :=
  match x with S754_zero false => true | _ => false end.

Definition max_step (highest number : num) : num :=
  if is_pos_zero number && is_neg_zero highest then number
  else if gtb number highest then number else highest.

Definition min_step (lowest number : num) : num :=
  if is_neg_zero number && is_pos_zero lowest then number
  else if ltb number lowest then number else lowest.

Definition Math_max (a b : num) : num :=
  if is_nan a || is_nan b then NaN
  else max_step (max_step (S754_infinity true) a) b.

Definition Math_min (a b : num) : num :=
  if is_nan a || is_nan b then NaN
  else min_step (min_step (S754_infinity false) a) b.

(** ToIntegerOrInfinity on a finite number: truncation towards zero. *)
Definition truncate (x : num) : Z :=
  match x with
  | S754_finite s m e => cond_Zopp s (Z.shiftl (Zpos m) e)
  | _ => 0
  end.

End JS.

Declare Scope js_scope.
Delimit Scope js_scope with js.
Infix "+" := JS.add : js_scope.
Infix "-" := JS.sub : js_scope.
Infix "*" := JS.mul : js_scope.
Infix "/" := JS.div : js_scope.
Infix "rem" := JS.rem (at level 40, no associativity) : js_scope.
Notation "- x" := (JS.neg x) : js_scope.
Infix "<?" := JS.ltb : js_scope.
Infix "<=?" := JS.leb : js_scope.
Infix ">?" := JS.gtb : js_scope.
Infix ">=?" := JS.geb : js_scope.
Notation "# z" := (JS.ofZ z) (at level 1, format "# z") : js_scope.

Import JS.

Arguments JS.ofZ : simpl never.
Arguments JS.add : simpl never.
Arguments JS.sub : simpl never.
Arguments JS.mul : simpl never.
Arguments JS.div : simpl never.
Arguments JS.rem : simpl never.
Arguments JS.neg : simpl never.

(** Sameness of two numbers ([Object.is]): [NaN] is [NaN], and the two
    zeros differ. *)
Definition num_eqb (a b : num) : bool :=
  match a, b with
  | S754_zero s, S754_zero s' => Bool.eqb s s'
  | S754_infinity s, S754_infinity s' => Bool.eqb s s'
  | S754_nan, S754_nan => true
  | S754_finite s m e, S754_finite s' m' e' =>
      Bool.eqb s s' && Pos.eqb m m' && Z.eqb e e'
  | _, _ => false
  end.

(** ** Loops

    A [for] statement whose counter is a number.  The fuel bounds the
    number of tests of the condition; [None] means that the condition
    still held when the fuel ran out. *)

Section ForLoop.
Context {S : Type}.
Variable cond : num -> bool.
Variable step : num -> num.
Variable body : num -> S -> S.

Fixpoint for_loop (fuel : nat) (i : num) (s : S) : option S :=
  match fuel with
  | O => None
  | Datatypes.S k =>
      if cond i then for_loop k (step i) (body i s) else Some s
  end.

(** The successive values of the counter for which the body runs. *)
Fixpoint iterates (fuel : nat) (i : num) : option (list num) :=
  match fuel with
  | O => None
  | Datatypes.S k =>
      if cond i then option_map (cons i) (iterates k (step i))
      else Some []
  end.

(** [stepped i l]: [l] lists the counter from [i] on, one step at a
    time, as long as the condition holds, and stops where it fails. *)
Fixpoint stepped (i : num) (l : list num) : Prop :=
  match l with
  | [] => cond i = false
  | j :: l' => j = i /\ cond i = true /\ stepped (step i) l'
  end.
End ForLoop.

(** ** The signal generator of [updateFrame] *)

Definition Y_AXIS_MAX : num := (#10)%js.
Definition Y_AXIS_MIN : num := (- #10)%js.

Definition Sample : Type := (num * num)%type.

Section SignalGenerator.
(** [Math.sin] is implementation-approximated (ECMA-262 21.3.2.30);
    the generator is parametric in it. *)
Variable Math_sin : num -> num.

(** [startTime] is [startTime.current]; [timeWindow] and [amplitude]
    are the state variables the closure captures. *)
Variables (currentTime startTime timeWindow amplitude : num).

Definition elapsedTime : num := ((currentTime - startTime) / #1000)%js.

(** Lines 249-250: the value before and after clamping. *)
Definition wave (t : num) : num :=
  let phase := ((currentTime - startTime) / #1000)%js in
  (amplitude * Math_sin (#2 * PI * (t + phase) / #2))%js.

Definition clamp (y : num) : num :=
  Math_max Y_AXIS_MIN (Math_min Y_AXIS_MAX y).

(** The body of the loop of lines 245-253. *)
Definition push_sample (t : num) (newData : list Sample) : list Sample :=
  let timestamp := (currentTime + t * #1000)%js in
  if (t >=? - elapsedTime)%js then
    let y := wave t in
    let clampedY := clamp y in
    newData ++ [(timestamp, clampedY)]
  else newData.

Definition in_window (t : num) : bool := (t <=? #0)%js.
Definition next_offset (t : num) : num := (t + lit_0_02)%js.
Definition first_offset : num := (- timeWindow / #1000)%js.

(** [newData] when the loop is left. *)
Definition generate (fuel : nat) : option (list Sample) :=
  for_loop in_window next_offset push_sample fuel first_offset [].

(** The offsets the loop visits. *)
Definition offsets (fuel : nat) : option (list num) :=
  iterates in_window next_offset fuel first_offset.

(** The same generator without the clamp of line 250: it pushes [y]
    where the source pushes [clampedY]. *)
Definition push_sample_unclamped (t : num) (newData : list Sample)
  : list Sample :=
  let timestamp := (currentTime + t * #1000)%js in
  if (t >=? - elapsedTime)%js then
    let y := wave t in
    newData ++ [(timestamp, y)]
  else newData.

Definition generate_unclamped (fuel : nat) : option (list Sample) :=
  for_loop in_window next_offset push_sample_unclamped fuel first_offset [].
End SignalGenerator.

(** [in_range v]: [-10 <= v <= 10]. *)
Definition in_range (v : num) : bool :=
  ((Y_AXIS_MIN <=? v) && (v <=? Y_AXIS_MAX))%js.

(** The values offered by the two selects of lines 304-327. *)
Definition timeWindow_options : list num :=
  [#5000; #10000; #30000; #60000]%js.
Definition amplitude_options : list num := [#2; #4; #6; #8; #10]%js.

(** The longest window visits 3000 offsets. *)
Definition frame_fuel : nat := 3002.

(** The test of line 247 and the pair pushed at line 251. *)
Definition emitted (now start t : num) : bool :=
  (t >=? - elapsedTime now start)%js.

Definition sample_at (Math_sin : num -> num) (now start amplitude t : num)
  : Sample :=
  ((now + t * #1000)%js, clamp (wave Math_sin now start amplitude t)).

(** -1.2461559562026991e-13, where the counter stands after 500
    additions of [0.02] to [-10]. *)
Definition last_offset_10000 : num :=
  S754_finite true 4936532330807296 (-95).

(** -0.019999999996219645, where the counter of the 60 s window stands
    after 2999 additions of [0.02] to [-60]. *)
Definition last_offset_60000 : num :=
  S754_finite true 5764607521944649 (-58).

(** [2^-42], about 2.3e-13. *)
Definition lit_2_pow_m42 : num := S754_finite false 4503599627370496 (-94).

(** ** Strings of the time labels *)

Open Scope string_scope.
Open Scope list_scope.
Open Scope Z_scope.

(** [Number.prototype.toString] on an integer; [None] is [NaN]. *)
Definition Number_toString (n : option Z) : string :=
  match n with
  | None => "NaN"
  | Some z => DecimalString.NilZero.string_of_int (Z.to_int z)
  end.

Fixpoint repeat_char (c : ascii) (n : nat) : string :=
  match n with
  | O => ""
  | Datatypes.S k => String c (repeat_char c k)
  end.

(** [s.padStart(targetLength, c)] for a one-character filler. *)
Definition padStart (targetLength : nat) (c : ascii) (s : string) : string :=
  (repeat_char c (targetLength - String.length s) ++ s)%string.

(** [s.slice(0, 2)]. *)
Definition slice_0_2 (s : string) : string := substring 0 2 s.

(** ** Dates

    A [Date] object holds a time value, an integral number of
    milliseconds since the epoch, or is invalid ([None]). *)

Module Date.

Definition t : Type := option Z.

(** [new Date(value)]: TimeClip of the number. *)
Definition make (value : num) : t :=
  if is_finite value && negb (SFabs value >? #8640000000000000)%js
  then Some (truncate value) else None.

Definition msPerSecond : Z := 1000.
Definition msPerMinute : Z := 60000.
Definition msPerHour : Z := 3600000.

Section Local.
(** The offset of local time from UTC, in milliseconds, at a UTC
    time value: fixed by the host's time zone. *)
Variable LocalTZA : Z -> Z.

Definition LocalTime (tv : Z) : Z := tv + LocalTZA tv.

Definition getHours (d : t) : option Z :=
  option_map (fun tv => (LocalTime tv / msPerHour) mod 24) d.
Definition getMinutes (d : t) : option Z :=
  option_map (fun tv => (LocalTime tv / msPerMinute) mod 60) d.
Definition getSeconds (d : t) : option Z :=
  option_map (fun tv => (LocalTime tv / msPerSecond) mod 60) d.
Definition getMilliseconds (d : t) : option Z :=
  option_map (fun tv => LocalTime tv mod msPerSecond) d.

(** The template of lines 91-94, 111-114 and 120-123:
    [HH:MM:SS.CC]. *)
Definition timeStr (d : t) : string :=
  (padStart 2 "0" (Number_toString (getHours d)) ++ ":" ++
   padStart 2 "0" (Number_toString (getMinutes d)) ++ ":" ++
   padStart 2 "0" (Number_toString (getSeconds d)) ++ "." ++
   slice_0_2 (padStart 3 "0" (Number_toString (getMilliseconds d))))%string.
End Local.

End Date.

(** ** The canvas

    The 2D context is modelled by the calls it receives, in order. *)

Inductive CanvasOp : Type :=
| clearRect (x y w h : num)
| beginPath
| strokeStyle (s : string)
| lineWidth (w : num)
| moveTo (x y : num)
| lineTo (x y : num)
| stroke
| font (s : string)
| fillStyle (s : string)
| textAlign (s : string)
| fillText (text : string) (x y : num)
| fillRect (x y w h : num)
| scale (x y : num).

(** The literal [0.5]. *)
Definition lit_0_5 : num := S754_finite false 4503599627370496 (-53).

(** ** The time axis overlay: [drawTimeAxis] *)

Section DrawTimeAxis.
Variable LocalTZA : Z -> Z.

(** The state variables captured by the closure. *)
Variable timeWindow : num.
Variable showXSubScale : bool.
Variable xScaleDensity : Z.

Variables (currentTime width height : num).

(** Line 49. *)
Definition offset : num :=
  (currentTime rem #2000 / #2000 * (width / #5))%js.

Definition visible (x : num) : bool := ((x >=? #0) && (x <=? width))%js.

(** Lines 64-70: the sub-tick loop. *)
Definition subtick_x (i : num) : num := (i - offset)%js.

Definition subtick (i : num) (ctx : list CanvasOp) : list CanvasOp :=
  let x := subtick_x i in
  if visible x then ctx ++ [moveTo x #0; lineTo x #3]%js else ctx.

Definition subtick_cond (i : num) : bool := (i <? width)%js.
Definition subtick_step (i : num) : num := (i + width / #xScaleDensity)%js.

Definition subtick_loop (fuel : nat) (ctx : list CanvasOp)
  : option (list CanvasOp) :=
  for_loop subtick_cond subtick_step subtick fuel (#0)%js ctx.

(** The values of [i] for which the body of the sub-tick loop runs. *)
Definition subtick_candidates (fuel : nat) : option (list num) :=
  iterates subtick_cond subtick_step fuel (#0)%js.

(** Lines 80-97: the major ticks and their labels. *)
Definition tick_x (i : Z) : num := (#i * (width / #5) - offset)%js.

Definition labelTime (i : Z) : Date.t :=
  Date.make
    (currentTime - (timeWindow / #1000 - #i * (timeWindow / #5000)) * #1000)%js.

Definition major_tick (ctx : list CanvasOp) (i : Z) : list CanvasOp :=
  let x := tick_x i in
  if visible x then
    ctx ++ [beginPath; moveTo x #0; lineTo x #6; stroke;
            fillText (Date.timeStr LocalTZA (labelTime i)) x #20]%js
  else ctx.

Definition tick_indices : list Z := [0; 1; 2; 3; 4; 5; 6].

(** Lines 101-124: the two badges. *)
Definition startTimeStr : string :=
  Date.timeStr LocalTZA (Date.make (currentTime - timeWindow)%js).
Definition endTimeStr : string :=
  Date.timeStr LocalTZA (Date.make currentTime).

Definition badges : list CanvasOp :=
  [fillStyle "#333"; font "bold 13px Arial";
   textAlign "left"; fillRect #0 #0 #2 #10;
   fillText ("[" ++ startTimeStr)%string #4 #20;
   textAlign "right"; fillRect (width - #2) #0 #2 #10;
   fillText (endTimeStr ++ "]")%string (width - #4) #20;
   fillStyle "rgba(0, 0, 0, 0.05)";
   fillRect #0 #0 #80 #25; fillRect (width - #80) #0 #80 #25]%js.

(** The calls [drawTimeAxis] makes on the context, appended to the
    calls [ctx] it had received. *)
Definition drawTimeAxis (fuel : nat) (ctx : list CanvasOp)
  : option (list CanvasOp) :=
  let ctx := ctx ++ [clearRect #0 #0 width height;
                     beginPath; strokeStyle "#333"; lineWidth #1;
                     moveTo #0 #0; lineTo width #0; stroke]%js in
  match
    (if showXSubScale then
       match subtick_loop fuel
               (ctx ++ [beginPath; strokeStyle "#999"; lineWidth lit_0_5])
       with
       | Some ctx => Some (ctx ++ [stroke])
       | None => None
       end
     else Some ctx)
  with
  | None => None
  | Some ctx =>
      let ctx := ctx ++ [font "12px Arial"; fillStyle "#666";
                         textAlign "center"] in
      let ctx := fold_left major_tick tick_indices ctx in
      Some (ctx ++ badges)
  end.

(** What the overlay draws, part by part. *)
Definition baseline : list CanvasOp :=
  [clearRect #0 #0 width height; beginPath; strokeStyle "#333";
   lineWidth #1; moveTo #0 #0; lineTo width #0; stroke]%js.

Definition subtick_mark (i : num) : list CanvasOp :=
  let x := (i - offset)%js in
  if ((x >=? #0) && (x <=? width))%js
  then [moveTo x #0; lineTo x #3]%js else [].

Definition subtick_marks (candidates : list num) : list CanvasOp :=
  [beginPath; strokeStyle "#999"; lineWidth lit_0_5]
    ++ flat_map subtick_mark candidates ++ [stroke].

Definition label_style : list CanvasOp :=
  [font "12px Arial"; fillStyle "#666"; textAlign "center"].

Definition major_mark (i : Z) : list CanvasOp :=
  let x := (#i * (width / #5) - offset)%js in
  if ((x >=? #0) && (x <=? width))%js
  then [beginPath; moveTo x #0; lineTo x #6; stroke;
        fillText (Date.timeStr LocalTZA (labelTime i))
                 x #20]%js
  else [].

Definition major_marks : list CanvasOp :=
  flat_map major_mark [0; 1; 2; 3; 4; 5; 6].
End DrawTimeAxis.

(** The sub-tick strokes among the calls received by the context: they
    are the only lines drawn down to [y = 3]. *)
Definition is_subtick_stroke (op : CanvasOp) : bool :=
  match op with
  | lineTo _ y => num_eqb y (#3)%js
  | _ => false
  end.

Definition subticks_drawn (ops : list CanvasOp) : nat :=
  List.length (filter is_subtick_stroke ops).

(** The whole-pixel widths up to [n]. *)
Definition whole_widths (n : nat) : list Z :=
  map Z.of_nat (seq 0 (Datatypes.S n)).

(** The number of values the counter takes, for each whole-pixel width
    up to 1024 and each density from 1 to 6. *)
Definition count_ok (d : Z) (n : nat) : bool :=
  if d =? 6 then (Nat.eqb n 6 || Nat.eqb n 7) else Nat.eqb n (Z.to_nat d).

(** The smallest positive number, 5e-324. *)
Definition min_subnormal : num := S754_finite false 1 (-1074).

(** [2^-1024]: no overlay has a positive width below it, the [width]
    attribute of the canvas being a whole number and the device pixel
    ratio a double. *)
Definition min_width : num := S754_finite false 1125899906842624 (-1074).

(** ** The control panel: the density inputs *)

(** Strings are sequences of code units below 256. *)
Definition is_whitespace (c : ascii) : bool :=
  match nat_of_ascii c with
  | 9%nat | 10%nat | 11%nat | 12%nat | 13%nat | 32%nat | 160%nat => true
  | _ => false
  end.

Fixpoint trim_start (s : string) : string :=
  match s with
  | String c s' => if is_whitespace c then trim_start s' else s
  | EmptyString => s
  end.

(** The value of a digit in radix up to 36. *)
Definition digit_value (c : ascii) : option Z :=
  let n := Z.of_nat (nat_of_ascii c) in
  if (48 <=? n) && (n <=? 57) then Some (n - 48)
  else if (97 <=? n) && (n <=? 122) then Some (n - 87)
  else if (65 <=? n) && (n <=? 90) then Some (n - 55)
  else None.

(** The longest prefix of radix-[R] digits, as an integer; [None] when
    it is empty. *)
Fixpoint parse_digits (R : Z) (s : string) (acc : option Z) : option Z :=
  match s with
  | String c s' =>
      match digit_value c with
      | Some d =>
          if d <? R
          then parse_digits R s'
                 (Some (match acc with Some a => a | None => 0 end * R + d))
          else acc
      | None => acc
      end
  | EmptyString => acc
  end.

(** [parseInt(string)] without a radix (ECMA-262 19.2.5): [None] is
    [NaN].  The result of the source is the double nearest to the
    integer, and [-0] for a negative zero; the handlers only compare
    it with 0 and 6 and clamp it between them, which commutes with that
    rounding and sends both zeros to 0. *)
Definition parseInt (s : string) : option Z :=
  let str := trim_start s in
  let '(sign, str) :=
    match str with
    | String "-" r => (-1, r)
    | String "+" r => (1, r)
    | _ => (1, str)
    end in
  let '(R, str) :=
    match str with
    | String "0" (String "x" r) => (16, r)
    | String "0" (String "X" r) => (16, r)
    | _ => (10, str)
    end in
  option_map (Z.mul sign) (parse_digits R str None).

Section DensityInput.
Context {St : Type}.

(** Lines 133-147. *)
Definition handleDensityChange (value : string) (setter : Z -> St -> St)
  : St -> St :=
  fun st =>
    if String.eqb value "" then setter 0 st
    else
      match parseInt value with
      | Some num =>
          let validNum := Z.max 0 (Z.min 6 num) in
          setter validNum st
      | None => st
      end.

(** Lines 348-356 and 380-388. *)
Definition onBlur (value : string) (setter : Z -> St -> St) : St -> St :=
  fun st =>
    match parseInt value with
    | None => setter 0 st
    | Some num =>
        if num <? 0 then setter 0 st
        else if num >? 6 then setter 6 st
        else st
    end.
End DensityInput.

(** ** The component *)

(** The state variables of lines 30-35. *)
Record Config : Type := {
  timeWindow : num;
  amplitude : num;
  showXSubScale : bool;
  showYSubScale : bool;
  xScaleDensity : Z;
  yScaleDensity : Z
}.

Definition initial_config : Config :=
  {| timeWindow := (#10000)%js; amplitude := (#10)%js;
     showXSubScale := false; showYSubScale := false;
     xScaleDensity := 3; yScaleDensity := 3 |}.

(** What the component sets on the chart instance. *)
Record Chart : Type := {
  xAxis_min : num;
  xAxis_max : num;
  yAxis_min : num;
  yAxis_max : num;
  splitLine_type : string;
  minorTick_show : bool;
  minorTick_splitNumber : Z;
  series_data : list Sample;
  disposed : bool;
  resized : nat
}.

(** The component instance: state variables, refs, and the part of the
    host it acts on. *)
Record App : Type := {
  mounted : bool;
  config : Config;
  (* refs *)
  startTime_current : Z;
  dataRef : list Sample;
  animationFrameRef : option nat;
  chartInstanceRef : option Chart;
  (* host *)
  ctx : list CanvasOp;
  canvas_width : Z;
  canvas_height : Z;
  container_width : num;
  container_height : num;
  pending_frames : list nat;
  next_handle : nat;
  resize_listeners : nat;
  charts_created : nat;
  clock_reads : nat
}.

(** The comparison of the dependency list of line 297 ([Object.is]). *)
Definition config_eqb (c c' : Config) : bool :=
  num_eqb (timeWindow c) (timeWindow c') &&
  num_eqb (amplitude c) (amplitude c') &&
  Bool.eqb (showXSubScale c) (showXSubScale c') &&
  Bool.eqb (showYSubScale c) (showYSubScale c') &&
  Z.eqb (xScaleDensity c) (xScaleDensity c') &&
  Z.eqb (yScaleDensity c) (yScaleDensity c').

Definition set_timeWindow (v : num) (c : Config) : Config :=
  {| timeWindow := v; amplitude := amplitude c;
     showXSubScale := showXSubScale c; showYSubScale := showYSubScale c;
     xScaleDensity := xScaleDensity c; yScaleDensity := yScaleDensity c |}.
Definition set_amplitude (v : num) (c : Config) : Config :=
  {| timeWindow := timeWindow c; amplitude := v;
     showXSubScale := showXSubScale c; showYSubScale := showYSubScale c;
     xScaleDensity := xScaleDensity c; yScaleDensity := yScaleDensity c |}.
Definition set_showXSubScale (v : bool) (c : Config) : Config :=
  {| timeWindow := timeWindow c; amplitude := amplitude c;
     showXSubScale := v; showYSubScale := showYSubScale c;
     xScaleDensity := xScaleDensity c; yScaleDensity := yScaleDensity c |}.
Definition set_showYSubScale (v : bool) (c : Config) : Config :=
  {| timeWindow := timeWindow c; amplitude := amplitude c;
     showXSubScale := showXSubScale c; showYSubScale := v;
     xScaleDensity := xScaleDensity c; yScaleDensity := yScaleDensity c |}.
Definition set_xScaleDensity (v : Z) (c : Config) : Config :=
  {| timeWindow := timeWindow c; amplitude := amplitude c;
     showXSubScale := showXSubScale c; showYSubScale := showYSubScale c;
     xScaleDensity := v; yScaleDensity := yScaleDensity c |}.
Definition set_yScaleDensity (v : Z) (c : Config) : Config :=
  {| timeWindow := timeWindow c; amplitude := amplitude c;
     showXSubScale := showXSubScale c; showYSubScale := showYSubScale c;
     xScaleDensity := xScaleDensity c; yScaleDensity := v |}.

(** What the user and the host can do to a mounted component. *)
Inductive Event : Type :=
| AnimationFrame
| SelectTimeWindow (v : num)
| SelectAmplitude (v : num)
| CheckXSubScale (checked : bool)
| CheckYSubScale (checked : bool)
| ChangeXDensity (value : string)
| BlurXDensity (value : string)
| ChangeYDensity (value : string)
| BlurYDensity (value : string)
| Resize (w h : num)
| Unmount.

(** Assignments to the fields of the component instance. *)
Definition with_mounted (v : bool) (st : App) : App :=
  {| mounted := v; config := config st;
     startTime_current := startTime_current st; dataRef := dataRef st;
     animationFrameRef := animationFrameRef st;
     chartInstanceRef := chartInstanceRef st; ctx := ctx st;
     canvas_width := canvas_width st; canvas_height := canvas_height st;
     container_width := container_width st;
     container_height := container_height st;
     pending_frames := pending_frames st; next_handle := next_handle st;
     resize_listeners := resize_listeners st;
     charts_created := charts_created st; clock_reads := clock_reads st |}.
Definition with_config (v : Config) (st : App) : App :=
  {| mounted := mounted st; config := v;
     startTime_current := startTime_current st; dataRef := dataRef st;
     animationFrameRef := animationFrameRef st;
     chartInstanceRef := chartInstanceRef st; ctx := ctx st;
     canvas_width := canvas_width st; canvas_height := canvas_height st;
     container_width := container_width st;
     container_height := container_height st;
     pending_frames := pending_frames st; next_handle := next_handle st;
     resize_listeners := resize_listeners st;
     charts_created := charts_created st; clock_reads := clock_reads st |}.
Definition with_startTime_current (v : Z) (st : App) : App :=
  {| mounted := mounted st; config := config st; startTime_current := v;
     dataRef := dataRef st; animationFrameRef := animationFrameRef st;
     chartInstanceRef := chartInstanceRef st; ctx := ctx st;
     canvas_width := canvas_width st; canvas_height := canvas_height st;
     container_width := container_width st;
     container_height := container_height st;
     pending_frames := pending_frames st; next_handle := next_handle st;
     resize_listeners := resize_listeners st;
     charts_created := charts_created st; clock_reads := clock_reads st |}.
Definition with_dataRef (v : list Sample) (st : App) : App :=
  {| mounted := mounted st; config := config st;
     startTime_current := startTime_current st; dataRef := v;
     animationFrameRef := animationFrameRef st;
     chartInstanceRef := chartInstanceRef st; ctx := ctx st;
     canvas_width := canvas_width st; canvas_height := canvas_height st;
     container_width := container_width st;
     container_height := container_height st;
     pending_frames := pending_frames st; next_handle := next_handle st;
     resize_listeners := resize_listeners st;
     charts_created := charts_created st; clock_reads := clock_reads st |}.
Definition with_animationFrameRef (v : option nat) (st : App) : App :=
  {| mounted := mounted st; config := config st;
     startTime_current := startTime_current st; dataRef := dataRef st;
     animationFrameRef := v; chartInstanceRef := chartInstanceRef st;
     ctx := ctx st; canvas_width := canvas_width st;
     canvas_height := canvas_height st;
     container_width := container_width st;
     container_height := container_height st;
     pending_frames := pending_frames st; next_handle := next_handle st;
     resize_listeners := resize_listeners st;
     charts_created := charts_created st; clock_reads := clock_reads st |}.
Definition with_chartInstanceRef (v : option Chart) (st : App) : App :=
  {| mounted := mounted st; config := config st;
     startTime_current := startTime_current st; dataRef := dataRef st;
     animationFrameRef := animationFrameRef st; chartInstanceRef := v;
     ctx := ctx st; canvas_width := canvas_width st;
     canvas_height := canvas_height st;
     container_width := container_width st;
     container_height := container_height st;
     pending_frames := pending_frames st; next_handle := next_handle st;
     resize_listeners := resize_listeners st;
     charts_created := charts_created st; clock_reads := clock_reads st |}.
Definition with_ctx (v : list CanvasOp) (st : App) : App :=
  {| mounted := mounted st; config := config st;
     startTime_current := startTime_current st; dataRef := dataRef st;
     animationFrameRef := animationFrameRef st;
     chartInstanceRef := chartInstanceRef st; ctx := v;
     canvas_width := canvas_width st; canvas_height := canvas_height st;
     container_width := container_width st;
     container_height := container_height st;
     pending_frames := pending_frames st; next_handle := next_handle st;
     resize_listeners := resize_listeners st;
     charts_created := charts_created st; clock_reads := clock_reads st |}.
Definition with_canvas_width (v : Z) (st : App) : App :=
  {| mounted := mounted st; config := config st;
     startTime_current := startTime_current st; dataRef := dataRef st;
     animationFrameRef := animationFrameRef st;
     chartInstanceRef := chartInstanceRef st; ctx := ctx st;
     canvas_width := v; canvas_height := canvas_height st;
     container_width := container_width st;
     container_height := container_height st;
     pending_frames := pending_frames st; next_handle := next_handle st;
     resize_listeners := resize_listeners st;
     charts_created := charts_created st; clock_reads := clock_reads st |}.
Definition with_canvas_height (v : Z) (st : App) : App :=
  {| mounted := mounted st; config := config st;
     startTime_current := startTime_current st; dataRef := dataRef st;
     animationFrameRef := animationFrameRef st;
     chartInstanceRef := chartInstanceRef st; ctx := ctx st;
     canvas_width := canvas_width st; canvas_height := v;
     container_width := container_width st;
     container_height := container_height st;
     pending_frames := pending_frames st; next_handle := next_handle st;
     resize_listeners := resize_listeners st;
     charts_created := charts_created st; clock_reads := clock_reads st |}.
Definition with_container_width (v : num) (st : App) : App :=
  {| mounted := mounted st; config := config st;
     startTime_current := startTime_current st; dataRef := dataRef st;
     animationFrameRef := animationFrameRef st;
     chartInstanceRef := chartInstanceRef st; ctx := ctx st;
     canvas_width := canvas_width st; canvas_height := canvas_height st;
     container_width := v; container_height := container_height st;
     pending_frames := pending_frames st; next_handle := next_handle st;
     resize_listeners := resize_listeners st;
     charts_created := charts_created st; clock_reads := clock_reads st |}.
Definition with_container_height (v : num) (st : App) : App :=
  {| mounted := mounted st; config := config st;
     startTime_current := startTime_current st; dataRef := dataRef st;
     animationFrameRef := animationFrameRef st;
     chartInstanceRef := chartInstanceRef st; ctx := ctx st;
     canvas_width := canvas_width st; canvas_height := canvas_height st;
     container_width := container_width st; container_height := v;
     pending_frames := pending_frames st; next_handle := next_handle st;
     resize_listeners := resize_listeners st;
     charts_created := charts_created st; clock_reads := clock_reads st |}.
Definition with_pending_frames (v : list nat) (st : App) : App :=
  {| mounted := mounted st; config := config st;
     startTime_current := startTime_current st; dataRef := dataRef st;
     animationFrameRef := animationFrameRef st;
     chartInstanceRef := chartInstanceRef st; ctx := ctx st;
     canvas_width := canvas_width st; canvas_height := canvas_height st;
     container_width := container_width st;
     container_height := container_height st; pending_frames := v;
     next_handle := next_handle st;
     resize_listeners := resize_listeners st;
     charts_created := charts_created st; clock_reads := clock_reads st |}.
Definition with_next_handle (v : nat) (st : App) : App :=
  {| mounted := mounted st; config := config st;
     startTime_current := startTime_current st; dataRef := dataRef st;
     animationFrameRef := animationFrameRef st;
     chartInstanceRef := chartInstanceRef st; ctx := ctx st;
     canvas_width := canvas_width st; canvas_height := canvas_height st;
     container_width := container_width st;
     container_height := container_height st;
     pending_frames := pending_frames st; next_handle := v;
     resize_listeners := resize_listeners st;
     charts_created := charts_created st; clock_reads := clock_reads st |}.
Definition with_resize_listeners (v : nat) (st : App) : App :=
  {| mounted := mounted st; config := config st;
     startTime_current := startTime_current st; dataRef := dataRef st;
     animationFrameRef := animationFrameRef st;
     chartInstanceRef := chartInstanceRef st; ctx := ctx st;
     canvas_width := canvas_width st; canvas_height := canvas_height st;
     container_width := container_width st;
     container_height := container_height st;
     pending_frames := pending_frames st; next_handle := next_handle st;
     resize_listeners := v; charts_created := charts_created st;
     clock_reads := clock_reads st |}.
Definition with_charts_created (v : nat) (st : App) : App :=
  {| mounted := mounted st; config := config st;
     startTime_current := startTime_current st; dataRef := dataRef st;
     animationFrameRef := animationFrameRef st;
     chartInstanceRef := chartInstanceRef st; ctx := ctx st;
     canvas_width := canvas_width st; canvas_height := canvas_height st;
     container_width := container_width st;
     container_height := container_height st;
     pending_frames := pending_frames st; next_handle := next_handle st;
     resize_listeners := resize_listeners st; charts_created := v;
     clock_reads := clock_reads st |}.
Definition with_clock_reads (v : nat) (st : App) : App :=
  {| mounted := mounted st; config := config st;
     startTime_current := startTime_current st; dataRef := dataRef st;
     animationFrameRef := animationFrameRef st;
     chartInstanceRef := chartInstanceRef st; ctx := ctx st;
     canvas_width := canvas_width st; canvas_height := canvas_height st;
     container_width := container_width st;
     container_height := container_height st;
     pending_frames := pending_frames st; next_handle := next_handle st;
     resize_listeners := resize_listeners st;
     charts_created := charts_created st; clock_reads := v |}.

(** ** The effect of lines 149-297 and the frame loop *)

Section Lifecycle.
Variable Math_sin : num -> num.
Variable LocalTZA : Z -> Z.

(** The host: the value of the k-th call of [Date.now()], and
    [window.devicePixelRatio]. *)
Variable clock : nat -> Z.
Variable devicePixelRatio : num.

(** The bound on the iterations of each [for] loop. *)
Variable fuel : nat.

(** The nodes of [chartRef] and [canvasRef] are attached and the canvas
    has a 2D context, so that the guards of lines 153 and 274 hold. *)

Definition Date_now (st : App) : Z * App :=
  (clock (clock_reads st),
   with_clock_reads (Datatypes.S (clock_reads st)) st).

(** Handles are positive, so that a stored handle is truthy. *)
Definition requestAnimationFrame (st : App) : nat * App :=
  let h := next_handle st in
  (h, with_next_handle (Datatypes.S h)
        (with_pending_frames (pending_frames st ++ [h]) st)).

Definition cancelAnimationFrame (h : nat) (st : App) : App :=
  with_pending_frames
    (filter (fun h' => negb (Nat.eqb h h')) (pending_frames st)) st.

(** A number is falsy when it is [NaN] or a zero. *)
Definition falsy (x : num) : bool :=
  match x with S754_nan | S754_zero _ => true | _ => false end.

(** The conversion to [unsigned long] of the [width] and [height]
    attributes of the canvas. *)
Definition to_unsigned_long (x : num) : Z :=
  if is_finite x then truncate x mod 4294967296 else 0.

(** Lines 155-166. *)
Definition updateCanvasSize (st : App) : App :=
  let width := container_width st in
  let height := container_height st in
  let dpr := if falsy devicePixelRatio then (#1)%js else devicePixelRatio in
  let st := with_canvas_width (to_unsigned_long (width * dpr)%js) st in
  let st := with_canvas_height (to_unsigned_long (height * dpr)%js) st in
  with_ctx (ctx st ++ [scale dpr dpr]) st.

(** Lines 169-238: [echarts.init] and the first [setOption]. *)
Definition init_chart (st : App) : Chart :=
  let c := config st in
  {| xAxis_min := (#(startTime_current st) - timeWindow c)%js;
     xAxis_max := (#(startTime_current st))%js;
     yAxis_min := Y_AXIS_MIN;
     yAxis_max := Y_AXIS_MAX;
     splitLine_type := if showYSubScale c then "solid" else "dashed";
     minorTick_show := showYSubScale c;
     minorTick_splitNumber := yScaleDensity c;
     series_data := [];
     disposed := false;
     resized := 0 |}.

(** Lines 258-270: the [setOption] of a frame. *)
Definition setOption_frame (currentTime : num) (c : Config)
           (data : list Sample) (ch : Chart) : Chart :=
  {| xAxis_min := (currentTime - timeWindow c)%js;
     xAxis_max := currentTime;
     yAxis_min := Y_AXIS_MIN;
     yAxis_max := Y_AXIS_MAX;
     splitLine_type := splitLine_type ch;
     minorTick_show := minorTick_show ch;
     minorTick_splitNumber := minorTick_splitNumber ch;
     series_data := data;
     disposed := disposed ch;
     resized := resized ch |}.

Definition dispose (ch : Chart) : Chart :=
  {| xAxis_min := xAxis_min ch; xAxis_max := xAxis_max ch;
     yAxis_min := yAxis_min ch; yAxis_max := yAxis_max ch;
     splitLine_type := splitLine_type ch;
     minorTick_show := minorTick_show ch;
     minorTick_splitNumber := minorTick_splitNumber ch;
     series_data := series_data ch;
     disposed := true;
     resized := resized ch |}.

Definition resize (ch : Chart) : Chart :=
  {| xAxis_min := xAxis_min ch; xAxis_max := xAxis_max ch;
     yAxis_min := yAxis_min ch; yAxis_max := yAxis_max ch;
     splitLine_type := splitLine_type ch;
     minorTick_show := minorTick_show ch;
     minorTick_splitNumber := minorTick_splitNumber ch;
     series_data := series_data ch;
     disposed := disposed ch;
     resized := Datatypes.S (resized ch) |}.

(** Lines 240-279: one frame. *)
Definition updateFrame (st : App) : option App :=
  let '(now, st) := Date_now st in
  let currentTime := (#now)%js in
  let c := config st in
  match generate Math_sin currentTime (#(startTime_current st))%js
          (timeWindow c) (amplitude c) fuel with
  | None => None
  | Some newData =>
      let st := with_dataRef newData st in
      let st :=
        match chartInstanceRef st with
        | Some ch =>
            with_chartInstanceRef
              (Some (setOption_frame currentTime c (dataRef st) ch)) st
        | None => st
        end in
      match drawTimeAxis LocalTZA (timeWindow c) (showXSubScale c)
              (xScaleDensity c) currentTime
              (#(canvas_width st) / devicePixelRatio)%js
              (#(canvas_height st) / devicePixelRatio)%js fuel (ctx st) with
      | None => None
      | Some ctx' =>
          let st := with_ctx ctx' st in
          let '(h, st) := requestAnimationFrame st in
          Some (with_animationFrameRef (Some h) st)
      end
  end.

(** The body of the effect, lines 150-287. *)
Definition effect_setup (st : App) : App :=
  let st := updateCanvasSize st in
  let st := with_chartInstanceRef (Some (init_chart st)) st in
  let st := with_charts_created (Datatypes.S (charts_created st)) st in
  let '(h, st) := requestAnimationFrame st in
  let st := with_animationFrameRef (Some h) st in
  with_resize_listeners (Datatypes.S (resize_listeners st)) st.

(** Its clean-up, lines 289-295. *)
Definition effect_cleanup (st : App) : App :=
  let st :=
    match animationFrameRef st with
    | Some h => if Nat.eqb h 0 then st else cancelAnimationFrame h st
    | None => st
    end in
  let st := with_resize_listeners (Nat.pred (resize_listeners st)) st in
  with_chartInstanceRef (option_map dispose (chartInstanceRef st)) st.

(** The first render and commit.  [useRef(Date.now())] of line 40
    creates the ref [startTime] with the clock value of that render. *)
Definition mount (w h : num) (reads : nat) : App :=
  let st :=
    {| mounted := true; config := initial_config;
       startTime_current := 0; dataRef := [];
       animationFrameRef := None; chartInstanceRef := None;
       ctx := []; canvas_width := 300; canvas_height := 150;
       container_width := w; container_height := h;
       pending_frames := []; next_handle := 1;
       resize_listeners := 0; charts_created := 0;
       clock_reads := reads |} in
  let '(now, st) := Date_now st in
  let st := with_startTime_current now st in
  effect_setup st.

(** A state setter.  A value equal to the current one leaves the
    component alone; any other one renders it again, which evaluates
    the argument [Date.now()] of [useRef] and drops it, the ref
    being there already, and then runs the clean-up and the body of
    the effect, one of its dependencies having changed. *)
Definition setState (f : Config -> Config) (st : App) : App :=
  let c' := f (config st) in
  if config_eqb (config st) c' then st
  else
    let st := with_config c' st in
    let '(_, st) := Date_now st in
    let st := effect_cleanup st in
    effect_setup st.

(** The resize handler of lines 283-286. *)
Definition resizeHandler (st : App) : App :=
  let st := with_chartInstanceRef (option_map resize (chartInstanceRef st)) st in
  updateCanvasSize st.

Definition step (e : Event) (st : App) : option App :=
  if negb (mounted st) then Some st
  else
    match e with
    | AnimationFrame =>
        match pending_frames st with
        | [] => Some st
        | _ :: rest => updateFrame (with_pending_frames rest st)
        end
    | SelectTimeWindow v => Some (setState (set_timeWindow v) st)
    | SelectAmplitude v => Some (setState (set_amplitude v) st)
    | CheckXSubScale b => Some (setState (set_showXSubScale b) st)
    | CheckYSubScale b => Some (setState (set_showYSubScale b) st)
    | ChangeXDensity value =>
        if showXSubScale (config st)
        then Some (handleDensityChange value
                     (fun v => setState (set_xScaleDensity v)) st)
        else Some st
    | BlurXDensity value =>
        if showXSubScale (config st)
        then Some (onBlur value (fun v => setState (set_xScaleDensity v)) st)
        else Some st
    | ChangeYDensity value =>
        if showYSubScale (config st)
        then Some (handleDensityChange value
                     (fun v => setState (set_yScaleDensity v)) st)
        else Some st
    | BlurYDensity value =>
        if showYSubScale (config st)
        then Some (onBlur value (fun v => setState (set_yScaleDensity v)) st)
        else Some st
    | Resize w h =>
        Some (resizeHandler
                (with_container_height h (with_container_width w st)))
    | Unmount => Some (with_mounted false (effect_cleanup st))
    end.

Fixpoint run (es : list Event) (st : App) : option App :=
  match es with
  | [] => Some st
  | e :: es' =>
      match step e st with
      | Some st' => run es' st'
      | None => None
      end
  end.
End Lifecycle.

(** ** Hosts for the examples *)

(** A host whose local time is UTC. *)
Definition utc_offset (_ : Z) : Z := 0.

(** A host clock that advances by one second between two readings. *)
Definition second_clock (k : nat) : Z := 1700000000000 + 1000 * Z.of_nat k.

(** A polynomial stand-in for [Math.sin], used to run the generator on
    concrete inputs: the argument is reduced to [[-pi, pi]] and the
    Taylor polynomial of degree 11 is evaluated there. *)
Definition sin_taylor (x : num) : num :=
  let two_pi := (#2 * PI)%js in
  let r := (x rem two_pi)%js in
  let r := if (r >? PI)%js then (r - two_pi)%js
           else if (r <? - PI)%js then (r + two_pi)%js else r in
  let r2 := (r * r)%js in
  (r * (#1 - r2 / #6 * (#1 - r2 / #20 * (#1 - r2 / #42 *
       (#1 - r2 / #72 * (#1 - r2 / #110))))))%js.

(** ** Magnitudes of doubles *)

(** [shifted M k mrs]: [mrs] is [M] shifted right by [k] bits, and it
    records no lost bit when [2^k] divides [M]. *)
Definition shifted (M k : Z) (mrs : shr_record) : Prop :=
  0 <= k /\
  shr_m mrs = M / 2 ^ k /\
  (M mod 2 ^ k = 0 -> shr_r mrs = false /\ shr_s mrs = false).

(** [small c q x]: [x] is a zero, or a finite number [m * 2^e] with
    [e <= q - 50] and [m <= c * 2^(q - e)], so that its magnitude is at
    most [c * 2^q].  For [4 <= c < 8] the exponent of the double
    [c * 2^q] is [q - 50]. *)
Definition small (c q : Z) (x : num) : Prop :=
  match x with
  | S754_zero _ => True
  | S754_finite _ m e => e <= q - 50 /\ Zpos m <= c * 2 ^ (q - e)
  | _ => False
  end.

(** [within B x]: [-B <= x <= B]. *)
Definition within (B x : num) : bool := ((- B <=? x) && (x <=? B))%js.

(** The double [c * 2^q], for [4 <= c < 8]. *)
Definition bound (c q : Z) : num :=
  S754_finite false (Z.to_pos (c * 2 ^ 50)) (q - 50).

(** What the theorem asks of the value [s] of [Math.sin]: a double
    that is [NaN] or lies between -1 and 1. *)
Definition sine_value (s : num) : Prop :=
  valid s = true /\
  (is_nan s = true \/ ((- #1 <=? s) && (s <=? #1))%js = true).

(** ** Values of doubles

    Every finite double is a whole multiple of [2^-1074], the smallest
    positive one. *)

(** [2^1024], in units of [2^-1074]: above every finite double. *)
Definition top_units : Z := 2 ^ 2098.

(** The magnitude of a double in units of [2^-1074]; that of an
    infinity is [top_units]. *)
Definition units (x : num) : Z :=
  match x with
  | S754_finite _ m e => Zpos m * 2 ^ (e + 1074)
  | S754_infinity _ => top_units
  | _ => 0
  end.

(** [+0], the positive finite numbers and [+Infinity]. *)
Definition nonneg (x : num) : bool :=
  match x with
  | S754_zero false | S754_infinity false | S754_finite false _ _ => true
  | _ => false
  end.

(** The counter of a loop that starts at [0] and adds [s], after [k]
    additions. *)
Definition counter (s : num) (k : nat) : num :=
  Nat.iter k (fun i => (i + s)%js) (#0)%js.

(** ** The tooltip of the chart: the formatter of lines 178-182 *)

(** An entry of the list that the chart passes to the formatter. *)
Record DataParams : Type := {
  data : num * num;
  componentIndex : num;
  seriesIndex : num;
  seriesName : string
}.

(** [Number.prototype.toFixed(2)] (ECMA-262 21.1.3.3) on the number
    [m * 2^e].  Step 10a: the integer [n] for which [n / 100] is
    closest to the number, the larger one when two are as close. *)
Definition hundredths (m : positive) (e : Z) : Z :=
  if 0 <=? e then 100 * Zpos m * 2 ^ e
  else (200 * Zpos m + 2 ^ (- e)) / 2 ^ (1 - e).

(** Steps 10b and 10c: the digits of [n], filled with zeros up to
    three, with a point before the last two. *)
Definition fixed_2 (n : Z) : string :=
  let m := Number_toString (Some n) in
  let k := String.length m in
  let m := if (k <=? 2)%nat then (repeat_char "0" (3 - k) ++ m)%string
           else m in
  let k := if (k <=? 2)%nat then 3%nat else k in
  (substring 0 (k - 2) m ++ "." ++ substring (k - 2) 2 m)%string.

(** Step 9: the test [x >= 10^21]. *)
Definition at_least_1e21 (m : positive) (e : Z) : bool :=
  if 0 <=? e then 10 ^ 21 <=? Zpos m * 2 ^ e
  else 10 ^ 21 * 2 ^ (- e) <=? Zpos m.

Section Tooltip.
Variable LocalTZA : Z -> Z.

(** [Date.prototype.toLocaleTimeString] is implementation-defined; its
    result at a time value is a parameter.  So is [Number::toString]
    of a number of magnitude [m * 2^e] at least [10^21], to which
    [toFixed] falls back. *)
Variable toLocaleTimeString : Z -> string.
Variable ToString_large : positive -> Z -> string.

Definition toFixed_2 (x : num) : string :=
  match x with
  | S754_nan => "NaN"
  | S754_infinity false => "Infinity"
  | S754_infinity true => "-Infinity"
  | S754_zero _ => fixed_2 0
  | S754_finite s m e =>
      ((if s then "-" else "") ++
       (if at_least_1e21 m e then ToString_large m e
        else fixed_2 (hundredths m e)))%string
  end.

Definition localeTime (d : Date.t) : string :=
  match d with
  | Some tv => toLocaleTimeString tv
  | None => "Invalid Date"
  end.

(** The formatter.  [None] is the [TypeError] that [first.data] throws
    when the list is empty, [first] being [undefined] then.  The two
    labels are the bytes of the source text. *)
Definition formatter (params : list DataParams) : option string :=
  match params with
  | [] => None
  | first :: _ =>
      let date := Date.make (fst (data first)) in
      Some ("时间: " ++ localeTime date ++ "." ++
            padStart 3 "0"
              (Number_toString (Date.getMilliseconds LocalTZA date)) ++
            "<br/>振幅: " ++ toFixed_2 (snd (data first)))%string
  end.
End Tooltip.

(** ** What the statements speak of *)

(** The decimal digit [d], and the two and the three digits of a
    number below 100 and below 1000. *)
Definition digit (d : Z) : ascii := ascii_of_nat (48 + Z.to_nat d).

Definition two_digits (n : Z) : string :=
  String (digit (n / 10)) (String (digit (n mod 10)) "").

Definition three_digits (n : Z) : string :=
  String (digit (n / 100)) (two_digits (n mod 100)).

(** The windows of the select, in milliseconds, and the number of
    values that the counter of the loop of lines 245-253 takes for each
    of them. *)
Definition timeWindow_ms : list Z := [5000; 10000; 30000; 60000].

Definition offsets_per_window : list (num * nat) :=
  [(#5000, 251%nat); (#10000, 501%nat); (#30000, 1501%nat);
   (#60000, 3000%nat)]%js.

Definition max_samples : nat := 3000.

(** The literal [1.5], the device pixel ratio of a display scaled to
    150 %. *)
Definition lit_1_5 : num := S754_finite false 6755399441055744 (-52).

(** [live st]: the frame loop of the component is armed once, one
    resize listener is registered and the chart is in use. *)
Definition live (st : App) : Prop :=
  exists h ch,
    pending_frames st = [h] /\ animationFrameRef st = Some h /\
    (0 < h < next_handle st)%nat /\
    resize_listeners st = 1%nat /\
    chartInstanceRef st = Some ch /\ disposed ch = false.

(** [released st]: nothing of the component is left with the host. *)
Definition released (st : App) : Prop :=
  pending_frames st = [] /\ resize_listeners st = 0%nat /\
  option_map disposed (chartInstanceRef st) = Some true.

(** [idle st]: what the clean-up of the effect leaves and what its
    body starts from. *)
Definition idle (st : App) : Prop :=
  pending_frames st = [] /\ resize_listeners st = 0%nat /\
  (0 < next_handle st)%nat.

Definition armed (st : App) : Prop :=
  if mounted st then live st else released st.

(** [reflects ch c]: the options of the chart that depend on the state
    variables are those of [c] (lines 190-216). *)
Definition reflects (ch : Chart) (c : Config) : Prop :=
  splitLine_type ch = (if showYSubScale c then "solid" else "dashed") /\
  minorTick_show ch = showYSubScale c /\
  minorTick_splitNumber ch = yScaleDensity c /\
  yAxis_min ch = Y_AXIS_MIN /\ yAxis_max ch = Y_AXIS_MAX.

Definition synced (st : App) : Prop :=
  exists ch, chartInstanceRef st = Some ch /\ reflects ch (config st).

(** A value that the vertical axis can show, or [NaN]. *)
Definition plottable (v : num) : bool := is_nan v || in_range v.

(** [buffered st]: the samples that the component holds. *)
Definition buffered (st : App) : Prop :=
  (List.length (dataRef st) <= max_samples)%nat /\
  Forall (fun p : Sample => plottable (snd p) = true) (dataRef st).

(** An event that the controls can raise: a select of lines 304-327
    reports one of its options. *)
Definition offered (e : Event) : Prop :=
  match e with
  | SelectTimeWindow v => In v timeWindow_options
  | SelectAmplitude v => In v amplitude_options
  | _ => True
  end.

(** The state variables that an event asks for: the handlers of the
    density inputs run on the state variables themselves. *)
Definition requested (e : Event) (c : Config) : Config :=
  match e with
  | SelectTimeWindow v => set_timeWindow v c
  | SelectAmplitude v => set_amplitude v c
  | CheckXSubScale b => set_showXSubScale b c
  | CheckYSubScale b => set_showYSubScale b c
  | ChangeXDensity value =>
      if showXSubScale c
      then handleDensityChange value set_xScaleDensity c else c
  | BlurXDensity value =>
      if showXSubScale c then onBlur value set_xScaleDensity c else c
  | ChangeYDensity value =>
      if showYSubScale c
      then handleDensityChange value set_yScaleDensity c else c
  | BlurYDensity value =>
      if showYSubScale c then onBlur value set_yScaleDensity c else c
  | AnimationFrame | Resize _ _ | Unmount => c
  end.

(** The events of a session in which no frame comes due. *)
Definition session : list Event :=
  [SelectAmplitude (#4)%js; CheckXSubScale true; ChangeXDensity "9";
   Resize (#640)%js (#200)%js; CheckYSubScale true; ChangeYDensity "-3";
   SelectTimeWindow (#5000)%js].

(** The device pixel ratios of the statements: whole ones. *)
Definition whole_ratios : list num := [#1; #2; #3]%js.

(** [sized dpr st]: the container is a whole number of pixels wide, up
    to 1024, and the overlay is as wide. *)
Definition sized (devicePixelRatio : num) (st : App) : Prop :=
  exists z, 0 <= z <= 1024 /\ container_width st = (#z)%js /\
            (#(canvas_width st) / devicePixelRatio)%js = (#z)%js.

(** An event that a window of at most 1024 pixels can raise. *)
Definition fits (e : Event) : Prop :=
  match e with
  | Resize w _ => exists z, 0 <= z <= 1024 /\ w = (#z)%js
  | _ => True
  end.

(** What the frames of a component need in order to return. *)
Definition steady (devicePixelRatio : num) (st : App) : Prop :=
  In (timeWindow (config st)) timeWindow_options /\
  (0 <= xScaleDensity (config st) <= 6 /\
   0 <= yScaleDensity (config st) <= 6) /\
  sized devicePixelRatio st.

(** * Properties *)

(** ** Loops and their counters *)

Section ForLoopFacts.
Context {S : Type}.
Variable cond : num -> bool.
Variable step : num -> num.
Variable body : num -> S -> S.

(** The loop folds its body over the values its counter takes. *)
Lemma for_loop_iterates (fuel : nat) :
  forall i s,
    for_loop cond step body fuel i s =
    option_map (fun l => fold_left (fun s i => body i s) l s)
               (iterates cond step fuel i).
Proof.
  induction fuel as [|k IH]; intros i s; simpl; [reflexivity|].
  destruct (cond i); [|reflexivity].
  rewrite IH. destruct (iterates cond step k (step i)); reflexivity.
Qed.

(** More fuel does not change a finished loop. *)
Lemma iterates_more_fuel (fuel fuel' : nat) :
  forall i l, iterates cond step fuel i = Some l ->
              (fuel <= fuel')%nat ->
              iterates cond step fuel' i = Some l.
Proof.
  revert fuel'. induction fuel as [|k IH]; intros fuel' i l H Hle;
    simpl in H; [discriminate|].
  destruct fuel' as [|k']; [lia|]. simpl.
  destruct (cond i); [|assumption].
  destruct (iterates cond step k (step i)) as [l'|] eqn:E; [|discriminate].
  rewrite (IH k' _ _ E); [assumption|lia].
Qed.

Lemma iterates_stepped (fuel : nat) :
  forall i l, iterates cond step fuel i = Some l -> stepped cond step i l.
Proof.
  induction fuel as [|k IH]; intros i l H; simpl in H; [discriminate|].
  destruct (cond i) eqn:Hc.
  - destruct (iterates cond step k (step i)) as [l'|] eqn:E; [|discriminate].
    injection H as <-. simpl. auto.
  - injection H as <-. exact Hc.
Qed.

(** A counter that does not move never leaves the loop. *)
Lemma iterates_stuck (fuel : nat) :
  forall i, cond i = true -> step i = i -> iterates cond step fuel i = None.
Proof.
  induction fuel as [|k IH]; intros i Hc Hs; simpl; [reflexivity|].
  rewrite Hc, Hs, (IH i Hc Hs). reflexivity.
Qed.
End ForLoopFacts.

Lemma Some_inj {A : Type} (a b : A) : Some a = Some b -> a = b.
Proof. congruence. Qed.

(** A filter that keeps the length keeps the list. *)
Lemma filter_length_all {A : Type} (f : A -> bool) (l : list A) :
  List.length (filter f l) = List.length l -> filter f l = l.
Proof.
  induction l as [|a l IH]; [reflexivity|].
  cbn [filter]. destruct (f a); cbn [List.length]; intros H.
  - f_equal. apply IH. congruence.
  - assert (Hle := filter_length_le f l). lia.
Qed.

Lemma num_eqb_eq (a b : num) : num_eqb a b = true -> a = b.
Proof.
  destruct a as [s|s| |s m e], b as [s'|s'| |s' m' e']; simpl;
    try discriminate; try reflexivity.
  - intros H. apply Bool.eqb_prop in H. now subst.
  - intros H. apply Bool.eqb_prop in H. now subst.
  - intros H. apply andb_prop in H. destruct H as [H He].
    apply andb_prop in H. destruct H as [Hs Hm].
    apply Bool.eqb_prop in Hs. apply Pos.eqb_eq in Hm. apply Z.eqb_eq in He.
    now subst.
Qed.

(** ** Comparisons and the clamp *)

Lemma ltb_leb (x y : num) : (x <? y)%js = true -> (x <=? y)%js = true.
Proof.
  unfold ltb, leb, SFltb, SFleb.
  destruct (SFcompare x y) as [[| |]|]; congruence.
Qed.

Lemma ltb_not_eqb (x y : num) : (x <? y)%js = true -> SFeqb x y = false.
Proof.
  unfold ltb, SFltb, SFeqb.
  destruct (SFcompare x y) as [[| |]|]; congruence.
Qed.

(** Away from [NaN] the clamp picks one of three values. *)
Lemma clamp_cases (y : num) :
  is_nan y = false ->
  clamp y =
  (let r := if (y <? Y_AXIS_MAX)%js then y else Y_AXIS_MAX in
   if (r >? Y_AXIS_MIN)%js then r else Y_AXIS_MIN).
Proof.
  intros Hy. unfold clamp, Math_max, Math_min.
  rewrite Hy. cbn [orb].
  change (is_nan Y_AXIS_MAX) with false. cbn [orb].
  change (min_step (S754_infinity false) Y_AXIS_MAX) with Y_AXIS_MAX.
  assert (Hmin : min_step Y_AXIS_MAX y =
                 if (y <? Y_AXIS_MAX)%js then y else Y_AXIS_MAX).
  { unfold min_step. change (is_pos_zero Y_AXIS_MAX) with false.
    now rewrite andb_false_r. }
  rewrite Hmin.
  set (r := if (y <? Y_AXIS_MAX)%js then y else Y_AXIS_MAX).
  assert (Hr : is_nan r = false).
  { unfold r. destruct (y <? Y_AXIS_MAX)%js; [exact Hy|reflexivity]. }
  change (is_nan Y_AXIS_MIN) with false. rewrite Hr. cbn [orb].
  change (max_step (S754_infinity true) Y_AXIS_MIN) with Y_AXIS_MIN.
  unfold max_step. change (is_neg_zero Y_AXIS_MIN) with false.
  rewrite andb_false_r. reflexivity.
Qed.

Lemma clamp_in_range (y : num) : is_nan y = false -> in_range (clamp y) = true.
Proof.
  intros Hy. rewrite (clamp_cases y Hy). cbv zeta. unfold in_range.
  destruct (y <? Y_AXIS_MAX)%js eqn:H1.
  - destruct (y >? Y_AXIS_MIN)%js eqn:H2.
    + apply andb_true_intro; split; apply ltb_leb; assumption.
    + reflexivity.
  - reflexivity.
Qed.

Lemma clamp_nan (y : num) : is_nan y = true -> clamp y = NaN.
Proof.
  intros Hy. unfold clamp, Math_min. rewrite Hy, orb_true_r. reflexivity.
Qed.

(** Subtracting [+0] changes nothing. *)
Lemma sub_zero (x : num) : (x - #0)%js = x.
Proof. destruct x as [[|]|s| |s m e]; reflexivity. Qed.

(** Subtracting a negative number adds its opposite. *)
Lemma sub_negative (x : num) (m : positive) (e : Z) :
  (x - S754_finite true m e)%js = (x + S754_finite false m e)%js.
Proof.
  destruct x as [s|s| |s mx ex]; reflexivity.
Qed.

(** A number that compares equal to a finite one is that number. *)
Lemma compare_Eq_finite (x : num) (s : bool) (m : positive) (e : Z) :
  SFcompare x (S754_finite s m e) = Some Eq \/
  SFcompare (S754_finite s m e) x = Some Eq ->
  x = S754_finite s m e.
Proof.
  destruct x as [sx|sx| |sx mx ex]; cbn [SFcompare].
  - destruct s; intros [H|H]; discriminate.
  - destruct sx, s; intros [H|H]; discriminate.
  - intros [H|H]; discriminate.
  - change (PosDef.Pos.compare_cont Eq mx m) with (mx ?= m)%positive.
    change (PosDef.Pos.compare_cont Eq m mx) with (m ?= mx)%positive.
    destruct sx, s; intros [H|H]; try discriminate.
    + destruct (Z.compare_spec ex e); try discriminate. subst.
      destruct (Pos.compare_spec mx m); try discriminate. now subst.
    + destruct (Z.compare_spec e ex); try discriminate. subst.
      destruct (Pos.compare_spec m mx); try discriminate. now subst.
    + destruct (Z.compare_spec ex e); try discriminate. subst.
      destruct (Pos.compare_spec mx m); try discriminate. now subst.
    + destruct (Z.compare_spec e ex); try discriminate. subst.
      destruct (Pos.compare_spec m mx); try discriminate. now subst.
Qed.

(** The clamp leaves a value of the range alone. *)
Lemma clamp_id (y : num) : in_range y = true -> clamp y = y.
Proof.
  intros H. unfold in_range in H. apply andb_prop in H. destruct H as [Hlo Hhi].
  assert (Hy : is_nan y = false) by (destruct y; try reflexivity; discriminate).
  rewrite (clamp_cases y Hy). cbv zeta.
  destruct (y <? Y_AXIS_MAX)%js eqn:E1.
  - destruct (y >? Y_AXIS_MIN)%js eqn:E2; [reflexivity|].
    unfold gtb, SFltb in E2. unfold leb, SFleb in Hlo.
    destruct (SFcompare Y_AXIS_MIN y) as [[| |]|] eqn:C; try discriminate.
    symmetry. apply (compare_Eq_finite y true 5629499534213120 (-49)).
    right. exact C.
  - unfold ltb, SFltb in E1. unfold leb, SFleb in Hhi.
    destruct (SFcompare y Y_AXIS_MAX) as [[| |]|] eqn:C; try discriminate.
    assert (E : y = Y_AXIS_MAX).
    { apply (compare_Eq_finite y false 5629499534213120 (-49)).
      left. exact C. }
    rewrite E. reflexivity.
Qed.

(** The order of the numbers. *)
Ltac order_cases :=
  repeat match goal with
         | H : context [PosDef.Pos.compare_cont Eq ?a ?b] |- _ =>
             change (PosDef.Pos.compare_cont Eq a b) with (Pos.compare a b) in H
         | |- context [PosDef.Pos.compare_cont Eq ?a ?b] =>
             change (PosDef.Pos.compare_cont Eq a b) with (Pos.compare a b)
         end;
  repeat match goal with
         | |- context [Z.compare ?a ?b] =>
             destruct (Z.compare_spec a b)
         | H : context [Z.compare ?a ?b] |- _ =>
             destruct (Z.compare_spec a b)
         | |- context [Pos.compare ?a ?b] =>
             destruct (Pos.compare_spec a b)
         | H : context [Pos.compare ?a ?b] |- _ =>
             destruct (Pos.compare_spec a b)
         end;
  cbn [CompOpp] in *; try discriminate; try reflexivity; try lia.

Lemma leb_trans (a b c : num) :
  (a <=? b)%js = true -> (b <=? c)%js = true -> (a <=? c)%js = true.
Proof.
  unfold leb, SFleb.
  destruct a as [[|]|[|]| |[|] ma ea], b as [[|]|[|]| |[|] mb eb],
    c as [[|]|[|]| |[|] mc ec]; cbn [SFcompare];
    try discriminate; try reflexivity;
    intros H1 H2; order_cases.
Qed.

Lemma ltb_asym (a b : num) : (a <? b)%js = true -> (b <? a)%js = false.
Proof.
  unfold ltb, SFltb.
  destruct a as [[|]|[|]| |[|] ma ea], b as [[|]|[|]| |[|] mb eb];
    cbn [SFcompare]; try discriminate; try reflexivity;
    intros H1; order_cases.
Qed.

Lemma ltb_trans (a b c : num) :
  (a <? b)%js = true -> (b <? c)%js = true -> (a <? c)%js = true.
Proof.
  unfold ltb, SFltb.
  destruct a as [[|]|[|]| |[|] ma ea], b as [[|]|[|]| |[|] mb eb],
    c as [[|]|[|]| |[|] mc ec]; cbn [SFcompare];
    try discriminate; try reflexivity;
    intros H1 H2; order_cases.
Qed.

(** Adding the opposite is subtracting. *)
Lemma add_opp (x y : num) : (x + - y)%js = (x - y)%js.
Proof.
  destruct y as [s|s| |s m e]; destruct x as [sx|sx| |sx mx ex];
    try reflexivity; destruct s; try reflexivity; destruct sx; reflexivity.
Qed.

(** ** Rounding *)

Lemma digits2_pos_bounds (p : positive) :
  2 ^ (Zpos (digits2_pos p) - 1) <= Zpos p < 2 ^ Zpos (digits2_pos p).
Proof.
  induction p as [p IH|p IH|]; cbn [digits2_pos].
  - rewrite Pos2Z.inj_succ.
    replace (Z.succ (Zpos (digits2_pos p)) - 1) with (Z.succ (Zpos (digits2_pos p) - 1)) by lia.
    rewrite !Z.pow_succ_r by lia. lia.
  - rewrite Pos2Z.inj_succ.
    replace (Z.succ (Zpos (digits2_pos p)) - 1) with (Z.succ (Zpos (digits2_pos p) - 1)) by lia.
    rewrite !Z.pow_succ_r by lia. lia.
  - simpl. lia.
Qed.

(** A positive integer below [2^k] has at most [k] digits. *)
Lemma digits2_pos_le (p : positive) (k : Z) :
  0 <= k -> Zpos p < 2 ^ k -> Zpos (digits2_pos p) <= k.
Proof.
  intros Hk Hp. destruct (digits2_pos_bounds p) as [Hlo _].
  destruct (Z_le_gt_dec (Zpos (digits2_pos p)) k) as [|Hgt]; [assumption|].
  exfalso.
  assert (2 ^ k <= 2 ^ (Zpos (digits2_pos p) - 1))
    by (apply Z.pow_le_mono_r; lia).
  lia.
Qed.

(** One step of the right shift, on a non-negative mantissa. *)
Lemma shr_1_spec (mrs : shr_record) :
  0 <= shr_m mrs ->
  shr_m (shr_1 mrs) = shr_m mrs / 2 /\
  shr_r (shr_1 mrs) = Z.odd (shr_m mrs) /\
  shr_s (shr_1 mrs) = shr_r mrs || shr_s mrs.
Proof.
  destruct mrs as [m r s]. cbn [shr_m shr_r shr_s]. intros Hm.
  destruct m as [|[p|p|]|p]; try lia; cbn [shr_1 shr_m shr_r shr_s].
  - repeat split; reflexivity.
  - repeat split; try reflexivity.
    rewrite Pos2Z.inj_xI. apply Z.div_unique with (r := 1); lia.
  - repeat split; try reflexivity.
    rewrite Pos2Z.inj_xO. apply Z.div_unique with (r := 0); lia.
  - repeat split; reflexivity.
Qed.

Section IterPos.
Context {A : Type}.
Variable f : A -> A.
Variable Inv : Z -> A -> Prop.
Hypothesis Inv_step : forall k x, Inv k x -> Inv (k + 1) (f x).

Lemma iter_pos_invariant (p : positive) :
  forall k x, Inv k x -> Inv (k + Zpos p) (iter_pos f p x).
Proof.
  induction p as [p IH|p IH|]; intros k x Hx; cbn [iter_pos].
  - replace (k + Zpos p~1) with (k + 1 + Zpos p + Zpos p) by lia.
    apply IH, IH, Inv_step, Hx.
  - replace (k + Zpos p~0) with (k + Zpos p + Zpos p) by lia.
    apply IH, IH, Hx.
  - apply Inv_step, Hx.
Qed.
End IterPos.

Lemma shifted_step (M : Z) :
  0 <= M -> forall k mrs, shifted M k mrs -> shifted M (k + 1) (shr_1 mrs).
Proof.
  intros HM k mrs [Hk [Hm Hex]].
  assert (Hpow : 0 < 2 ^ k) by (apply Z.pow_pos_nonneg; lia).
  assert (Hm0 : 0 <= shr_m mrs) by (rewrite Hm; apply Z.div_pos; lia).
  destruct (shr_1_spec mrs Hm0) as [H1 [H2 H3]].
  assert (Hp1 : 2 ^ (k + 1) = 2 ^ k * 2) by (rewrite Z.pow_add_r; lia).
  split; [lia|]. split.
  - rewrite H1, Hm, Hp1. rewrite Z.div_div; lia.
  - intros Hmod. rewrite Hp1 in Hmod.
    assert (Hdiv : M = 2 ^ k * 2 * (M / (2 ^ k * 2)))
      by (rewrite (Z.div_mod M (2 ^ k * 2)) at 1; lia).
    assert (Hmodk : M mod 2 ^ k = 0).
    { rewrite Hdiv. rewrite <- Z.mul_assoc, Z.mul_comm. apply Z.mod_mul. lia. }
    destruct (Hex Hmodk) as [Hr Hs].
    split.
    + rewrite H2, Hm. rewrite Hdiv.
      replace (2 ^ k * 2 * (M / (2 ^ k * 2)))
        with (2 * (M / (2 ^ k * 2)) * 2 ^ k) by lia.
      rewrite Z.div_mul by lia. rewrite Z.odd_mul. reflexivity.
    + rewrite H3, Hr, Hs. reflexivity.
Qed.

Lemma shifted_0 (M : Z) : shifted M 0 (shr_record_of_loc M loc_Exact).
Proof.
  unfold shifted. cbn [shr_record_of_loc shr_m shr_r shr_s].
  rewrite Z.pow_0_r, Z.div_1_r. repeat split; lia.
Qed.

Lemma shr_shifted (M e n : Z) :
  0 <= M ->
  shifted M (Z.max 0 n) (fst (shr (shr_record_of_loc M loc_Exact) e n)) /\
  snd (shr (shr_record_of_loc M loc_Exact) e n) = e + Z.max 0 n.
Proof.
  intros HM. unfold shr. destruct n as [|p|p]; cbn [fst snd].
  - split; [apply shifted_0|lia].
  - split; [|lia]. replace (Z.max 0 (Zpos p)) with (0 + Zpos p) by lia.
    apply (iter_pos_invariant shr_1 (shifted M)).
    + intros k x. now apply shifted_step.
    + apply shifted_0.
  - split; [|lia]. replace (Z.max 0 (Zneg p)) with 0 by lia. apply shifted_0.
Qed.

Lemma round_nearest_even_bounds (mrs : shr_record) :
  let m1 := round_nearest_even (shr_m mrs) (loc_of_shr_record mrs) in
  shr_m mrs <= m1 <= shr_m mrs + 1 /\
  (shr_r mrs = false -> shr_s mrs = false -> m1 = shr_m mrs).
Proof.
  destruct mrs as [m [|] [|]]; cbn [shr_m shr_r shr_s loc_of_shr_record
    round_nearest_even]; try destruct (Z.even m); split; try lia;
    intros; try discriminate; reflexivity.
Qed.

(** Rounding to nearest does not pass an integer bound. *)
Lemma rounded_le (M k K : Z) (mrs : shr_record) :
  0 <= M -> shifted M k mrs -> M <= K * 2 ^ k ->
  0 <= round_nearest_even (shr_m mrs) (loc_of_shr_record mrs) <= K.
Proof.
  intros HM [Hk [Hm Hex]] HK.
  assert (Hpow : 0 < 2 ^ k) by (apply Z.pow_pos_nonneg; lia).
  destruct (round_nearest_even_bounds mrs) as [[Hlo Hhi] Hexact].
  assert (Hm0 : 0 <= shr_m mrs) by (rewrite Hm; apply Z.div_pos; lia).
  assert (HmK : shr_m mrs <= K).
  { rewrite Hm. apply Z.div_le_upper_bound; lia. }
  split; [lia|].
  destruct (Z.eq_dec (shr_m mrs) K) as [Heq|Hne]; [|lia].
  assert (HMge : 2 ^ k * (M / 2 ^ k) <= M) by (apply Z.mul_div_le; lia).
  assert (HMeq : M = K * 2 ^ k) by (rewrite Hm in Heq; nia).
  assert (Hmod : M mod 2 ^ k = 0) by (rewrite HMeq; apply Z.mod_mul; lia).
  destruct (Hex Hmod) as [Hr Hs]. rewrite (Hexact Hr Hs). lia.
Qed.

Lemma fexp_le (x q : Z) : x <= q + 3 -> -1023 <= q -> fexp prec emax x <= q - 50.
Proof. unfold fexp, emin, prec, emax. lia. Qed.

Lemma digits_small (c q e : Z) (p : positive) :
  0 <= c < 8 -> e <= q -> Zpos p <= c * 2 ^ (q - e) ->
  Zpos (digits2_pos p) + e <= q + 3.
Proof.
  intros Hc He Hp.
  assert (Hpow : 0 < 2 ^ (q - e)) by (apply Z.pow_pos_nonneg; lia).
  assert (H8 : 2 ^ (q + 3 - e) = 8 * 2 ^ (q - e)).
  { replace (q + 3 - e) with (3 + (q - e)) by lia.
    rewrite Z.pow_add_r by lia. reflexivity. }
  assert (Hd := digits2_pos_le p (q + 3 - e) ltac:(lia) ltac:(nia)).
  lia.
Qed.

(** The rounding of [M * 2^e] stays below a bound [c * 2^q] that [M * 2^e]
    does not pass, and keeps the sign. *)
Lemma binary_round_aux_small (c q : Z) (sx : bool) (M : positive) (e : Z) :
  0 <= c < 8 -> -1023 <= q <= 1021 ->
  e <= q - 50 -> Zpos M <= c * 2 ^ (q - e) ->
  let r := binary_round_aux prec emax sx (Zpos M) e loc_Exact in
  small c q r /\
  (r = S754_zero sx \/ exists m e', r = S754_finite sx m e').
Proof.
  intros Hc Hq He HM. unfold binary_round_aux, shr_fexp.
  set (n := fexp prec emax (Zdigits2 (Zpos M) + e) - e).
  destruct (shr_shifted (Zpos M) e n ltac:(lia)) as [Hsh He'].
  destruct (shr (shr_record_of_loc (Zpos M) loc_Exact) e n) as [mrs e'].
  cbn [fst snd] in Hsh, He'.
  assert (Hd := digits_small c q e M Hc ltac:(lia) HM).
  assert (Hf := fexp_le _ q Hd ltac:(lia)).
  cbn [Zdigits2] in n.
  assert (He'q : e' <= q - 50) by lia.
  assert (Hpow : 2 ^ (q - e) = 2 ^ (q - e') * 2 ^ (Z.max 0 n)).
  { rewrite <- Z.pow_add_r by lia. f_equal. lia. }
  assert (Hm1 := rounded_le (Zpos M) (Z.max 0 n) (c * 2 ^ (q - e')) mrs
                   ltac:(lia) Hsh ltac:(rewrite <- Z.mul_assoc, <- Hpow; exact HM)).
  set (m1 := round_nearest_even (shr_m mrs) (loc_of_shr_record mrs)) in *.
  set (n2 := fexp prec emax (Zdigits2 m1 + e') - e').
  destruct (shr_shifted m1 e' n2 ltac:(lia)) as [Hsh2 He''].
  destruct (shr (shr_record_of_loc m1 loc_Exact) e' n2) as [mrs2 e''].
  cbn [fst snd] in Hsh2, He''.
  destruct Hsh2 as [_ [Hm2 _]].
  assert (Hpow2 : 0 < 2 ^ Z.max 0 n2) by (apply Z.pow_pos_nonneg; lia).
  assert (Hm2pos : 0 <= shr_m mrs2) by (rewrite Hm2; apply Z.div_pos; lia).
  destruct (shr_m mrs2) as [|m2|m2] eqn:Em2; [| |lia].
  { split; [exact I|now left]. }
  assert (Hm1pos : 0 < m1).
  { destruct (Z.eq_dec m1 0) as [E0|]; [|lia].
    rewrite E0, Z.div_0_l in Hm2 by lia. discriminate. }
  assert (Hn2 : fexp prec emax (Zdigits2 m1 + e') <= q - 50).
  { destruct m1 as [|p1|p1]; try lia. cbn [Zdigits2].
    apply fexp_le; [|lia].
    apply (digits_small c q e' p1 Hc); lia. }
  assert (He''q : e'' <= q - 50) by lia.
  assert (Hpow3 : 2 ^ (q - e') = 2 ^ (q - e'') * 2 ^ (Z.max 0 n2)).
  { rewrite <- Z.pow_add_r by lia. f_equal. lia. }
  assert (Hm2le : Zpos m2 <= c * 2 ^ (q - e'')).
  { rewrite Hm2. apply Z.div_le_upper_bound; [lia|].
    rewrite Hpow3 in Hm1. lia. }
  unfold prec, emax. destruct (Z.leb_spec e'' (1024 - 53)); [|lia].
  split; [split; assumption|]. right. now exists m2, e''.
Qed.

(** The rounding of a positive mantissa is a number. *)
Lemma binary_round_aux_not_nan (sx : bool) (M : positive) (e : Z) :
  is_nan (binary_round_aux prec emax sx (Zpos M) e loc_Exact) = false.
Proof.
  unfold binary_round_aux, shr_fexp.
  set (n := fexp prec emax (Zdigits2 (Zpos M) + e) - e).
  destruct (shr_shifted (Zpos M) e n ltac:(lia)) as [Hsh _].
  destruct (shr (shr_record_of_loc (Zpos M) loc_Exact) e n) as [mrs e'].
  cbn [fst] in Hsh. destruct Hsh as [Hk [Hm _]].
  assert (Hpow : 0 < 2 ^ Z.max 0 n) by (apply Z.pow_pos_nonneg; lia).
  assert (Hm0 : 0 <= shr_m mrs) by (rewrite Hm; apply Z.div_pos; lia).
  destruct (round_nearest_even_bounds mrs) as [[Hlo _] _].
  set (m1 := round_nearest_even (shr_m mrs) (loc_of_shr_record mrs)) in *.
  set (n2 := fexp prec emax (Zdigits2 m1 + e') - e').
  destruct (shr_shifted m1 e' n2 ltac:(lia)) as [Hsh2 _].
  destruct (shr (shr_record_of_loc m1 loc_Exact) e' n2) as [mrs2 e''].
  cbn [fst] in Hsh2. destruct Hsh2 as [_ [Hm2 _]].
  assert (Hpow2 : 0 < 2 ^ Z.max 0 n2) by (apply Z.pow_pos_nonneg; lia).
  assert (Hm2pos : 0 <= shr_m mrs2) by (rewrite Hm2; apply Z.div_pos; lia).
  destruct (shr_m mrs2) as [|m2|m2]; [reflexivity| |lia].
  destruct (e'' <=? emax - prec); reflexivity.
Qed.

(** The product of two finite numbers is a number. *)
Lemma mul_finite_not_nan (a s : num) :
  is_finite a = true -> is_finite s = true -> is_nan (a * s)%js = false.
Proof.
  destruct a as [sa|sa| |sa ma ea]; try discriminate;
    destruct s as [ss|ss| |ss ms es]; try discriminate; intros _ _;
    try reflexivity.
  apply binary_round_aux_not_nan.
Qed.

(** ** Bounds read off the comparisons *)

Lemma within_finite (mB : positive) (eB : Z) (s : bool) (m : positive) (e : Z) :
  within (S754_finite false mB eB) (S754_finite s m e) = true <->
  (e < eB \/ (e = eB /\ (m <= mB)%positive)).
Proof.
  unfold within, leb, SFleb, neg, SFopp, SFcompare. cbn [negb].
  destruct s.
  - rewrite andb_true_r.
    change (PosDef.Pos.compare_cont Eq mB m) with (mB ?= m)%positive.
    destruct (Z.compare_spec eB e) as [E|E|E].
    + subst. unfold Pos.le. rewrite (Pos.compare_antisym mB m).
      destruct (mB ?= m)%positive; cbn [CompOpp]; split; intros H;
        try reflexivity; try discriminate.
      * right. split; [reflexivity|discriminate].
      * destruct H as [H|[_ H]]; [lia|]. now contradiction H.
      * right. split; [reflexivity|discriminate].
    + split; [discriminate|]. lia.
    + split; [lia|reflexivity].
  - cbn [andb].
    change (PosDef.Pos.compare_cont Eq m mB) with (m ?= mB)%positive.
    destruct (Z.compare_spec e eB) as [E|E|E].
    + subst. unfold Pos.le.
      destruct (m ?= mB)%positive; split; intros H;
        try reflexivity; try discriminate.
      * right. split; [reflexivity|discriminate].
      * right. split; [reflexivity|discriminate].
      * destruct H as [H|[_ H]]; [lia|]. now contradiction H.
    + split; [lia|reflexivity].
    + split; [discriminate|]. lia.
Qed.

Lemma valid_mantissa (s : bool) (m : positive) (e : Z) :
  valid (S754_finite s m e) = true -> Zpos m < 2 ^ 53.
Proof.
  unfold valid, valid_binary, bounded, canonical_mantissa.
  intros H. apply andb_prop in H. destruct H as [H _].
  apply Z.eqb_eq in H. unfold fexp, emin, prec, emax in H.
  destruct (digits2_pos_bounds m) as [_ Hhi].
  assert (Hle : 2 ^ Zpos (digits2_pos m) <= 2 ^ 53)
    by (apply Z.pow_le_mono_r; lia).
  lia.
Qed.

Lemma within_small (c q : Z) (x : num) :
  4 <= c < 8 -> valid x = true -> within (bound c q) x = true -> small c q x.
Proof.
  intros Hc Hv Hw. destruct x as [s|s| |s m e].
  - exact I.
  - destruct s; discriminate.
  - discriminate.
  - apply within_finite in Hw. cbn [small].
    assert (Hm := valid_mantissa s m e Hv).
    assert (H50 : 0 < 2 ^ 50) by reflexivity.
    destruct Hw as [He|[He Hm']].
    + split; [lia|].
      assert (2 ^ 51 <= 2 ^ (q - e)) by (apply Z.pow_le_mono_r; lia).
      assert (2 ^ 53 = 4 * 2 ^ 51) by reflexivity. nia.
    + split; [lia|]. replace (q - e) with 50 by lia.
      change (Zpos m <= Zpos (Z.to_pos (c * 2 ^ 50))) in Hm'.
      rewrite Z2Pos.id in Hm' by lia. exact Hm'.
Qed.

Lemma small_within (c q : Z) (x : num) :
  4 <= c < 8 -> small c q x -> within (bound c q) x = true.
Proof.
  intros Hc Hs. destruct x as [s|s| |s m e]; try contradiction.
  - reflexivity.
  - apply within_finite. cbn [small] in Hs. destruct Hs as [He Hm].
    assert (H50 : 0 < 2 ^ 50) by reflexivity.
    destruct (Z.eq_dec e (q - 50)) as [E|E]; [right|left; lia].
    split; [exact E|]. replace (q - e) with 50 in Hm by lia.
    change (Zpos m <= Zpos (Z.to_pos (c * 2 ^ 50))).
    rewrite Z2Pos.id by lia. exact Hm.
Qed.

Lemma ten_bound : (#10)%js = bound 5 1.
Proof. reflexivity. Qed.

Lemma one_bound : (#1)%js = bound 4 (-2).
Proof. reflexivity. Qed.

(** The product of a number of magnitude at most 10 and one of
    magnitude at most 1 has magnitude at most 10. *)
Lemma mul_small (a s : num) :
  small 5 1 a -> small 4 (-2) s -> small 5 1 (a * s)%js.
Proof.
  intros Ha Hs.
  destruct a as [sa|sa| |sa ma ea]; try contradiction;
    destruct s as [ss|ss| |ss ms es]; try contradiction; try exact I.
  cbn [small] in Ha, Hs. destruct Ha as [Hea Hma], Hs as [Hes Hms].
  unfold mul, SFmul.
  apply binary_round_aux_small; try lia.
  rewrite Pos2Z.inj_mul.
  assert (H1 : 2 ^ (1 - ea) * 2 ^ (-2 - es) = 2 ^ (-1 - (ea + es))).
  { rewrite <- Z.pow_add_r by lia. f_equal. lia. }
  assert (H2 : 2 ^ (1 - (ea + es)) = 4 * 2 ^ (-1 - (ea + es))).
  { replace (1 - (ea + es)) with (2 + (-1 - (ea + es))) by lia.
    rewrite Z.pow_add_r by lia. reflexivity. }
  assert (0 < 2 ^ (1 - ea)) by (apply Z.pow_pos_nonneg; lia).
  assert (0 < 2 ^ (-2 - es)) by (apply Z.pow_pos_nonneg; lia).
  nia.
Qed.

(** An amplitude between -10 and 10 times a sine between -1 and 1 lies
    between -10 and 10. *)
Lemma mul_in_range (a s : num) :
  valid a = true -> in_range a = true ->
  valid s = true -> within (#1)%js s = true ->
  in_range (a * s)%js = true.
Proof.
  intros Hva Ha Hvs Hs.
  change (in_range (a * s)%js) with (within (#10)%js (a * s)%js).
  change (in_range a) with (within (#10)%js a) in Ha.
  rewrite ten_bound in *. rewrite one_bound in Hs.
  apply small_within; [lia|].
  apply mul_small; apply within_small; (lia || assumption).
Qed.

(** ** Doubles in units of [2^-1074] *)

Lemma valid_finite_inv (s : bool) (m : positive) (e : Z) :
  valid (S754_finite s m e) = true ->
  -1074 <= e <= 971 /\ Zpos (digits2_pos m) <= 53 /\
  (Zpos (digits2_pos m) = 53 \/ e = -1074).
Proof.
  unfold valid, valid_binary, bounded, canonical_mantissa.
  intros H. apply andb_prop in H. destruct H as [H1 H2].
  apply Z.eqb_eq in H1. apply Z.leb_le in H2.
  unfold fexp, emin, prec, emax in *. lia.
Qed.

Lemma valid_finite_intro (s : bool) (m : positive) (e : Z) :
  -1074 <= e <= 971 -> Zpos (digits2_pos m) <= 53 ->
  (Zpos (digits2_pos m) = 53 \/ e = -1074) ->
  valid (S754_finite s m e) = true.
Proof.
  intros He Hd Hc.
  unfold valid, valid_binary, bounded, canonical_mantissa.
  apply andb_true_intro. split.
  - apply Z.eqb_eq. unfold fexp, emin, prec, emax. lia.
  - apply Z.leb_le. unfold prec, emax. lia.
Qed.

Lemma pow2_pos (k : Z) : 0 <= k -> 0 < 2 ^ k.
Proof. intros Hk. apply Z.pow_pos_nonneg; lia. Qed.

Lemma pow2_split (a b : Z) : 0 <= a <= b -> 2 ^ b = 2 ^ a * 2 ^ (b - a).
Proof.
  intros H. rewrite <- Z.pow_add_r by lia. f_equal. lia.
Qed.

(** A valid finite double lies below [2^1024]. *)
Lemma units_finite (s : bool) (m : positive) (e : Z) :
  valid (S754_finite s m e) = true ->
  0 < units (S754_finite s m e) < top_units.
Proof.
  intros Hv. destruct (valid_finite_inv s m e Hv) as [He [Hd _]].
  destruct (digits2_pos_bounds m) as [_ Hhi].
  assert (H53 : 2 ^ Zpos (digits2_pos m) <= 2 ^ 53)
    by (apply Z.pow_le_mono_r; lia).
  cbn [units]. unfold top_units.
  assert (Hp := pow2_pos (e + 1074) ltac:(lia)).
  assert (Hs := pow2_split (e + 1074) 2045 ltac:(lia)).
  assert (Hq := pow2_pos (2045 - (e + 1074)) ltac:(lia)).
  assert (E : 2 ^ 2098 = 2 ^ 53 * 2 ^ 2045)
    by (rewrite <- Z.pow_add_r by lia; reflexivity).
  rewrite E, Hs. split; [lia|].
  set (P := 2 ^ (e + 1074)) in *. set (Q := 2 ^ (2045 - (e + 1074))) in *.
  assert (Zpos m * P < 2 ^ 53 * P) by nia.
  assert (2 ^ 53 * P <= 2 ^ 53 * (P * Q)) by nia.
  lia.
Qed.

Lemma units_nonneg (x : num) : valid x = true -> 0 <= units x <= top_units.
Proof.
  destruct x as [s|s| |s m e]; intros Hv; cbn [units]; unfold top_units.
  - split; [lia|]. apply Z.lt_le_incl, pow2_pos. lia.
  - split; [|lia]. apply Z.lt_le_incl, pow2_pos. lia.
  - split; [lia|]. apply Z.lt_le_incl, pow2_pos. lia.
  - assert (H := units_finite s m e Hv). cbn [units] in H.
    unfold top_units in H. lia.
Qed.

(** The order of the doubles is the order of their values. *)
Lemma units_lt_exp (m1 m2 : positive) (e1 e2 : Z) :
  valid (S754_finite false m1 e1) = true ->
  valid (S754_finite false m2 e2) = true ->
  e1 < e2 ->
  Zpos m1 * 2 ^ (e1 + 1074) < Zpos m2 * 2 ^ (e2 + 1074).
Proof.
  intros H1 H2 He.
  destruct (valid_finite_inv _ _ _ H1) as [He1 [Hd1 _]].
  destruct (valid_finite_inv _ _ _ H2) as [He2 [Hd2 Hc2]].
  destruct (digits2_pos_bounds m1) as [_ Hhi1].
  destruct (digits2_pos_bounds m2) as [Hlo2 _].
  assert (D2 : Zpos (digits2_pos m2) = 53) by lia.
  rewrite D2 in Hlo2. change (2 ^ (53 - 1)) with (2 ^ 52) in Hlo2.
  assert (H53 : 2 ^ Zpos (digits2_pos m1) <= 2 ^ 53)
    by (apply Z.pow_le_mono_r; lia).
  rewrite (pow2_split (e1 + 1074) (e2 + 1074)) by lia.
  assert (Hp := pow2_pos (e1 + 1074) ltac:(lia)).
  assert (Hq : 2 ^ 1 <= 2 ^ (e2 + 1074 - (e1 + 1074)))
    by (apply Z.pow_le_mono_r; lia).
  change (2 ^ 1) with 2 in Hq.
  set (P := 2 ^ (e1 + 1074)) in *.
  set (Q := 2 ^ (e2 + 1074 - (e1 + 1074))) in *.
  assert (E : 2 ^ 53 = 2 * 2 ^ 52) by reflexivity.
  assert (Zpos m1 < Zpos m2 * Q) by nia.
  nia.
Qed.

Lemma ltb_units (x y : num) :
  valid x = true -> valid y = true -> nonneg x = true -> nonneg y = true ->
  (x <? y)%js = (units x <? units y).
Proof.
  intros Hx Hy Nx Ny.
  destruct x as [[|]|[|]| |[|] m1 e1]; try discriminate;
    destruct y as [[|]|[|]| |[|] m2 e2]; try discriminate;
    unfold ltb, SFltb; cbn [SFcompare].
  - reflexivity.
  - symmetry. apply Z.ltb_lt. unfold units, top_units. apply pow2_pos. lia.
  - symmetry. apply Z.ltb_lt. apply (units_finite false m2 e2 Hy).
  - symmetry. apply Z.ltb_ge. unfold units, top_units.
    apply Z.lt_le_incl, pow2_pos. lia.
  - symmetry. apply Z.ltb_ge. lia.
  - symmetry. apply Z.ltb_ge.
    apply Z.lt_le_incl, (units_finite false m2 e2 Hy).
  - symmetry. apply Z.ltb_ge.
    apply Z.lt_le_incl, (units_finite false m1 e1 Hx).
  - symmetry. apply Z.ltb_lt. apply (units_finite false m1 e1 Hx).
  - change (PosDef.Pos.compare_cont Eq m1 m2) with (m1 ?= m2)%positive.
    cbn [units].
    destruct (Z.compare_spec e1 e2) as [E|E|E].
    + subst e2.
      destruct (valid_finite_inv _ _ _ Hx) as [He1 _].
      assert (Hp := pow2_pos (e1 + 1074) ltac:(lia)).
      destruct (Pos.compare_spec m1 m2) as [C|C|C]; symmetry.
      * subst. apply Z.ltb_irrefl.
      * apply Z.ltb_lt. nia.
      * apply Z.ltb_ge. nia.
    + symmetry. apply Z.ltb_lt. now apply units_lt_exp.
    + symmetry. apply Z.ltb_ge. apply Z.lt_le_incl. now apply units_lt_exp.
Qed.

(** ** The rounding of a positive value *)

Lemma shr_record_of_loc_m (m : Z) (l : location) :
  shr_m (shr_record_of_loc m l) = m.
Proof. destruct l as [|[| |]]; reflexivity. Qed.

(** The mantissa after a right shift, whatever the location. *)
Lemma shr_m_spec (m0 : Z) (l : location) (e n : Z) :
  0 <= m0 ->
  shr_m (fst (shr (shr_record_of_loc m0 l) e n)) = m0 / 2 ^ Z.max 0 n /\
  snd (shr (shr_record_of_loc m0 l) e n) = e + Z.max 0 n.
Proof.
  intros Hm.
  assert (H0 : shr_m (shr_record_of_loc m0 l) = m0 / 2 ^ 0)
    by (rewrite shr_record_of_loc_m, Z.pow_0_r, Z.div_1_r; reflexivity).
  unfold shr. destruct n as [|p|p]; cbn [fst snd].
  - split; [exact H0|lia].
  - split; [|lia]. replace (Z.max 0 (Zpos p)) with (0 + Zpos p) by lia.
    apply (iter_pos_invariant shr_1
             (fun k mrs => 0 <= k /\ shr_m mrs = m0 / 2 ^ k)).
    + intros k x [Hk Hx].
      assert (Hpow := pow2_pos k Hk).
      assert (Hx0 : 0 <= shr_m x) by (rewrite Hx; apply Z.div_pos; lia).
      destruct (shr_1_spec x Hx0) as [H1 _].
      split; [lia|]. rewrite H1, Hx, Z.div_div by lia.
      f_equal. rewrite Z.pow_add_r by lia. reflexivity.
    + split; [lia|exact H0].
  - split; [exact H0|lia].
Qed.

Lemma round_nearest_even_range (m : Z) (l : location) :
  m <= round_nearest_even m l <= m + 1.
Proof.
  destruct l as [|[| |]]; cbn [round_nearest_even];
    try destruct (Z.even m); lia.
Qed.

(** The rounding of [M * 2^e] to a double: the result is a double, and
    it is one of the two multiples of the spacing [2^g] around
    [M * 2^e], or [+Infinity] when that multiple reaches [2^1024]. *)
Lemma round_units (M : positive) (e : Z) (l : location) :
  -1074 <= e <= fexp prec emax (Zpos (digits2_pos M) + e) ->
  let r := binary_round_aux prec emax false (Zpos M) e l in
  let g := fexp prec emax (Zpos (digits2_pos M) + e) in
  let m0 := Zpos M / 2 ^ (g - e) in
  valid r = true /\ nonneg r = true /\
  exists m1, m0 <= m1 <= m0 + 1 /\
             (g = -1074 \/ 2 ^ 52 <= m0) /\
             units r = Z.min (m1 * 2 ^ (g + 1074)) top_units.
Proof.
  intros He r g m0. subst r.
  unfold binary_round_aux, shr_fexp. cbn [Zdigits2]. fold g.
  assert (Hgdef : g = Z.max (Zpos (digits2_pos M) + e - 53) (-1074))
    by reflexivity.
  assert (Hm0def : m0 = Zpos M / 2 ^ (g - e)) by reflexivity.
  fold g in He. clearbody m0. clearbody g.
  destruct (shr_m_spec (Zpos M) l e (g - e) ltac:(lia)) as [Hm He0].
  destruct (shr (shr_record_of_loc (Zpos M) l) e (g - e)) as [mrs e0].
  cbn [fst snd] in Hm, He0.
  replace (Z.max 0 (g - e)) with (g - e) in Hm, He0 by lia.
  assert (Eg : e0 = g) by lia. clear He0. subst e0. rewrite <- Hm0def in Hm.
  cbv beta iota.
  destruct (digits2_pos_bounds M) as [Dlo Dhi].
  set (D := Zpos (digits2_pos M)) in *.
  assert (HD : 0 < D) by (unfold D; lia).
  assert (Hk := pow2_pos (g - e) ltac:(lia)).
  assert (Hm0 : 0 <= m0 < 2 ^ 53 /\ (g = -1074 \/ 2 ^ 52 <= m0)).
  { rewrite Hm0def.
    destruct (Z.max_spec (D + e - 53) (-1074)) as [[C E]|[C E]];
      rewrite E in Hgdef.
    - assert (H52 : 2 ^ D <= 2 ^ (52 + (g - e)))
        by (apply Z.pow_le_mono_r; lia).
      rewrite Z.pow_add_r in H52 by lia.
      split; [|left; exact Hgdef]. split.
      + apply Z.div_pos; lia.
      + assert (Zpos M / 2 ^ (g - e) < 2 ^ 52)
          by (apply Z.div_lt_upper_bound; lia).
        assert (2 ^ 52 < 2 ^ 53) by reflexivity. lia.
    - assert (E1 : 2 ^ (D - 1) = 2 ^ 52 * 2 ^ (g - e)).
      { rewrite <- Z.pow_add_r by lia. f_equal. lia. }
      assert (E2 : 2 ^ D = 2 ^ 53 * 2 ^ (g - e)).
      { rewrite <- Z.pow_add_r by lia. f_equal. lia. }
      assert (L : 2 ^ 52 <= Zpos M / 2 ^ (g - e))
        by (apply Z.div_le_lower_bound; lia).
      assert (U : Zpos M / 2 ^ (g - e) < 2 ^ 53)
        by (apply Z.div_lt_upper_bound; lia).
      assert (0 < 2 ^ 52) by reflexivity.
      split; [lia|right; exact L]. }
  destruct Hm0 as [[Hm0lo Hm0hi] Hnorm].
  assert (Hr := round_nearest_even_range (shr_m mrs) (loc_of_shr_record mrs)).
  set (m1 := round_nearest_even (shr_m mrs) (loc_of_shr_record mrs)) in *.
  rewrite Hm in Hr.
  assert (Hg : -1074 <= g) by lia.
  assert (HG := pow2_pos (g + 1074) ltac:(lia)).
  assert (Htop : 0 < top_units) by (unfold top_units; apply pow2_pos; lia).
  destruct (shr_m_spec m1 loc_Exact g
              (fexp prec emax (Zdigits2 m1 + g) - g) ltac:(lia)) as [Hm2 He2].
  destruct (shr (shr_record_of_loc m1 loc_Exact) g
              (fexp prec emax (Zdigits2 m1 + g) - g)) as [mrs2 e2].
  cbn [fst snd] in Hm2, He2. cbv beta iota.
  destruct m1 as [|p1|p1] eqn:Em1; [| |lia].
  - (* the value rounds to zero *)
    cbn [Zdigits2] in Hm2, He2.
    replace (Z.max 0 (fexp prec emax (0 + g) - g)) with 0 in Hm2, He2
      by (unfold fexp, emin, prec, emax; lia).
    rewrite Z.pow_0_r, Z.div_1_r in Hm2. rewrite Hm2.
    split; [reflexivity|]. split; [reflexivity|].
    exists 0. split; [lia|]. split; [exact Hnorm|].
    cbn [units]. lia.
  - cbn [Zdigits2] in Hm2, He2.
    destruct (Z_lt_le_dec (Zpos p1) (2 ^ 53)) as [Hlt|Hge].
    + (* no carry *)
      assert (Hd1 := digits2_pos_le p1 53 ltac:(lia) Hlt).
      replace (Z.max 0 (fexp prec emax (Zpos (digits2_pos p1) + g) - g))
        with 0 in Hm2, He2 by (unfold fexp, emin, prec, emax; lia).
      rewrite Z.pow_0_r, Z.div_1_r in Hm2. rewrite Hm2.
      rewrite Z.add_0_r in He2. subst e2.
      assert (Hcan : Zpos (digits2_pos p1) = 53 \/ g = -1074).
      { destruct Hnorm as [Hn|Hn]; [now right|left].
        destruct (digits2_pos_bounds p1) as [_ Hhi1].
        destruct (Z_lt_le_dec (Zpos (digits2_pos p1)) 53) as [C|C]; [|lia].
        assert (2 ^ Zpos (digits2_pos p1) <= 2 ^ 52)
          by (apply Z.pow_le_mono_r; lia).
        lia. }
      unfold prec, emax. destruct (Z.leb_spec g (1024 - 53)) as [Hle|Hgt].
      * assert (Hv : valid (S754_finite false p1 g) = true)
          by (apply valid_finite_intro; lia).
        split; [exact Hv|]. split; [reflexivity|].
        exists (Zpos p1). split; [lia|]. split; [exact Hnorm|].
        assert (Hu := units_finite false p1 g Hv). cbn [units] in *. lia.
      * split; [reflexivity|]. split; [reflexivity|].
        exists (Zpos p1). split; [lia|]. split; [exact Hnorm|].
        cbn [units].
        destruct Hnorm as [Hn|Hn]; [lia|].
        assert (Hp : 2 ^ 2046 <= 2 ^ (g + 1074))
          by (apply Z.pow_le_mono_r; lia).
        assert (E : top_units = 2 ^ 52 * 2 ^ 2046)
          by (unfold top_units; rewrite <- Z.pow_add_r by lia; reflexivity).
        assert (0 < 2 ^ 52) by reflexivity.
        assert (0 < 2 ^ 2046) by (apply pow2_pos; lia).
        assert (top_units <= Zpos p1 * 2 ^ (g + 1074)) by nia.
        lia.
    + (* the mantissa is rounded up to 2^53 *)
      assert (Ep : Zpos p1 = 2 ^ 53) by lia.
      assert (Ep1 : p1 = 9007199254740992%positive).
      { apply Pos2Z.inj. rewrite Ep. reflexivity. }
      subst p1.
      change (Zpos (digits2_pos 9007199254740992)) with 54 in Hm2, He2.
      replace (Z.max 0 (fexp prec emax (54 + g) - g)) with 1 in Hm2, He2
        by (unfold fexp, emin, prec, emax; lia).
      change (9007199254740992 / 2 ^ 1) with 4503599627370496 in Hm2.
      rewrite Hm2. subst e2.
      unfold prec, emax. destruct (Z.leb_spec (g + 1) (1024 - 53)) as [Hle|Hgt].
      * assert (Hv : valid (S754_finite false 4503599627370496 (g + 1)) = true).
        { apply valid_finite_intro; [lia| |left]; reflexivity. }
        split; [exact Hv|]. split; [reflexivity|].
        exists 9007199254740992. split; [lia|]. split; [exact Hnorm|].
        assert (Hu := units_finite false _ _ Hv). cbn [units] in *.
        replace (g + 1 + 1074) with (1 + (g + 1074)) in * by lia.
        rewrite Z.pow_add_r in * by lia. change (2 ^ 1) with 2 in *. lia.
      * split; [reflexivity|]. split; [reflexivity|].
        exists 9007199254740992. split; [lia|]. split; [exact Hnorm|].
        cbn [units].
        assert (Hp : 2 ^ 2045 <= 2 ^ (g + 1074))
          by (apply Z.pow_le_mono_r; lia).
        assert (E : top_units = 9007199254740992 * 2 ^ 2045)
          by (unfold top_units; change 9007199254740992 with (2 ^ 53);
              rewrite <- Z.pow_add_r by lia; reflexivity).
        assert (0 < 2 ^ 2045) by (apply pow2_pos; lia).
        lia.
Qed.

(** ** Sums and quotients of doubles *)

Lemma iter_xO (m d : positive) :
  Zpos (Pos.iter xO m d) = Zpos m * 2 ^ Zpos d /\
  Zpos (digits2_pos (Pos.iter xO m d)) = Zpos (digits2_pos m) + Zpos d.
Proof.
  induction d as [|d IH] using Pos.peano_ind.
  - cbn [Pos.iter digits2_pos]. rewrite Pos2Z.inj_succ. split; lia.
  - rewrite Pos.iter_succ. cbn [digits2_pos].
    rewrite !Pos2Z.inj_succ, Pos2Z.inj_xO.
    destruct IH as [IH1 IH2]. rewrite IH1, IH2.
    rewrite Z.pow_succ_r by lia. split; lia.
Qed.

(** The alignment of a mantissa on a smaller exponent. *)
Lemma shl_align_spec (m : positive) (e e1 : Z) :
  let m' := fst (shl_align m e e1) in
  let e' := snd (shl_align m e e1) in
  e' = Z.min e e1 /\ Zpos m' = Zpos m * 2 ^ (e - e') /\
  Zpos (digits2_pos m') + e' = Zpos (digits2_pos m) + e.
Proof.
  unfold shl_align. destruct (e1 - e) as [|d|d] eqn:E; cbn [fst snd].
  - replace (e - e) with 0 by lia. rewrite Z.pow_0_r. lia.
  - replace (e - e) with 0 by lia. rewrite Z.pow_0_r. lia.
  - destruct (iter_xO m d) as [H1 H2]. rewrite H1, H2.
    replace (e - e1) with (Zpos d) by lia. lia.
Qed.

(** The rounding of the whole number of units [V]. *)
Lemma round_units_exact_input (M : positive) (e : Z) :
  -1074 <= e ->
  let r := binary_round prec emax false M e in
  let V := Zpos M * 2 ^ (e + 1074) in
  valid r = true /\ nonneg r = true /\
  exists G R, 0 < G /\ (G = 1 \/ 2 ^ 52 * G <= V) /\
              V - G < R <= V + G /\
              units r = Z.min R top_units.
Proof.
  intros He r V. subst r. unfold binary_round.
  destruct (shl_align_spec M e (fexp prec emax (Zpos (digits2_pos M) + e)))
    as [H1 [H2 H3]].
  destruct (shl_align M e (fexp prec emax (Zpos (digits2_pos M) + e)))
    as [mz ez]. cbn [fst snd] in H1, H2, H3.
  assert (Hfe : -1074 <= fexp prec emax (Zpos (digits2_pos M) + e))
    by (unfold fexp, emin, prec, emax; lia).
  assert (Hpre : -1074 <= ez <= fexp prec emax (Zpos (digits2_pos mz) + ez)).
  { rewrite H3. lia. }
  destruct (round_units mz ez loc_Exact Hpre) as [Hv [Hn [m1 [Hm1 [Hnorm Hu]]]]].
  split; [exact Hv|]. split; [exact Hn|].
  rewrite H3 in Hu, Hnorm, Hm1.
  set (g := fexp prec emax (Zpos (digits2_pos M) + e)) in *.
  assert (Hge : ez <= g) by lia.
  assert (Hk := pow2_pos (g - ez) ltac:(lia)).
  assert (Hz := pow2_pos (ez + 1074) ltac:(lia)).
  assert (HG : 2 ^ (g + 1074) = 2 ^ (g - ez) * 2 ^ (ez + 1074)).
  { rewrite <- Z.pow_add_r by lia. f_equal. lia. }
  assert (HV : V = Zpos mz * 2 ^ (ez + 1074)).
  { unfold V. rewrite H2, <- Z.mul_assoc, <- Z.pow_add_r by lia.
    do 2 f_equal. lia. }
  set (m0 := Zpos mz / 2 ^ (g - ez)) in *.
  assert (Hdiv := Z.mul_div_le (Zpos mz) (2 ^ (g - ez)) Hk).
  assert (Hdiv2 := Z.mul_succ_div_gt (Zpos mz) (2 ^ (g - ez)) Hk).
  fold m0 in Hdiv, Hdiv2.
  exists (2 ^ (g + 1074)), (m1 * 2 ^ (g + 1074)).
  split; [apply pow2_pos; lia|]. split; [|split; [|exact Hu]].
  - destruct Hnorm as [Hn1|Hn1]; [left; rewrite Hn1; reflexivity|right].
    rewrite HV, HG.
    set (P := 2 ^ (g - ez)) in *. set (Q := 2 ^ (ez + 1074)) in *. nia.
  - rewrite HV, HG.
    set (P := 2 ^ (g - ez)) in *. set (Q := 2 ^ (ez + 1074)) in *. nia.
Qed.

(** The sum of two doubles that are not negative. *)
Lemma add_units (x y : num) :
  valid x = true -> valid y = true -> nonneg x = true -> nonneg y = true ->
  let V := units x + units y in
  valid (x + y)%js = true /\ nonneg (x + y)%js = true /\
  exists G R, 0 < G /\ (G = 1 \/ 2 ^ 52 * G <= V) /\
              V - G < R <= V + G /\
              units (x + y)%js = Z.min R top_units.
Proof.
  intros Hx Hy Nx Ny V.
  assert (Htop : 0 < top_units) by (unfold top_units; apply pow2_pos; lia).
  assert (Hplain : forall r : num,
             valid r = true -> nonneg r = true -> units r = Z.min V top_units ->
             valid r = true /\ nonneg r = true /\
             exists G R, 0 < G /\ (G = 1 \/ 2 ^ 52 * G <= V) /\
                         V - G < R <= V + G /\ units r = Z.min R top_units).
  { intros r Hv Hn Hu. split; [exact Hv|]. split; [exact Hn|].
    exists 1, V. split; [lia|]. split; [now left|]. split; [lia|exact Hu]. }
  assert (Ux := units_nonneg x Hx). assert (Uy := units_nonneg y Hy).
  destruct x as [[|]|[|]| |[|] mx ex]; try discriminate;
    destruct y as [[|]|[|]| |[|] my ey]; try discriminate;
    try (apply Hplain;
         [first [reflexivity|exact Hx|exact Hy]|reflexivity|
          unfold V, add, SFadd; cbn [units] in *; lia]).
  unfold add, SFadd. cbn [cond_Zopp].
  destruct (valid_finite_inv _ _ _ Hx) as [Hex _].
  destruct (valid_finite_inv _ _ _ Hy) as [Hey _].
  destruct (shl_align_spec mx ex (Z.min ex ey)) as [A1 [A2 _]].
  destruct (shl_align_spec my ey (Z.min ex ey)) as [B1 [B2 _]].
  rewrite A2, B2, A1, B1.
  replace (Z.min ex (Z.min ex ey)) with (Z.min ex ey) by lia.
  replace (Z.min ey (Z.min ex ey)) with (Z.min ex ey) by lia.
  set (ez := Z.min ex ey).
  assert (Px := pow2_pos (ex - ez) ltac:(lia)).
  assert (Py := pow2_pos (ey - ez) ltac:(lia)).
  destruct (Zpos mx * 2 ^ (ex - ez) + Zpos my * 2 ^ (ey - ez)) as [|M|M] eqn:EM;
    try lia.
  cbn [binary_normalize].
  assert (HV : V = Zpos M * 2 ^ (ez + 1074)).
  { unfold V. cbn [units]. rewrite <- EM, Z.mul_add_distr_r.
    rewrite <- !Z.mul_assoc, <- !Z.pow_add_r by lia.
    f_equal; do 2 f_equal; lia. }
  rewrite HV. apply round_units_exact_input. lia.
Qed.

Lemma shiftl_core (m : positive) (s : Z) :
  0 <= s ->
  match s with
  | Zpos _ => Z.shiftl (Zpos m) s
  | 0 => Zpos m
  | Zneg _ => 0
  end = Zpos m * 2 ^ s.
Proof.
  intros Hs. destruct s as [|p|p]; [rewrite Z.pow_0_r; lia| |lia].
  apply Z.shiftl_mul_pow2. lia.
Qed.

(** A positive integer of at least [2^k] has more than [k] digits. *)
Lemma digits2_pos_gt (p : positive) (k : Z) :
  0 <= k -> 2 ^ k <= Zpos p -> k < Zpos (digits2_pos p).
Proof.
  intros Hk Hp. destruct (digits2_pos_bounds p) as [_ Hhi].
  apply (Z.pow_lt_mono_r_iff 2); lia.
Qed.

(** The quotient of two positive doubles, when it is at least one unit
    and the exponents are not too far apart. *)
Lemma div_units (mx my : positive) (ex ey : Z) :
  let x := S754_finite false mx ex in
  let y := S754_finite false my ey in
  valid x = true -> valid y = true -> -1074 <= ex - ey ->
  units y <= units x * 2 ^ 1074 ->
  valid (x / y)%js = true /\ nonneg (x / y)%js = true /\
  exists G R, 0 < G /\ (G = 1 \/ 2 ^ 52 * G <= R) /\
              (R - G) * units y <= units x * 2 ^ 1074 < (R + G) * units y /\
              units (x / y)%js = Z.min R top_units.
Proof.
  intros x y Hx Hy Hexy Hq. subst x y.
  destruct (valid_finite_inv _ _ _ Hx) as [Hex [Hdx _]].
  destruct (valid_finite_inv _ _ _ Hy) as [Hey [Hdy _]].
  destruct (digits2_pos_bounds mx) as [Dxlo Dxhi].
  destruct (digits2_pos_bounds my) as [Dylo Dyhi].
  cbn [units] in *.
  unfold div, SFdiv, SFdiv_core_binary. cbn [xorb Zdigits2].
  set (d1 := Zpos (digits2_pos mx)) in *.
  set (d2 := Zpos (digits2_pos my)) in *.
  assert (Hd1 : 0 < d1) by (unfold d1; lia).
  assert (Hd2 : 0 < d2) by (unfold d2; lia).
  set (F := d1 + ex - (d2 + ey)).
  set (e' := Z.min (fexp prec emax F) (ex - ey)).
  assert (Hfe : forall z, -1074 <= fexp prec emax z)
    by (intros z; unfold fexp, emin, prec, emax; lia).
  assert (He' : -1074 <= e' <= ex - ey) by (unfold e'; specialize (Hfe F); lia).
  set (s := ex - ey - e').
  assert (Hs : 0 <= s) by (unfold s; lia).
  rewrite (shiftl_core mx s Hs).
  assert (Hmy : 0 < Zpos my) by lia.
  assert (Hps := pow2_pos s Hs).
  assert (Hdiv := Z.mul_div_le (Zpos mx * 2 ^ s) (Zpos my) Hmy).
  assert (Hdiv2 := Z.mul_succ_div_gt (Zpos mx * 2 ^ s) (Zpos my) Hmy).
  assert (Hqdef : fst (Z.div_eucl (Zpos mx * 2 ^ s) (Zpos my))
                  = Zpos mx * 2 ^ s / Zpos my) by reflexivity.
  destruct (Z.div_eucl (Zpos mx * 2 ^ s) (Zpos my)) as [q r0].
  cbn [fst] in Hqdef. rewrite <- Hqdef in Hdiv, Hdiv2. clear Hqdef.
  (* units *)
  set (px := 2 ^ (ex + 1074)) in *. set (py := 2 ^ (ey + 1074)) in *.
  assert (Hpx : 0 < px) by (apply pow2_pos; lia).
  assert (Hpy : 0 < py) by (apply pow2_pos; lia).
  set (g0 := 2 ^ (e' + 1074)).
  assert (Hg0 : 0 < g0) by (apply pow2_pos; lia).
  assert (Hid : px * 2 ^ 1074 = 2 ^ s * (py * g0)).
  { unfold px, py, g0, s. rewrite <- !Z.pow_add_r by lia. f_equal. lia. }
  assert (Hlo : q * g0 * (Zpos my * py) <= Zpos mx * px * 2 ^ 1074).
  { replace (Zpos mx * px * 2 ^ 1074) with (Zpos mx * (px * 2 ^ 1074)) by lia.
    rewrite Hid.
    replace (q * g0 * (Zpos my * py)) with (Zpos my * q * (py * g0)) by lia.
    replace (Zpos mx * (2 ^ s * (py * g0)))
      with (Zpos mx * 2 ^ s * (py * g0)) by lia.
    apply Z.mul_le_mono_nonneg_r; lia. }
  assert (Hhi : Zpos mx * px * 2 ^ 1074 < (q + 1) * g0 * (Zpos my * py)).
  { replace (Zpos mx * px * 2 ^ 1074) with (Zpos mx * (px * 2 ^ 1074)) by lia.
    rewrite Hid.
    replace ((q + 1) * g0 * (Zpos my * py))
      with (Zpos my * Z.succ q * (py * g0)) by lia.
    replace (Zpos mx * (2 ^ s * (py * g0)))
      with (Zpos mx * 2 ^ s * (py * g0)) by lia.
    apply Z.mul_lt_mono_pos_r; lia. }
  (* the quotient is positive and has digits enough *)
  assert (Hq1 : 1 <= q /\
                forall Q, q = Zpos Q ->
                          e' <= fexp prec emax (Zpos (digits2_pos Q) + e')).
  { destruct (Z_le_gt_dec (F - 53) (-1074)) as [C|C].
    - assert (Ee : e' = -1074)
        by (unfold e', fexp, emin, prec, emax; lia).
      split.
      + assert (Eg : g0 = 1) by (unfold g0; rewrite Ee; reflexivity).
        rewrite Eg in Hhi.
        destruct (Z_lt_le_dec q 1) as [L|L]; [|exact L]. exfalso.
        assert ((q + 1) * 1 * (Zpos my * py) <= Zpos my * py) by nia.
        lia.
      + intros Q _. rewrite Ee. apply Hfe.
    - assert (Ef : fexp prec emax F = F - 53)
        by (unfold fexp, emin, prec, emax; lia).
      assert (Hs' : 0 <= F - 53 - e') by (unfold e'; lia).
      assert (Hsplit : 2 ^ s = 2 ^ (d2 - d1 + 53) * 2 ^ (F - 53 - e')).
      { rewrite <- Z.pow_add_r by lia. f_equal. unfold s, F. lia. }
      assert (Hlow : 2 ^ (d1 - 1) * 2 ^ (d2 - d1 + 53) = 2 ^ 52 * 2 ^ d2).
      { rewrite <- !Z.pow_add_r by lia. f_equal. lia. }
      assert (Hp1 := pow2_pos (d2 - d1 + 53) ltac:(lia)).
      assert (Hp2 := pow2_pos (F - 53 - e') Hs').
      assert (Hp3 := pow2_pos d2 ltac:(lia)).
      assert (H52 : 0 < 2 ^ 52) by reflexivity.
      assert (Hbig : 2 ^ (52 + (F - 53 - e')) <= q).
      { destruct (Z_lt_le_dec q (2 ^ (52 + (F - 53 - e')))) as [L|L];
          [exfalso|exact L].
        rewrite Z.pow_add_r in L by lia.
        assert (A1 : Zpos my * Z.succ q <= Zpos my * (2 ^ 52 * 2 ^ (F - 53 - e')))
          by (apply Z.mul_le_mono_nonneg_l; lia).
        assert (A2 : 2 ^ 52 * 2 ^ d2 * 2 ^ (F - 53 - e') <= Zpos mx * 2 ^ s).
        { rewrite Hsplit, <- Hlow.
          set (P1 := 2 ^ (d2 - d1 + 53)) in *.
          set (P2 := 2 ^ (F - 53 - e')) in *.
          rewrite <- Z.mul_assoc.
          apply Z.mul_le_mono_nonneg_r; [|exact Dxlo].
          apply Z.lt_le_incl, Z.mul_pos_pos; assumption. }
        assert (A3 : Zpos my * (2 ^ 52 * 2 ^ (F - 53 - e'))
                     < 2 ^ 52 * 2 ^ d2 * 2 ^ (F - 53 - e')).
        { set (P2 := 2 ^ (F - 53 - e')) in *.
          rewrite (Z.mul_comm (2 ^ 52) (2 ^ d2)), <- Z.mul_assoc.
          apply Z.mul_lt_mono_pos_r; [|exact Dyhi].
          apply Z.mul_pos_pos; assumption. }
        lia. }
      assert (Hqpos : 0 < 2 ^ (52 + (F - 53 - e'))) by (apply pow2_pos; lia).
      split; [lia|].
      intros Q EQ. rewrite EQ in Hbig.
      assert (Hdg := digits2_pos_gt Q (52 + (F - 53 - e')) ltac:(lia) Hbig).
      unfold fexp, emin, prec, emax. unfold e', fexp, emin, prec, emax in *.
      lia. }
  destruct Hq1 as [Hq1 Hpre].
  destruct q as [|Q|Q]; try lia.
  specialize (Hpre Q eq_refl).
  destruct (round_units Q e' (new_location (Zpos my) r0) ltac:(lia))
    as [Hv [Hn [m1 [Hm1 [Hnorm Hu]]]]].
  split; [exact Hv|]. split; [exact Hn|].
  set (g := fexp prec emax (Zpos (digits2_pos Q) + e')) in *.
  assert (Hk := pow2_pos (g - e') ltac:(lia)).
  assert (HG : 2 ^ (g + 1074) = 2 ^ (g - e') * g0).
  { unfold g0. rewrite <- Z.pow_add_r by lia. f_equal. lia. }
  set (m0 := Zpos Q / 2 ^ (g - e')) in *.
  assert (Hd := Z.mul_div_le (Zpos Q) (2 ^ (g - e')) Hk).
  assert (Hd' := Z.mul_succ_div_gt (Zpos Q) (2 ^ (g - e')) Hk).
  fold m0 in Hd, Hd'.
  exists (2 ^ (g + 1074)), (m1 * 2 ^ (g + 1074)).
  split; [apply pow2_pos; lia|]. split; [|split; [|exact Hu]].
  - destruct Hnorm as [Hn1|Hn1]; [left; rewrite Hn1; reflexivity|right].
    apply Z.mul_le_mono_nonneg_r; [apply Z.lt_le_incl, pow2_pos|]; lia.
  - rewrite HG. set (P := 2 ^ (g - e')) in *.
    set (Y := Zpos my * py) in *.
    assert (HY : 0 < Y) by (apply Z.mul_pos_pos; assumption).
    split.
    + apply Z.le_trans with (2 := Hlo).
      apply Z.mul_le_mono_nonneg_r; [lia|].
      assert (Hpg : 0 <= P * g0) by (apply Z.lt_le_incl, Z.mul_pos_pos; lia).
      assert (B1 := Z.mul_le_mono_nonneg_r (m1 - 1) m0 (P * g0) Hpg
                      ltac:(lia)).
      assert (B2 := Z.mul_le_mono_nonneg_r (P * m0) (Zpos Q) g0
                      (Z.lt_le_incl _ _ Hg0) Hd).
      lia.
    + apply Z.lt_le_trans with (1 := Hhi).
      apply Z.mul_le_mono_nonneg_r; [lia|].
      assert (Hpg : 0 <= P * g0) by (apply Z.lt_le_incl, Z.mul_pos_pos; lia).
      assert (B1 := Z.mul_le_mono_nonneg_r m0 m1 (P * g0) Hpg ltac:(lia)).
      assert (B2 := Z.mul_le_mono_nonneg_r (Zpos Q + 1) (P * Z.succ m0) g0
                      (Z.lt_le_incl _ _ Hg0) ltac:(lia)).
      lia.
Qed.

(** A canonical mantissa is left alone by the rounding. *)
Lemma binary_round_aux_canonical (m : positive) (e : Z) :
  fexp prec emax (Zpos (digits2_pos m) + e) = e -> e <= 971 ->
  binary_round_aux prec emax false (Zpos m) e loc_Exact
  = S754_finite false m e.
Proof.
  intros Hc He. unfold binary_round_aux, shr_fexp. cbn [Zdigits2].
  rewrite Hc, Z.sub_diag. cbn [shr shr_record_of_loc shr_m loc_of_shr_record
    round_nearest_even Zdigits2].
  rewrite Hc, Z.sub_diag. cbn [shr shr_record_of_loc shr_m].
  unfold prec, emax. destruct (Z.leb_spec e (1024 - 53)); [reflexivity|lia].
Qed.

(** The double of a positive integer below [2^53] is that integer. *)
Lemma ofZ_pos (n : Z) :
  0 < n < 2 ^ 53 ->
  exists m e, (#n)%js = S754_finite false m e /\
              valid (S754_finite false m e) = true /\
              -52 <= e <= 0 /\ Zpos m * 2 ^ (e + 1074) = n * 2 ^ 1074.
Proof.
  intros Hn. destruct n as [|N|N]; try lia.
  unfold ofZ. cbn [binary_normalize]. unfold binary_round.
  assert (Hd := digits2_pos_le N 53 ltac:(lia) ltac:(lia)).
  assert (Hd0 : 0 < Zpos (digits2_pos N)) by lia.
  assert (Hf : fexp prec emax (Zpos (digits2_pos N) + 0)
               = Zpos (digits2_pos N) - 53)
    by (unfold fexp, emin, prec, emax; lia).
  destruct (shl_align_spec N 0 (fexp prec emax (Zpos (digits2_pos N) + 0)))
    as [H1 [H2 H3]].
  destruct (shl_align N 0 (fexp prec emax (Zpos (digits2_pos N) + 0)))
    as [mz ez]. cbn [fst snd] in H1, H2, H3.
  rewrite Hf in H1.
  assert (Ez : ez = Zpos (digits2_pos N) - 53) by lia.
  assert (Hcan : fexp prec emax (Zpos (digits2_pos mz) + ez) = ez)
    by (rewrite H3, Hf; lia).
  rewrite (binary_round_aux_canonical mz ez Hcan ltac:(lia)).
  exists mz, ez. split; [reflexivity|]. split; [|split; [lia|]].
  - unfold valid, valid_binary, bounded, canonical_mantissa.
    rewrite Hcan, Z.eqb_refl. apply Z.leb_le. unfold prec, emax. lia.
  - rewrite H2, <- Z.mul_assoc, <- Z.pow_add_r by lia.
    do 2 f_equal. lia.
Qed.

(** A rounding that carries the minus sign gives nothing above 0. *)
Lemma binary_round_aux_negative (m e : Z) (l : location) :
  (#0 <? binary_round_aux prec emax true m e l)%js = false.
Proof.
  unfold binary_round_aux.
  destruct (shr_fexp prec emax m e l) as [mrs' e'].
  destruct (shr_fexp prec emax _ e' loc_Exact) as [mrs'' e''].
  destruct (shr_m mrs'') as [|p|p]; try reflexivity.
  destruct (e'' <=? emax - prec); reflexivity.
Qed.

(** The widths that reach the overlay: the [width] attribute of the
    canvas over the device pixel ratio.  Such a width is not above 0,
    or it is a double of at least [2^-1024]. *)
Lemma overlay_width_cases (n : Z) (dpr : num) :
  0 <= n < 2 ^ 32 -> valid dpr = true ->
  let W := (#n / dpr)%js in
  (#0 <? W)%js = false \/
  (valid W = true /\ nonneg W = true /\ 2 ^ 50 <= units W).
Proof.
  intros Hn Hv W. subst W.
  destruct (Z.eq_dec n 0) as [->|Hn0].
  { left. destruct dpr as [s|s| |s m e]; try reflexivity;
      destruct s; reflexivity. }
  assert (H32 : 2 ^ 32 < 2 ^ 53) by reflexivity.
  destruct (ofZ_pos n ltac:(lia)) as [mx [ex [E [Hvx [Hex Hux]]]]].
  rewrite E.
  destruct dpr as [s|s| |s my ey].
  - destruct s; [left; reflexivity|right].
    split; [reflexivity|]. split; [reflexivity|].
    change (2 ^ 50 <= 2 ^ 2098). apply Z.pow_le_mono_r; lia.
  - left. destruct s; reflexivity.
  - left. reflexivity.
  - destruct s.
    + left. unfold div, SFdiv. cbn [xorb].
      destruct (SFdiv_core_binary prec emax (Zpos mx) ex (Zpos my) ey)
        as [[mz ez] lz].
      apply binary_round_aux_negative.
    + right.
      destruct (valid_finite_inv _ _ _ Hv) as [Hey _].
      assert (Uy := units_finite false my ey Hv).
      assert (P1074 : 0 < 2 ^ 1074) by (apply pow2_pos; lia).
      assert (Etop : 2 ^ 50 * top_units = 2 ^ 1074 * 2 ^ 1074).
      { unfold top_units. rewrite <- !Z.pow_add_r by lia. reflexivity. }
      assert (P50 : 0 < 2 ^ 50) by (apply pow2_pos; lia).
      assert (P52 : 2 ^ 52 = 4 * 2 ^ 50)
        by (change 52 with (2 + 50); rewrite Z.pow_add_r by lia; reflexivity).
      assert (Htop : 2 ^ 50 <= top_units)
        by (unfold top_units; apply Z.pow_le_mono_r; lia).
      cbn [units] in Uy.
      set (Y := Zpos my * 2 ^ (ey + 1074)) in *.
      set (T := 2 ^ 1074) in *. set (c := 2 ^ 50) in *.
      assert (HTT : T <= n * T) by nia.
      assert (HcY : c * Y < n * T * T).
      { apply Z.lt_le_trans with (c * top_units).
        - apply Z.mul_lt_mono_pos_l; lia.
        - rewrite Etop. apply Z.mul_le_mono_nonneg_r; lia. }
      assert (Hq : units (S754_finite false my ey)
                   <= units (S754_finite false mx ex) * T).
      { cbn [units]. fold Y. rewrite Hux.
        apply Z.le_trans with (c * Y); [|lia].
        replace Y with (1 * Y) at 1 by lia.
        apply Z.mul_le_mono_nonneg_r; lia. }
      destruct (div_units mx my ex ey Hvx Hv ltac:(lia) Hq)
        as [Hvr [Hnr [G [R [HG [Hnorm [[_ Hhi] Hu]]]]]]].
      split; [exact Hvr|]. split; [exact Hnr|].
      rewrite Hu.
      assert (HR : c <= R); [|lia].
      cbn [units] in Hhi. fold Y T in Hhi. rewrite Hux in Hhi.
      assert (H1 : c * Y < (R + G) * Y) by lia.
      assert (H2 : c < R + G).
      { apply (Z.mul_lt_mono_pos_r Y); lia. }
      destruct Hnorm as [Hg1|Hg1]; lia.
Qed.

(** ** Loops that count by additions *)

Section Counting.
Variable cond : num -> bool.
Variable step : num -> num.

(** A loop whose condition holds for the first [lo] values of the
    counter and fails for one of the first [hi + 1] is left, after
    [lo] to [hi] executions of its body. *)
Lemma iterates_count (hi : nat) :
  forall (i : num) (lo : nat),
    (forall k, (k < lo)%nat -> cond (Nat.iter k step i) = true) ->
    (exists n, (n <= hi)%nat /\ cond (Nat.iter n step i) = false) ->
    exists l, iterates cond step (Datatypes.S hi) i = Some l /\
              (lo <= List.length l <= hi)%nat.
Proof.
  induction hi as [|h IH]; intros i lo Hlo [n [Hn Hc]].
  - assert (n = 0%nat) by lia. subst n. change (cond i = false) in Hc.
    cbn [iterates]. rewrite Hc. exists []. split; [reflexivity|].
    destruct lo as [|lo]; [cbn; lia|].
    specialize (Hlo 0%nat ltac:(lia)). change (cond i = true) in Hlo.
    congruence.
  - change (iterates cond step (Datatypes.S (Datatypes.S h)) i)
      with (if cond i
            then option_map (cons i)
                   (iterates cond step (Datatypes.S h) (step i))
            else Some []).
    destruct (cond i) eqn:Ci.
    + destruct n as [|n]; [change (cond i = false) in Hc; congruence|].
      destruct (IH (step i) (Nat.pred lo)) as [l [Hl Hlen]].
      * intros k Hk. rewrite <- Nat.iter_succ_r. apply Hlo. lia.
      * exists n. split; [lia|]. now rewrite <- Nat.iter_succ_r.
      * rewrite Hl. exists (i :: l). split; [reflexivity|].
        cbn [List.length]. lia.
    + exists []. split; [reflexivity|].
      destruct lo as [|lo]; [cbn; lia|].
      specialize (Hlo 0%nat ltac:(lia)). change (cond i = true) in Hlo.
      congruence.
Qed.
End Counting.

Section SumChain.
Variable s : num.
Variable w : Z.
Hypothesis s_valid : valid s = true.
Hypothesis s_nonneg : nonneg s = true.
Hypothesis w_large : 2 ^ 50 <= w.
Hypothesis w_finite : w < top_units.
Hypothesis s_small : units s <= 2 * w.

(** The counter after [k] additions, as long as it has stayed below
    [w]: it is [k] times the step, up to [k] roundings. *)
Lemma counter_chain (k : nat) :
  (forall j, (j < k)%nat -> units (counter s j) < w) ->
  valid (counter s k) = true /\ nonneg (counter s k) = true /\
  2 ^ 50 * (units (counter s k) - Z.of_nat k * units s) <= Z.of_nat k * w /\
  (w <= units (counter s k) \/
   2 ^ 50 * (Z.of_nat k * units s - units (counter s k)) <= Z.of_nat k * w).
Proof.
  induction k as [|k IH]; intros Hbelow.
  - change (counter s 0) with (S754_zero false). cbn [units Z.of_nat].
    split; [reflexivity|]. split; [reflexivity|]. split; [lia|right; lia].
  - destruct IH as [Hv [Hn [Hup Hlow]]].
    { intros j Hj. apply Hbelow. lia. }
    assert (Hk := Hbelow k ltac:(lia)).
    destruct Hlow as [Hlow|Hlow]; [lia|].
    change (counter s (Datatypes.S k)) with (counter s k + s)%js.
    destruct (add_units (counter s k) s Hv s_valid Hn s_nonneg)
      as [Hv' [Hn' [G [R [HG [Hnorm [[HR1 HR2] Hu]]]]]]].
    split; [exact Hv'|]. split; [exact Hn'|].
    assert (Us := units_nonneg s s_valid).
    assert (Uc := units_nonneg _ Hv).
    assert (P50 : 2 ^ 52 = 4 * 2 ^ 50) by reflexivity.
    assert (P0 : 0 < 2 ^ 50) by reflexivity.
    assert (HGw : 2 ^ 50 * G <= w) by (destruct Hnorm; nia).
    rewrite Hu, Nat2Z.inj_succ.
    set (B := units (counter s k)) in *. set (a := units s) in *.
    set (K := Z.of_nat k) in *.
    replace (Z.succ K * a) with (K * a + a) by lia.
    replace (Z.succ K * w) with (K * w + w) by lia.
    set (Ka := K * a) in *. set (Kw := K * w) in *.
    set (c := 2 ^ 50) in *.
    split.
    + assert (c * Z.min R top_units <= c * R) by nia.
      assert (c * R <= c * (B + a + G)) by nia. lia.
    + destruct (Z_le_gt_dec top_units R) as [C|C]; [left; lia|right].
      replace (Z.min R top_units) with R by lia.
      assert (c * (B + a - G) <= c * R) by nia. lia.
Qed.
End SumChain.

(** ** A sum that rounds back to its larger term *)

(** The bits that a right shift keeps: the mantissa, the last bit
    shifted out and whether a bit below it was set. *)
Lemma shr_bits (M : Z) (p : positive) :
  0 <= M ->
  let mrs := iter_pos shr_1 p (shr_record_of_loc M loc_Exact) in
  shr_m mrs = M / 2 ^ Zpos p /\
  shr_r mrs = Z.odd (M / 2 ^ (Zpos p - 1)) /\
  shr_s mrs = negb (M mod 2 ^ (Zpos p - 1) =? 0).
Proof.
  intros HM mrs.
  assert (H : 0 <= 0 + Zpos p /\
              shr_m mrs = M / 2 ^ (0 + Zpos p) /\
              (0 + Zpos p = 0 -> shr_r mrs = false /\ shr_s mrs = false) /\
              (0 < 0 + Zpos p ->
               shr_r mrs = Z.odd (M / 2 ^ (0 + Zpos p - 1)) /\
               shr_s mrs = negb (M mod 2 ^ (0 + Zpos p - 1) =? 0))).
  { unfold mrs.
    apply (iter_pos_invariant shr_1
             (fun k x => 0 <= k /\ shr_m x = M / 2 ^ k /\
                         (k = 0 -> shr_r x = false /\ shr_s x = false) /\
                         (0 < k ->
                          shr_r x = Z.odd (M / 2 ^ (k - 1)) /\
                          shr_s x = negb (M mod 2 ^ (k - 1) =? 0)))).
    - intros k x [Hk [Hm [H0 H1]]].
      assert (Hpow := pow2_pos k Hk).
      assert (Hx0 : 0 <= shr_m x) by (rewrite Hm; apply Z.div_pos; lia).
      destruct (shr_1_spec x Hx0) as [S1 [S2 S3]].
      split; [lia|]. split; [|split; [lia|]].
      + rewrite S1, Hm, Z.div_div by lia.
        f_equal. rewrite Z.pow_add_r by lia. reflexivity.
      + intros _. replace (k + 1 - 1) with k by lia.
        split; [now rewrite S2, Hm|]. rewrite S3.
        destruct (Z.eq_dec k 0) as [E|E].
        * subst k. destruct (H0 eq_refl) as [-> ->].
          rewrite Z.pow_0_r, Z.mod_1_r. reflexivity.
        * destruct (H1 ltac:(lia)) as [-> ->].
          assert (Hp1 := pow2_pos (k - 1) ltac:(lia)).
          assert (Ek : 2 ^ k = 2 ^ (k - 1) * 2).
          { replace k with (k - 1 + 1) at 1 by lia.
            rewrite Z.pow_add_r by lia. reflexivity. }
          rewrite Ek, Z.rem_mul_r by lia.
          assert (Hb := Z.bit0_mod (M / 2 ^ (k - 1))).
          rewrite Z.bit0_odd in Hb. rewrite <- Hb.
          assert (HA := Z.mod_pos_bound M (2 ^ (k - 1)) Hp1).
          destruct (Z.odd (M / 2 ^ (k - 1))); cbn [Z.b2z orb].
          -- symmetry. apply negb_true_iff, Z.eqb_neq. lia.
          -- f_equal. f_equal. lia.
    - cbn [shr_record_of_loc shr_m shr_r shr_s].
      rewrite Z.pow_0_r, Z.div_1_r. split; [lia|]. split; [reflexivity|].
      split; [tauto|lia]. }
  destruct H as [_ [Hm [_ H1]]]. cbn [Z.add] in *.
  destruct (H1 ltac:(lia)) as [Hr Hs]. repeat split; assumption.
Qed.

(** More than half of the last place is rounded up. *)
Lemma shr_round_up (M : Z) (e : Z) (p : positive) :
  0 <= M -> 2 ^ (Zpos p - 1) < M mod 2 ^ Zpos p ->
  let mrs := fst (shr (shr_record_of_loc M loc_Exact) e (Zpos p)) in
  round_nearest_even (shr_m mrs) (loc_of_shr_record mrs) = M / 2 ^ Zpos p + 1.
Proof.
  intros HM Hrem mrs. subst mrs. cbn [shr fst].
  destruct (shr_bits M p HM) as [Hm [Hr Hs]].
  destruct (iter_pos shr_1 p (shr_record_of_loc M loc_Exact)) as [m r s].
  cbn [shr_m shr_r shr_s] in *. subst m.
  assert (Hp1 := pow2_pos (Zpos p - 1) ltac:(lia)).
  assert (Ek : 2 ^ Zpos p = 2 ^ (Zpos p - 1) * 2).
  { replace (Zpos p) with (Zpos p - 1 + 1) at 1 by lia.
    rewrite Z.pow_add_r by lia. reflexivity. }
  rewrite Ek, Z.rem_mul_r in Hrem by lia.
  assert (Hb := Z.bit0_mod (M / 2 ^ (Zpos p - 1))).
  rewrite Z.bit0_odd in Hb. rewrite <- Hb in Hrem.
  assert (HA := Z.mod_pos_bound M (2 ^ (Zpos p - 1)) Hp1).
  assert (Er : r = true).
  { rewrite Hr. destruct (Z.odd (M / 2 ^ (Zpos p - 1))); [reflexivity|].
    cbn [Z.b2z] in Hrem. lia. }
  assert (Es : s = true).
  { rewrite Hs. apply negb_true_iff, Z.eqb_neq.
    rewrite Hr in Er. rewrite Er in Hrem. cbn [Z.b2z] in Hrem. lia. }
  clear Hr Hs Hrem. subst r s. reflexivity.
Qed.

Lemma digits2_pos_eq (p : positive) (D : Z) :
  2 ^ (D - 1) <= Zpos p < 2 ^ D -> 1 <= D -> Zpos (digits2_pos p) = D.
Proof.
  intros [Hlo Hhi] HD.
  assert (H1 := digits2_pos_le p D ltac:(lia) Hhi).
  assert (H2 := digits2_pos_gt p (D - 1) ltac:(lia) Hlo). lia.
Qed.

(** Adding a negative number of less than a quarter of the last place
    of a normal double changes nothing. *)
Lemma add_tiny (m mv : positive) (e ev : Z) :
  valid (S754_finite false m e) = true ->
  Zpos (digits2_pos m) = 53 -> -1074 <= ev -> ev + 2 <= e ->
  4 * Zpos mv < 2 ^ (e - ev) ->
  (S754_finite false m e + S754_finite true mv ev)%js = S754_finite false m e.
Proof.
  intros Hv Hd Hev Hj Htiny.
  destruct (valid_finite_inv _ _ _ Hv) as [He _].
  destruct (digits2_pos_bounds m) as [Dlo Dhi]. rewrite Hd in Dlo, Dhi.
  change (2 ^ (53 - 1)) with (2 ^ 52) in Dlo.
  unfold add, SFadd. cbn [cond_Zopp].
  replace (Z.min e ev) with ev by lia.
  destruct (shl_align_spec m e ev) as [A1 [A2 _]].
  destruct (shl_align_spec mv ev ev) as [B1 [B2 _]].
  rewrite A2, B2, A1, B1.
  replace (Z.min e ev) with ev by lia. replace (Z.min ev ev) with ev by lia.
  rewrite Z.sub_diag, Z.pow_0_r, Z.mul_1_r.
  set (j := e - ev) in *.
  assert (Hj2 : 2 <= j) by (unfold j; lia).
  assert (Pj := pow2_pos j ltac:(lia)).
  assert (Pj2 := pow2_pos (j - 2) ltac:(lia)).
  assert (Ej : 2 ^ j = 4 * 2 ^ (j - 2)).
  { replace j with (2 + (j - 2)) at 1 by lia.
    rewrite Z.pow_add_r by lia. reflexivity. }
  assert (Ej1 : 2 ^ (j - 1) = 2 * 2 ^ (j - 2)).
  { replace (j - 1) with (1 + (j - 2)) by lia.
    rewrite Z.pow_add_r by lia. reflexivity. }
  assert (P52 : 0 < 2 ^ 52) by (apply pow2_pos; lia).
  assert (E53 : 2 ^ 53 = 2 * 2 ^ 52)
    by (change 53 with (1 + 52); rewrite Z.pow_add_r by lia; reflexivity).
  set (q := 2 ^ (j - 2)) in *. set (c := 2 ^ 52) in *.
  assert (Hcq : 0 < c * q) by (apply Z.mul_pos_pos; lia).
  assert (Hmq : c * q <= Zpos m * q)
    by (apply Z.mul_le_mono_nonneg_r; lia).
  assert (Hmq' : Zpos m * q < 2 * c * q).
  { rewrite <- E53. apply Z.mul_lt_mono_pos_r; lia. }
  rewrite Ej in *.
  destruct (Zpos m * (4 * q) + - Zpos mv) as [|M|M] eqn:EM; try lia.
  cbn [binary_normalize]. unfold binary_round.
  destruct (Z.eq_dec (Zpos m) c) as [Em|Em].
  - (* the larger term is a power of two *)
    assert (HM : Zpos M = c * (4 * q) - Zpos mv) by (rewrite <- Em; lia).
    assert (HD : Zpos (digits2_pos M) = 52 + j).
    { apply digits2_pos_eq; [|lia].
      replace (52 + j - 1) with (52 + (j - 1)) by lia.
      rewrite !Z.pow_add_r by lia. fold c. rewrite Ej1. lia. }
    destruct (shl_align_spec M ev (fexp prec emax (Zpos (digits2_pos M) + ev)))
      as [C1 [C2 _]].
    destruct (shl_align M ev (fexp prec emax (Zpos (digits2_pos M) + ev)))
      as [mz ez]. cbn [fst snd] in C1, C2.
    assert (Hfe : fexp prec emax (Zpos (digits2_pos M) + ev) = e - 1)
      by (rewrite HD; unfold fexp, emin, prec, emax, j; lia).
    rewrite Hfe in C1. assert (Ez : ez = ev) by lia. clear C1. subst ez.
    rewrite Z.sub_diag, Z.pow_0_r, Z.mul_1_r in C2.
    assert (Emz : mz = M) by (apply Pos2Z.inj; exact C2). subst mz.
    unfold binary_round_aux, shr_fexp. cbn [Zdigits2]. rewrite Hfe.
    replace (e - 1 - ev) with (j - 1) by (unfold j; lia).
    destruct (j - 1) as [|p|p] eqn:Ep; try lia.
    assert (Hdiv : Zpos M / 2 ^ Zpos p = 2 * c - 1).
    { symmetry. apply (Z.div_unique _ _ _ (2 ^ Zpos p - Zpos mv));
        rewrite Ej1; lia. }
    assert (Hmod : Zpos M mod 2 ^ Zpos p = 2 ^ Zpos p - Zpos mv).
    { symmetry. apply (Z.mod_unique _ _ (2 * c - 1)); rewrite Ej1; lia. }
    assert (Hup := shr_round_up (Zpos M) ev p ltac:(lia)).
    rewrite Hmod in Hup. cbv zeta in Hup.
    assert (Hhalf : 2 ^ (Zpos p - 1) < 2 ^ Zpos p - Zpos mv).
    { rewrite <- Ep. replace (j - 1 - 1) with (j - 2) by lia.
      rewrite Ep, Ej1. fold q. lia. }
    specialize (Hup Hhalf). rewrite Hdiv in Hup.
    assert (Eexp : snd (shr (shr_record_of_loc (Zpos M) loc_Exact) ev (Zpos p))
                   = e - 1) by (cbn [shr snd]; unfold j in Ep; lia).
    destruct (shr (shr_record_of_loc (Zpos M) loc_Exact) ev (Zpos p))
      as [mrs e1]. cbn [fst] in Hup. cbn [snd] in Eexp. subst e1.
    cbv beta iota. rewrite Hup.
    replace (2 * c - 1 + 1) with 9007199254740992 by (unfold c; reflexivity).
    cbn [Zdigits2]. change (Zpos (digits2_pos 9007199254740992)) with 54.
    replace (fexp prec emax (54 + (e - 1)) - (e - 1)) with 1
      by (unfold fexp, emin, prec, emax; lia).
    cbn [shr iter_pos shr_record_of_loc shr_1 shr_m Z.add].
    replace (e - 1 + 1) with e by lia.
    unfold prec, emax. destruct (Z.leb_spec e (1024 - 53)); [|lia].
    f_equal. apply Pos2Z.inj. rewrite Em. reflexivity.
  - (* the general case *)
    assert (Hm1 : c + 1 <= Zpos m) by lia.
    assert (Hm1q : (c + 1) * q <= Zpos m * q)
      by (apply Z.mul_le_mono_nonneg_r; lia).
    assert (HD : Zpos (digits2_pos M) = 53 + j).
    { apply digits2_pos_eq; [|lia].
      replace (53 + j - 1) with (52 + j) by lia.
      rewrite !Z.pow_add_r by lia. fold c. rewrite E53, Ej. lia. }
    destruct (shl_align_spec M ev (fexp prec emax (Zpos (digits2_pos M) + ev)))
      as [C1 [C2 _]].
    destruct (shl_align M ev (fexp prec emax (Zpos (digits2_pos M) + ev)))
      as [mz ez]. cbn [fst snd] in C1, C2.
    assert (Hfe : fexp prec emax (Zpos (digits2_pos M) + ev) = e)
      by (rewrite HD; unfold fexp, emin, prec, emax, j; lia).
    rewrite Hfe in C1. assert (Ez : ez = ev) by lia. clear C1. subst ez.
    rewrite Z.sub_diag, Z.pow_0_r, Z.mul_1_r in C2.
    assert (Emz : mz = M) by (apply Pos2Z.inj; exact C2). subst mz.
    unfold binary_round_aux, shr_fexp. cbn [Zdigits2]. rewrite Hfe.
    fold j.
    destruct j as [|p|p] eqn:Ep; try lia.
    assert (Hdiv : Zpos M / 2 ^ Zpos p = Zpos m - 1).
    { symmetry. apply (Z.div_unique _ _ _ (2 ^ Zpos p - Zpos mv));
        rewrite Ej; lia. }
    assert (Hmod : Zpos M mod 2 ^ Zpos p = 2 ^ Zpos p - Zpos mv).
    { symmetry. apply (Z.mod_unique _ _ (Zpos m - 1)); rewrite Ej; lia. }
    assert (Hup := shr_round_up (Zpos M) ev p ltac:(lia)).
    rewrite Hmod in Hup. cbv zeta in Hup.
    assert (Hhalf : 2 ^ (Zpos p - 1) < 2 ^ Zpos p - Zpos mv)
      by (rewrite Ej1, Ej; lia).
    specialize (Hup Hhalf). rewrite Hdiv in Hup.
    assert (Eexp : snd (shr (shr_record_of_loc (Zpos M) loc_Exact) ev (Zpos p))
                   = e) by (cbn [shr snd]; lia).
    destruct (shr (shr_record_of_loc (Zpos M) loc_Exact) ev (Zpos p))
      as [mrs e1]. cbn [fst] in Hup. cbn [snd] in Eexp. subst e1.
    cbv beta iota. rewrite Hup.
    replace (Zpos m - 1 + 1) with (Zpos m) by lia.
    cbn [Zdigits2]. rewrite Hd.
    replace (fexp prec emax (53 + e) - e) with 0
      by (unfold fexp, emin, prec, emax; lia).
    cbn [shr shr_record_of_loc shr_m].
    unfold prec, emax. destruct (Z.leb_spec e (1024 - 53)); [reflexivity|lia].
Qed.

(** ** The signal generator *)

Lemma push_samples (Math_sin : num -> num) (now start amplitude : num)
      (ts : list num) :
  forall acc,
    fold_left (fun s t => push_sample Math_sin now start amplitude t s) ts acc
    = acc ++ map (sample_at Math_sin now start amplitude)
                 (filter (emitted now start) ts).
Proof.
  induction ts as [|t ts IH]; intros acc; simpl.
  - now rewrite app_nil_r.
  - rewrite IH. unfold push_sample, emitted.
    destruct (t >=? - elapsedTime now start)%js; simpl.
    + now rewrite <- app_assoc.
    + reflexivity.
Qed.

Lemma generate_offsets (Math_sin : num -> num) (now start tw amplitude : num)
      (fuel : nat) :
  generate Math_sin now start tw amplitude fuel =
  option_map (fun ts => map (sample_at Math_sin now start amplitude)
                            (filter (emitted now start) ts))
             (offsets tw fuel).
Proof.
  unfold generate, offsets. rewrite for_loop_iterates.
  destruct (iterates in_window next_offset fuel (first_offset tw)); simpl;
    [|reflexivity].
  now rewrite push_samples.
Qed.

(** The loop is left for each window the select offers. *)
Lemma offsets_terminate (tw : num) :
  In tw timeWindow_options -> exists ts, offsets tw frame_fuel = Some ts.
Proof.
  assert (H : forallb (fun tw => match offsets tw frame_fuel with
                                 | Some _ => true | None => false end)
                      timeWindow_options = true) by (vm_cast_no_check (eq_refl true)).
  intros Hin. rewrite forallb_forall in H. specialize (H tw Hin).
  destruct (offsets tw frame_fuel) as [ts|]; [now exists ts|discriminate].
Qed.

(** For each window the select offers and every clock value,
    start time and amplitude, a frame leaves the loop and its samples
    are, in order, those of the offsets [t] stepped from
    [-timeWindow/1000] by [0.02] while [t <= 0] that satisfy
    [t >= -elapsedTime]; each has the time stamp [now + t*1000] and the
    clamped value of [amplitude * sin(2*pi*(t + elapsedTime)/2)], which
    lies in [[-10, 10]], the amplitude being a finite number and
    [Math.sin] returning finite numbers at the arguments of the
    frame. *)
Lemma generate_samples_in_range
        (Math_sin : num -> num) (now start tw amplitude : num) :
  In tw timeWindow_options ->
  is_finite amplitude = true ->
  (forall ts t,
      offsets tw frame_fuel = Some ts -> In t ts ->
      is_finite (Math_sin (#2 * PI * (t + elapsedTime now start) / #2)%js)
      = true) ->
  exists ts,
    offsets tw frame_fuel = Some ts /\
    stepped in_window next_offset (first_offset tw) ts /\
    generate Math_sin now start tw amplitude frame_fuel =
      Some (map (fun t => ((now + t * #1000)%js,
                           clamp (amplitude *
                                  Math_sin (#2 * PI *
                                            (t + elapsedTime now start) / #2))%js))
                (filter (fun t => (t >=? - elapsedTime now start)%js) ts)) /\
    (forall s, generate Math_sin now start tw amplitude frame_fuel = Some s ->
               Forall (fun p => (- #10 <=? snd p)%js = true /\
                                (snd p <=? #10)%js = true) s).
Proof.
  intros Hin Hamp Hsin.
  destruct (offsets_terminate tw Hin) as [ts Hts].
  exists ts. split; [exact Hts|]. split.
  { exact (iterates_stepped _ _ _ _ _ Hts). }
  assert (Hgen := generate_offsets Math_sin now start tw amplitude frame_fuel).
  rewrite Hts in Hgen. simpl in Hgen.
  split; [exact Hgen|].
  intros s Hs. rewrite Hgen in Hs. injection Hs as <-.
  apply Forall_forall. intros p Hp.
  apply in_map_iff in Hp. destruct Hp as [t [<- Ht]].
  apply filter_In in Ht. destruct Ht as [Ht _].
  assert (Hnum : is_nan (wave Math_sin now start amplitude t) = false).
  { apply mul_finite_not_nan; [exact Hamp|exact (Hsin ts t Hts Ht)]. }
  assert (Hr := clamp_in_range _ Hnum).
  unfold in_range in Hr. apply andb_prop in Hr. exact Hr.
Qed.

(** The offsets of a frame are the values of the counter of line 245. *)
Lemma offsets_stepped (tw : num) (fuel : nat) (ts : list num) :
  offsets tw fuel = Some ts ->
  stepped (fun t => (t <=? #0)%js) (fun t => (t + lit_0_02)%js)
          (- tw / #1000)%js ts.
Proof. exact (iterates_stepped _ _ _ _ _). Qed.

Lemma last_map {A B : Type} (f : A -> B) (l : list A) (d : A) (d' : B) :
  l <> [] -> last (map f l) d' = f (last l d).
Proof.
  induction l as [|a l IH]; [congruence|]. intros _.
  destruct l as [|b l]; [reflexivity|].
  change (last (map f (a :: b :: l)) d') with (last (map f (b :: l)) d').
  change (last (a :: b :: l) d) with (last (b :: l) d).
  apply IH. discriminate.
Qed.

(** The counter of the 60 s window. *)
Lemma offsets_60000_checked :
  match offsets (#60000)%js frame_fuel with
  | Some ts =>
      Nat.eqb (List.length ts) 3000 &&
      forallb (fun t => (first_offset (#60000) <=? t)%js &&
                        (t <=? last_offset_60000)%js) ts &&
      num_eqb (hd NaN ts) (- #60)%js &&
      num_eqb (last ts NaN) last_offset_60000
  | None => false
  end = true.
Proof. vm_cast_no_check (eq_refl true). Qed.

(** C1.  The window of 60 s, from 60 s after the start on.  The loop
    [for (t = -60; t <= 0; t += 0.02)] is left after 3000 values of
    its counter, not 3001: the last one is -0.019999999996, every
    offset lies at or below it, and the addition of 0.02 that follows
    gives 3.8e-12, above 0.  So the frame returns 3000 samples, each
    with the time stamp [now + t*1000] and the clamped value of
    [amplitude * sin(2*pi*(t + elapsedTime)/2)], and none for the
    offset 0: the last time stamp is [now - 19.99999999622], not
    [now]. *)
Theorem C1_window_60000_stops_short
        (Math_sin : num -> num) (now start amplitude : num) :
  (- #60000 / #1000 >=? - ((now - start) / #1000))%js = true ->
  exists ts samples,
    stepped (fun t => (t <=? #0)%js) (fun t => (t + lit_0_02)%js)
            (- #60000 / #1000)%js ts /\
    generate Math_sin now start (#60000)%js amplitude frame_fuel
    = Some samples /\
    samples =
    map (fun t => ((now + t * #1000)%js,
                   clamp (amplitude *
                          Math_sin (#2 * PI *
                                    (t + (now - start) / #1000) / #2))%js))
        ts /\
    List.length samples = 3000%nat /\
    hd NaN ts = (- #60)%js /\
    last ts NaN = last_offset_60000 /\
    Forall (fun t => (t <=? last_offset_60000)%js = true) ts /\
    (last_offset_60000 <? - #1 / #100)%js = true /\
    (last_offset_60000 + lit_0_02 >? #0)%js = true /\
    last (map fst samples) NaN
    = (now + S754_finite true 5629499533149071 (-48))%js.
Proof.
  intros Hel.
  assert (H := offsets_60000_checked).
  destruct (offsets (#60000)%js frame_fuel) as [ts|] eqn:E; [|discriminate].
  apply andb_prop in H. destruct H as [H Hlast].
  apply andb_prop in H. destruct H as [H Hhd].
  apply andb_prop in H. destruct H as [Hn Hts].
  apply Nat.eqb_eq in Hn. rewrite forallb_forall in Hts.
  apply num_eqb_eq in Hhd. apply num_eqb_eq in Hlast.
  assert (Hall : filter (emitted now start) ts = ts).
  { apply filter_length_all. f_equal.
    apply forallb_filter_id. apply forallb_forall. intros t Ht.
    specialize (Hts t Ht). apply andb_prop in Hts. destruct Hts as [Hlo _].
    unfold emitted, geb, elapsedTime.
    exact (leb_trans _ _ _ Hel Hlo). }
  assert (Hne : ts <> []) by (intros ->; discriminate Hn).
  exists ts. eexists.
  split; [exact (offsets_stepped _ _ _ E)|].
  split; [rewrite generate_offsets, E; cbn [option_map]; rewrite Hall;
          reflexivity|].
  split; [reflexivity|]. split; [now rewrite length_map|].
  split; [exact Hhd|]. split; [exact Hlast|]. split.
  { apply Forall_forall. intros t Ht. specialize (Hts t Ht).
    apply andb_prop in Hts. tauto. }
  split; [reflexivity|]. split; [reflexivity|].
  rewrite (last_map fst _ (NaN, NaN) NaN)
    by (intros Hnil; apply map_eq_nil in Hnil; contradiction).
  rewrite (last_map _ ts NaN (NaN, NaN) Hne), Hlast. reflexivity.
Qed.

Lemma C1_window_60000_stops_short_witness :
  exists samples,
    generate sin_taylor (#1700000060000)%js (#1700000000000)%js (#60000)%js
             (#10)%js frame_fuel = Some samples /\
    List.length samples = 3000%nat /\
    last (map fst samples) NaN
    = S754_finite false 6963200245678080 (-12).
Proof.
  destruct (C1_window_60000_stops_short sin_taylor (#1700000060000)%js
              (#1700000000000)%js (#10)%js eq_refl)
    as [ts [samples [_ [H2 [_ [H4 [_ [_ [_ [_ [_ H10]]]]]]]]]]].
  exists samples. split; [exact H2|]. split; [exact H4|].
  rewrite H10. reflexivity.
Defined.

(** ** The second scenario of the specification

    A window of 10 s, amplitude 10, 20 s after the start. *)

Lemma offsets_10000 :
  exists ts,
    offsets (#10000)%js frame_fuel = Some ts /\
    List.length ts = 501%nat /\
    List.length (filter (fun t => (t >=? - #20)%js) ts) = 501%nat /\
    hd NaN ts = (- #10)%js /\
    last ts NaN = last_offset_10000 /\
    forallb (fun t => (t <? #0)%js) ts = true.
Proof.
  destruct (offsets (#10000)%js frame_fuel) as [ts|] eqn:E.
  - exists ts. split; [reflexivity|].
    assert (H : match offsets (#10000)%js frame_fuel with
                | Some ts =>
                    Nat.eqb (List.length ts) 501 &&
                    Nat.eqb (List.length
                               (filter (fun t => (t >=? - #20)%js) ts)) 501 &&
                    num_eqb (hd NaN ts) (- #10)%js &&
                    num_eqb (last ts NaN) last_offset_10000 &&
                    forallb (fun t => (t <? #0)%js) ts
                | None => false
                end = true) by (vm_cast_no_check (eq_refl true)).
    rewrite E in H.
    repeat (apply andb_prop in H; destruct H as [H ?]).
    repeat split.
    + now apply Nat.eqb_eq.
    + now apply Nat.eqb_eq.
    + now apply num_eqb_eq.
    + now apply num_eqb_eq.
    + assumption.
  - exfalso. vm_compute in E. discriminate.
Qed.

(** A clock value of at least [2^22] ms absorbs the residue of the
    last offset of the 10 s window. *)
Lemma stamp_absorbs_residue (now : num) :
  valid now = true -> (#4194304 <=? now)%js = true ->
  (now + last_offset_10000 * #1000)%js = now.
Proof.
  intros Hv Hle.
  change (last_offset_10000 * #1000)%js
    with (S754_finite true 4820832354304000 (-85)).
  destruct now as [[|]|[|]| |[|] m e]; try discriminate; [reflexivity|].
  destruct (valid_finite_inv _ _ _ Hv) as [He [Hd Hc]].
  assert (He30 : -30 <= e).
  { unfold leb, SFleb in Hle.
    change (#4194304)%js with (S754_finite false 4503599627370496 (-30)) in Hle.
    cbn [SFcompare] in Hle.
    destruct (Z.compare_spec (-30) e); first [lia|discriminate]. }
  apply add_tiny; try lia; [exact Hv|].
  assert (H55 : 2 ^ 55 <= 2 ^ (e - -85)) by (apply Z.pow_le_mono_r; lia).
  assert (4 * Zpos 4820832354304000 < 2 ^ 55) by reflexivity. lia.
Qed.

Lemma offsets_10000_residue :
  (- lit_2_pow_m42 <? last_offset_10000)%js = true /\
  (last_offset_10000 <=? #0)%js = true.
Proof. split; reflexivity. Qed.

(** C2.  With a window of 10000 ms, amplitude 10 and an elapsed time of
    20 s, a frame returns exactly 501 samples, one for each value of
    the counter of the loop [for (t = -10; t <= 0; t += 0.02)]: the
    first offset is -10 and the last one is 0 up to the rounding of the
    500 additions, less than [2^-42] below it.  The samples cover the
    full window: the first is stamped [now - 10000] and, for a clock
    value of at least [2^22] ms, the last is stamped [now]. *)
Theorem C2_full_window (Math_sin : num -> num) (now start : num) :
  ((now - start) / #1000)%js = (#20)%js ->
  exists ts samples,
    stepped (fun t => (t <=? #0)%js) (fun t => (t + lit_0_02)%js)
            (- #10000 / #1000)%js ts /\
    generate Math_sin now start (#10000)%js (#10)%js frame_fuel
    = Some samples /\
    samples =
    map (fun t => ((now + t * #1000)%js,
                   clamp (#10 * Math_sin (#2 * PI * (t + #20) / #2))%js)) ts /\
    List.length samples = 501%nat /\
    hd NaN ts = (- #10)%js /\
    (- lit_2_pow_m42 <? last ts NaN)%js = true /\
    (last ts NaN <=? #0)%js = true /\
    option_map fst (hd_error samples) = Some (now - #10000)%js /\
    (valid now = true -> (#4194304 <=? now)%js = true ->
     last (map fst samples) NaN = now).
Proof.
  intros Hel.
  destruct offsets_10000 as [ts [H1 [H2 [H3 [H4 [H5 H6]]]]]].
  assert (Hall : filter (emitted now start) ts = ts).
  { unfold emitted, elapsedTime. rewrite Hel.
    apply filter_length_all. congruence. }
  assert (Hne : ts <> []) by (intros ->; discriminate H2).
  destruct offsets_10000_residue as [R1 R2].
  exists ts. eexists.
  split; [exact (offsets_stepped _ _ _ H1)|].
  split; [rewrite generate_offsets, H1; cbn [option_map]; rewrite Hall;
          unfold sample_at, wave; rewrite Hel; reflexivity|].
  split; [reflexivity|]. split; [now rewrite length_map|].
  split; [exact H4|]. rewrite H5.
  split; [exact R1|]. split; [exact R2|]. split.
  - destruct ts as [|t0 ts0]; [congruence|].
    cbn [hd] in H4. subst t0. cbn [map hd_error option_map fst].
    change (- #10 * #1000)%js with (- #10000)%js. now rewrite add_opp.
  - intros Hv Hnow.
    rewrite (last_map fst _ (NaN, NaN) NaN)
      by (intros Hnil; apply map_eq_nil in Hnil; contradiction).
    rewrite (last_map _ ts NaN (NaN, NaN) Hne), H5. cbn [fst].
    now apply stamp_absorbs_residue.
Qed.

Lemma C2_full_window_witness :
  exists samples,
    generate sin_taylor (#1700000020000)%js (#1700000000000)%js
             (#10000)%js (#10)%js frame_fuel = Some samples /\
    List.length samples = 501%nat /\
    option_map fst (hd_error samples) = Some (#1700000010000)%js /\
    last (map fst samples) NaN = (#1700000020000)%js.
Proof.
  destruct (C2_full_window sin_taylor (#1700000020000)%js
              (#1700000000000)%js eq_refl)
    as [ts [samples [_ [H2 [_ [H4 [_ [_ [_ [H8 H9]]]]]]]]]].
  exists samples. split; [exact H2|]. split; [exact H4|].
  split; [exact H8|]. exact (H9 eq_refl eq_refl).
Defined.

(** ** The clamp on the selectable amplitudes *)

Lemma push_samples_unclamped (Math_sin : num -> num)
      (now start amplitude : num) (ts : list num) :
  forall acc,
    fold_left (fun s t => push_sample_unclamped Math_sin now start amplitude t s)
              ts acc
    = acc ++ map (fun t => ((now + t * #1000)%js,
                            wave Math_sin now start amplitude t))
                 (filter (emitted now start) ts).
Proof.
  induction ts as [|t ts IH]; intros acc; simpl.
  - now rewrite app_nil_r.
  - rewrite IH. unfold push_sample_unclamped, emitted.
    destruct (t >=? - elapsedTime now start)%js; simpl.
    + now rewrite <- app_assoc.
    + reflexivity.
Qed.

Lemma wave_clamp_id (a s : num) :
  valid a = true -> in_range a = true -> sine_value s ->
  clamp (a * s)%js = (a * s)%js.
Proof.
  intros Hva Ha [Hvs [Hn|Hs]].
  - destruct s; try discriminate.
    assert (E : (a * S754_nan)%js = NaN) by (destruct a; reflexivity).
    rewrite E. now apply clamp_nan.
  - apply clamp_id. now apply mul_in_range.
Qed.

(** The selectable amplitudes are doubles between -10 and 10. *)
Lemma amplitude_options_in_range :
  Forall (fun a => valid a = true /\ (- #10 <=? a)%js = true /\
                   (a <=? #10)%js = true) amplitude_options.
Proof. repeat constructor. Qed.

(** C10.  For an amplitude between -10 and 10, which covers every
    positive amplitude up to 10 and so the selectable ones, and a
    [Math.sin] whose values are doubles between -1 and 1 (or [NaN]):
    the product [amplitude * sin(2*pi*(t + phase)/2)] lies in
    [[-10, 10]] for every [t] and phase, the clamp returns it
    unchanged, and the generator returns what it returns without the
    clamp. *)
Theorem C10_clamp_is_identity
        (Math_sin : num -> num) (now start amplitude : num) :
  valid amplitude = true ->
  (- #10 <=? amplitude)%js = true -> (amplitude <=? #10)%js = true ->
  (forall t,
      let s := Math_sin (#2 * PI * (t + elapsedTime now start) / #2)%js in
      let y := (amplitude * s)%js in
      sine_value s ->
      (is_nan s = false ->
       (- #10 <=? y)%js = true /\ (y <=? #10)%js = true) /\
      Math_max Y_AXIS_MIN (Math_min Y_AXIS_MAX y) = y) /\
  (forall tw fuel,
      (forall ts t, offsets tw fuel = Some ts -> In t ts ->
                    sine_value
                      (Math_sin (#2 * PI * (t + elapsedTime now start) / #2)%js)) ->
      generate Math_sin now start tw amplitude fuel =
      generate_unclamped Math_sin now start tw amplitude fuel).
Proof.
  intros Hva Hlo Hhi.
  assert (Ha : in_range amplitude = true).
  { unfold in_range, Y_AXIS_MIN, Y_AXIS_MAX. now rewrite Hlo, Hhi. }
  split.
  - intros t s y Hs. split.
    + intros Hn. destruct Hs as [Hvs [Hn'|Hs]]; [congruence|].
      assert (Hr := mul_in_range amplitude s Hva Ha Hvs Hs).
      unfold in_range in Hr. apply andb_prop in Hr. exact Hr.
    + exact (wave_clamp_id amplitude s Hva Ha Hs).
  - intros tw fuel Hsin. rewrite generate_offsets.
    unfold generate_unclamped. rewrite for_loop_iterates.
    fold (offsets tw fuel).
    destruct (offsets tw fuel) as [ts|] eqn:E; [|reflexivity].
    cbn [option_map]. rewrite push_samples_unclamped. cbn [app]. f_equal.
    apply map_ext_in. intros t Ht. apply filter_In in Ht.
    destruct Ht as [Ht _]. unfold sample_at. f_equal.
    exact (wave_clamp_id amplitude _ Hva Ha (Hsin ts t eq_refl Ht)).
Qed.

Lemma C10_clamp_is_identity_witness :
  generate sin_taylor (#1700000020000)%js (#1700000000000)%js
           (#10000)%js (#10)%js frame_fuel =
  generate_unclamped sin_taylor (#1700000020000)%js (#1700000000000)%js
                     (#10000)%js (#10)%js frame_fuel.
Proof.
  destruct (C10_clamp_is_identity sin_taylor (#1700000020000)%js
              (#1700000000000)%js (#10)%js eq_refl eq_refl eq_refl)
    as [_ Hgen].
  apply Hgen. intros ts t Hts Ht.
  assert (H : match offsets (#10000)%js frame_fuel with
              | Some ts =>
                  forallb (fun t =>
                    let s := sin_taylor
                               (#2 * PI * (t + elapsedTime (#1700000020000)
                                                  (#1700000000000)) / #2)%js in
                    valid s && ((- #1 <=? s) && (s <=? #1))%js) ts
              | None => false
              end = true) by (vm_cast_no_check (eq_refl true)).
  rewrite Hts in H. rewrite forallb_forall in H. specialize (H t Ht).
  cbv zeta in H. apply andb_prop in H. destruct H as [Hv Hu].
  split; [exact Hv|right; exact Hu].
Defined.

(** ** The time axis overlay *)

Section DrawTimeAxisFacts.
Variable LocalTZA : Z -> Z.
Variable timeWindow : num.
Variable xScaleDensity : Z.
Variables (currentTime width height : num).

Lemma subtick_loop_marks (fuel : nat) (ctx : list CanvasOp) :
  subtick_loop xScaleDensity currentTime width fuel ctx =
  option_map (fun l => ctx ++ flat_map (subtick_mark currentTime width) l)
             (subtick_candidates xScaleDensity width fuel).
Proof.
  unfold subtick_loop, subtick_candidates. rewrite for_loop_iterates.
  destruct (iterates (subtick_cond width)
                     (subtick_step xScaleDensity width) fuel (#0)%js)
    as [l|]; [|reflexivity].
  cbn [option_map]. f_equal. revert ctx.
  induction l as [|i l IH]; intros ctx; cbn [fold_left flat_map].
  - now rewrite app_nil_r.
  - rewrite IH. unfold subtick, subtick_mark, subtick_x, visible.
    destruct ((i - offset currentTime width >=? #0) &&
              (i - offset currentTime width <=? width))%js.
    + now rewrite <- app_assoc.
    + reflexivity.
Qed.

Lemma major_ticks_marks (l : list Z) :
  forall ctx,
    fold_left (major_tick LocalTZA timeWindow currentTime width) l ctx
    = ctx ++ flat_map (major_mark LocalTZA timeWindow currentTime width) l.
Proof.
  induction l as [|i l IH]; intros ctx; cbn [fold_left flat_map].
  - now rewrite app_nil_r.
  - rewrite IH. unfold major_tick, major_mark, tick_x, visible.
    destruct ((#i * (width / #5) - offset currentTime width >=? #0) &&
              (#i * (width / #5) - offset currentTime width <=? width))%js.
    + now rewrite <- app_assoc.
    + reflexivity.
Qed.

(** The calls of one redraw, in order. *)
Lemma drawTimeAxis_calls (showXSubScale : bool) (fuel : nat)
      (ctx : list CanvasOp) :
  drawTimeAxis LocalTZA timeWindow showXSubScale xScaleDensity
               currentTime width height fuel ctx =
  if showXSubScale then
    option_map
      (fun l => ctx ++ baseline width height
                    ++ subtick_marks currentTime width l ++ label_style
                    ++ major_marks LocalTZA timeWindow currentTime width
                    ++ badges LocalTZA timeWindow currentTime width)
      (subtick_candidates xScaleDensity width fuel)
  else
    Some (ctx ++ baseline width height ++ label_style
              ++ major_marks LocalTZA timeWindow currentTime width
              ++ badges LocalTZA timeWindow currentTime width).
Proof.
  unfold drawTimeAxis. destruct showXSubScale.
  - rewrite subtick_loop_marks.
    destruct (subtick_candidates xScaleDensity width fuel) as [l|];
      [|reflexivity].
    cbn [option_map]. rewrite major_ticks_marks.
    unfold subtick_marks, baseline, major_marks.
    repeat rewrite <- app_assoc. reflexivity.
  - rewrite major_ticks_marks.
    unfold baseline, major_marks.
    repeat rewrite <- app_assoc. reflexivity.
Qed.
End DrawTimeAxisFacts.

(** For the windows the select offers, the labels of the ticks 0 and 5
    carry the two ends of the window. *)
Lemma label_ends (tw now : num) :
  In tw timeWindow_options ->
  labelTime tw now 0 = Date.make (now - tw)%js /\
  labelTime tw now 5 = Date.make now.
Proof.
  intros Hin. unfold labelTime.
  assert (H : ((tw / #1000 - #0 * (tw / #5000)) * #1000 = tw /\
               (tw / #1000 - #5 * (tw / #5000)) * #1000 = #0)%js).
  { cbn [In timeWindow_options] in Hin.
    destruct Hin as [E|[E|[E|[E|E]]]]; [| | | |contradiction];
      subst tw; split; reflexivity. }
  destruct H as [H0 H5]. rewrite H0, H5, sub_zero. split; reflexivity.
Qed.

(** ** The sub-tick loop *)

(** With density 0 the step is [width / 0]: the counter leaves the loop
    after one execution of the body at most, whatever the width. *)
Lemma subtick_candidates_density_0 (W : num) (fuel : nat) :
  (2 <= fuel)%nat ->
  subtick_candidates 0 W fuel =
  Some (if (#0 <? W)%js then [#0]%js else []).
Proof.
  intros Hf. destruct fuel as [|[|k]]; try lia.
  unfold subtick_candidates. cbn [iterates].
  unfold subtick_cond at 1.
  destruct (#0 <? W)%js eqn:Hc; [|reflexivity].
  assert (Hstop : subtick_cond W (subtick_step 0 W (#0)%js) = false).
  { unfold subtick_cond, subtick_step.
    change (#0)%js with (S754_zero false) in *.
    destruct W as [s|[|]| |[|] m e]; try discriminate; reflexivity. }
  rewrite Hstop. reflexivity.
Qed.

Lemma whole_widths_In (n : nat) (w : Z) :
  0 <= w <= Z.of_nat n -> In w (whole_widths n).
Proof.
  intros Hw. unfold whole_widths. apply in_map_iff.
  exists (Z.to_nat w). split; [lia|]. apply in_seq. lia.
Qed.

Lemma subtick_counts_whole_widths (w d : Z) :
  0 < w <= 1024 -> 1 <= d <= 6 ->
  exists l, subtick_candidates d (#w)%js 9 = Some l /\
            count_ok d (List.length l) = true.
Proof.
  assert (H : forallb (fun w => (w =? 0) || forallb (fun d =>
                match subtick_candidates d (#w)%js 9 with
                | Some l => count_ok d (List.length l)
                | None => false
                end) [1; 2; 3; 4; 5; 6]) (whole_widths 1024) = true)
    by (vm_cast_no_check (eq_refl true)).
  intros Hw Hd. rewrite forallb_forall in H.
  specialize (H w (whole_widths_In 1024 w ltac:(lia))).
  apply orb_prop in H. destruct H as [H|H]; [lia|].
  rewrite forallb_forall in H.
  assert (Hin : In d [1; 2; 3; 4; 5; 6]) by (simpl; lia).
  specialize (H d Hin).
  destruct (subtick_candidates d (#w)%js 9) as [l|]; [|discriminate].
  now exists l.
Qed.

Section CountedLoop.
Variables W s : num.
Variable dn : nat.
Hypothesis W_valid : valid W = true.
Hypothesis W_nonneg : nonneg W = true.
Hypothesis s_valid : valid s = true.
Hypothesis s_nonneg : nonneg s = true.
Hypothesis W_large : 2 ^ 50 <= units W.
Hypothesis W_finite : units W < top_units.
Hypothesis s_small : units s <= 2 * units W.
Hypothesis below :
  forall (k : nat) (B : Z),
    (k < dn)%nat ->
    2 ^ 50 * (B - Z.of_nat k * units s) <= Z.of_nat k * units W ->
    B < units W.
Hypothesis leaves :
  forall B : Z,
    units W <= B \/
    2 ^ 50 * (Z.of_nat (Datatypes.S dn) * units s - B)
    <= Z.of_nat (Datatypes.S dn) * units W ->
    units W <= B.

Lemma counter_below (k : nat) :
  (k < dn)%nat ->
  valid (counter s k) = true /\ nonneg (counter s k) = true /\
  units (counter s k) < units W.
Proof.
  induction k as [k IH] using lt_wf_ind. intros Hk.
  destruct (counter_chain s (units W) s_valid s_nonneg W_large W_finite
              s_small k) as [Hv [Hn [Hup _]]].
  { intros j Hj. apply IH; lia. }
  split; [exact Hv|]. split; [exact Hn|]. exact (below k _ Hk Hup).
Qed.

(** The loop [for (i = 0; i < W; i += s)] is left after [dn] or
    [dn + 1] executions of its body. *)
Lemma counted_loop :
  exists l,
    iterates (fun i => (i <? W)%js) (fun i => (i + s)%js)
             (Datatypes.S (Datatypes.S dn)) (#0)%js = Some l /\
    (dn <= List.length l <= Datatypes.S dn)%nat.
Proof.
  apply iterates_count.
  - intros k Hk. destruct (counter_below k Hk) as [Hv [Hn Hlt]].
    change (Nat.iter k (fun i => (i + s)%js) (#0)%js) with (counter s k).
    rewrite (ltb_units _ _ Hv W_valid Hn W_nonneg). now apply Z.ltb_lt.
  - destruct (counter_chain s (units W) s_valid s_nonneg W_large W_finite
                s_small dn) as [Hv [Hn [_ Hlow]]].
    { intros j Hj. now apply counter_below. }
    destruct (Z_lt_le_dec (units (counter s dn)) (units W)) as [L|L].
    + destruct (counter_chain s (units W) s_valid s_nonneg W_large W_finite
                  s_small (Datatypes.S dn)) as [Hv' [Hn' [_ Hlow']]].
      { intros j Hj. destruct (Nat.eq_dec j dn) as [->|Hne]; [exact L|].
        apply counter_below. lia. }
      exists (Datatypes.S dn). split; [lia|].
      change (Nat.iter (Datatypes.S dn) (fun i => (i + s)%js) (#0)%js)
        with (counter s (Datatypes.S dn)).
      rewrite (ltb_units _ _ Hv' W_valid Hn' W_nonneg).
      apply Z.ltb_ge. now apply leaves.
    + exists dn. split; [lia|].
      change (Nat.iter dn (fun i => (i + s)%js) (#0)%js) with (counter s dn).
      rewrite (ltb_units _ _ Hv W_valid Hn W_nonneg). now apply Z.ltb_ge.
Qed.
End CountedLoop.

(** The sub-tick loop at a width of at least [2^-1024]: the counter
    takes [xScaleDensity] or [xScaleDensity + 1] values. *)
Lemma subtick_candidates_count (W : num) (d : Z) :
  valid W = true -> nonneg W = true ->
  2 ^ 50 <= units W < top_units -> 1 <= d <= 6 ->
  exists l, subtick_candidates d W 8 = Some l /\
            d <= Z.of_nat (List.length l) <= d + 1.
Proof.
  intros Hv Hn [Hw Hwt] Hd.
  assert (P50 : 0 < 2 ^ 50) by (apply pow2_pos; lia).
  destruct W as [[|]|[|]| |[|] mW eW]; try discriminate;
    try (cbn [units] in Hw, Hwt; lia).
  destruct (valid_finite_inv _ _ _ Hv) as [HeW _].
  assert (H53 : 6 < 2 ^ 53) by reflexivity.
  destruct (ofZ_pos d ltac:(lia)) as [my [ey [Ed [Hvy [Hey Huy]]]]].
  assert (P1074 : 0 < 2 ^ 1074) by (apply pow2_pos; lia).
  set (w := units (S754_finite false mW eW)) in *.
  assert (Hq : units (S754_finite false my ey) <= w * 2 ^ 1074).
  { cbn [units]. rewrite Huy. apply Z.mul_le_mono_nonneg_r; lia. }
  destruct (div_units mW my eW ey Hv Hvy ltac:(lia) Hq)
    as [Hvs [Hns [G [R [HG [Hnorm [[Hlo Hhi] Hu]]]]]]].
  fold w in Hlo, Hhi. cbn [units] in Hlo, Hhi. rewrite Huy in Hlo, Hhi.
  assert (Hlo' : (R - G) * d <= w).
  { apply (Z.mul_le_mono_pos_r _ _ (2 ^ 1074)); lia. }
  assert (Hhi' : w < (R + G) * d).
  { apply (Z.mul_lt_mono_pos_r (2 ^ 1074)); lia. }
  clear Hlo Hhi Hq.
  assert (P52 : 2 ^ 52 = 4 * 2 ^ 50)
    by (change 52 with (2 + 50); rewrite Z.pow_add_r by lia; reflexivity).
  set (c := 2 ^ 50) in *.
  assert (HGw : c * G <= w) by (destruct Hnorm; nia).
  unfold subtick_candidates.
  change (subtick_cond (S754_finite false mW eW))
    with (fun i => (i <? S754_finite false mW eW)%js).
  change (subtick_step d (S754_finite false mW eW))
    with (fun i => (i + S754_finite false mW eW / #d)%js).
  rewrite Ed.
  set (s := (S754_finite false mW eW / S754_finite false my ey)%js) in *.
  set (a := units s) in *.
  assert (Hsmall : a <= 2 * w) by nia.
  assert (Hcount : forall dn : nat,
             Z.of_nat dn = d ->
             (forall (k : nat) (B : Z),
                 (k < dn)%nat ->
                 c * (B - Z.of_nat k * a) <= Z.of_nat k * w -> B < w) ->
             (forall B : Z,
                 w <= B \/
                 c * (Z.of_nat (Datatypes.S dn) * a - B)
                 <= Z.of_nat (Datatypes.S dn) * w -> w <= B) ->
             exists l,
               iterates (fun i => (i <? S754_finite false mW eW)%js)
                        (fun i => (i + s)%js) 8 (#0)%js = Some l /\
               d <= Z.of_nat (List.length l) <= d + 1).
  { intros dn Hdn Hbelow Hleaves.
    destruct (counted_loop (S754_finite false mW eW) s dn Hv Hn Hvs Hns
                Hw Hwt Hsmall Hbelow Hleaves) as [l [Hl Hlen]].
    exists l. split; [|lia].
    apply (iterates_more_fuel _ _ _ _ _ _ Hl). lia. }
  assert (D : d = 1 \/ d = 2 \/ d = 3 \/ d = 4 \/ d = 5 \/ d = 6) by lia.
  destruct D as [D|[D|[D|[D|[D|D]]]]]; subst d.
  - apply (Hcount 1%nat eq_refl).
    + intros k B Hk Hup. do 1 (destruct k as [|k]; [cbn [Z.of_nat] in Hup; lia|]). lia.
    + intros B HB. cbn [Z.of_nat Pos.of_succ_nat Pos.succ] in HB. lia.
  - apply (Hcount 2%nat eq_refl).
    + intros k B Hk Hup. do 2 (destruct k as [|k]; [cbn [Z.of_nat Pos.of_succ_nat Pos.succ] in Hup; lia|]). lia.
    + intros B HB. cbn [Z.of_nat Pos.of_succ_nat Pos.succ] in HB. lia.
  - apply (Hcount 3%nat eq_refl).
    + intros k B Hk Hup. do 3 (destruct k as [|k]; [cbn [Z.of_nat Pos.of_succ_nat Pos.succ] in Hup; lia|]). lia.
    + intros B HB. cbn [Z.of_nat Pos.of_succ_nat Pos.succ] in HB. lia.
  - apply (Hcount 4%nat eq_refl).
    + intros k B Hk Hup. do 4 (destruct k as [|k]; [cbn [Z.of_nat Pos.of_succ_nat Pos.succ] in Hup; lia|]). lia.
    + intros B HB. cbn [Z.of_nat Pos.of_succ_nat Pos.succ] in HB. lia.
  - apply (Hcount 5%nat eq_refl).
    + intros k B Hk Hup. do 5 (destruct k as [|k]; [cbn [Z.of_nat Pos.of_succ_nat Pos.succ] in Hup; lia|]). lia.
    + intros B HB. cbn [Z.of_nat Pos.of_succ_nat Pos.succ] in HB. lia.
  - apply (Hcount 6%nat eq_refl).
    + intros k B Hk Hup. do 6 (destruct k as [|k]; [cbn [Z.of_nat Pos.of_succ_nat Pos.succ] in Hup; lia|]). lia.
    + intros B HB. cbn [Z.of_nat Pos.of_succ_nat Pos.succ] in HB. lia.
Qed.

Lemma min_width_units (W : num) :
  valid W = true -> (min_width <=? W)%js = true ->
  nonneg W = true /\ 2 ^ 50 <= units W.
Proof.
  intros Hv Hle.
  destruct W as [[|]|[|]| |[|] m e]; try discriminate.
  - split; [reflexivity|].
    change (2 ^ 50 <= 2 ^ 2098). apply Z.pow_le_mono_r; lia.
  - split; [reflexivity|].
    destruct (valid_finite_inv _ _ _ Hv) as [He [Hd Hc]].
    destruct (digits2_pos_bounds m) as [Dlo _].
    unfold leb, SFleb, min_width in Hle. cbn [SFcompare] in Hle.
    change (PosDef.Pos.compare_cont Eq 1125899906842624 m)
      with (1125899906842624 ?= m)%positive in Hle.
    cbn [units].
    destruct (Z.compare_spec (-1074) e) as [E|E|E].
    + subst e. change (2 ^ (-1074 + 1074)) with 1.
      destruct (Pos.compare_spec 1125899906842624 m) as [C|C|C];
        try discriminate.
      * subst m. reflexivity.
      * assert (Zpos 1125899906842624 < Zpos m) by exact C.
        change (2 ^ 50) with (Zpos 1125899906842624). lia.
    + assert (D : Zpos (digits2_pos m) = 53) by lia.
      rewrite D in Dlo. change (2 ^ (53 - 1)) with (4 * 2 ^ 50) in Dlo.
      assert (P := pow2_pos (e + 1074) ltac:(lia)).
      assert (P50 : 0 < 2 ^ 50) by (apply pow2_pos; lia).
      set (c := 2 ^ 50) in *. nia.
    + lia.
Qed.

(** The loop is not entered at a width that is not above 0. *)
Lemma subtick_candidates_not_entered (d : Z) (W : num) (fuel : nat) :
  (#0 <? W)%js = false -> (1 <= fuel)%nat ->
  subtick_candidates d W fuel = Some [].
Proof.
  intros H Hf. destruct fuel as [|k]; [lia|].
  unfold subtick_candidates. cbn [iterates]. unfold subtick_cond at 1.
  now rewrite H.
Qed.

(** At an infinite width the step is infinite too. *)
Lemma subtick_candidates_infinite (d : Z) (fuel : nat) :
  1 <= d <= 6 -> (2 <= fuel)%nat ->
  subtick_candidates d Infinity fuel = Some [#0]%js.
Proof.
  intros Hd Hf. destruct fuel as [|[|k]]; try lia.
  assert (H53 : 6 < 2 ^ 53) by reflexivity.
  destruct (ofZ_pos d ltac:(lia)) as [my [ey [Ed _]]].
  unfold subtick_candidates. cbn [iterates].
  unfold subtick_cond, subtick_step. rewrite Ed. reflexivity.
Qed.

(** The sub-tick loop at a width of at least [2^-1024], in units. *)
Lemma subtick_candidates_units (W : num) (d : Z) (fuel : nat) :
  valid W = true -> nonneg W = true -> 2 ^ 50 <= units W ->
  0 <= d <= 6 -> (8 <= fuel)%nat ->
  exists l, subtick_candidates d W fuel = Some l /\
            Z.of_nat (List.length l) <= d + 1 /\
            (is_finite W = true -> d <= Z.of_nat (List.length l)).
Proof.
  intros Hv Hn Hw Hd Hf.
  destruct (Z.eq_dec d 0) as [->|Hd0].
  { eexists. split; [apply subtick_candidates_density_0; lia|].
    destruct (#0 <? W)%js; cbn [List.length]; lia. }
  assert (P50 : 0 < 2 ^ 50) by (apply pow2_pos; lia).
  destruct W as [[|]|[|]| |[|] m e]; try discriminate;
    try (cbn [units] in Hw; lia).
  - exists [#0]%js. split; [apply subtick_candidates_infinite; lia|].
    cbn [List.length]. split; [lia|discriminate].
  - assert (Hu := units_finite false m e Hv).
    destruct (subtick_candidates_count (S754_finite false m e) d Hv Hn
                ltac:(lia) ltac:(lia)) as [l [Hl Hlen]].
    exists l. split; [|lia].
    exact (iterates_more_fuel _ _ _ _ _ _ Hl Hf).
Qed.

(** The sub-tick loop at the widths of a canvas: it is left after
    [xScaleDensity + 1] executions of its body at most. *)
Lemma subtick_candidates_canvas (n : Z) (dpr : num) (d : Z) (fuel : nat) :
  0 <= n < 2 ^ 32 -> valid dpr = true -> 0 <= d <= 6 -> (8 <= fuel)%nat ->
  exists l, subtick_candidates d (#n / dpr)%js fuel = Some l /\
            Z.of_nat (List.length l) <= d + 1 /\
            (is_finite (#n / dpr)%js = true ->
             (#0 <? #n / dpr)%js = true ->
             d <= Z.of_nat (List.length l)).
Proof.
  intros Hn Hv Hd Hf.
  destruct (overlay_width_cases n dpr Hn Hv) as [H0|[HvW [HnW HuW]]].
  - exists []. split; [apply subtick_candidates_not_entered; [exact H0|lia]|].
    cbn [List.length]. split; [lia|]. intros _ H1. congruence.
  - destruct (subtick_candidates_units _ d fuel HvW HnW HuW Hd Hf)
      as [l [Hl [Hhi Hlo]]].
    exists l. split; [exact Hl|]. split; [exact Hhi|]. intros Hfin _.
    now apply Hlo.
Qed.

(** A redraw at the width of a canvas returns. *)
Lemma drawTimeAxis_returns
      (LocalTZA : Z -> Z) (timeWindow : num) (showXSubScale : bool)
      (xScaleDensity : Z) (now H : num) (n : Z) (dpr : num) (fuel : nat)
      (ctx : list CanvasOp) :
  0 <= n < 2 ^ 32 -> valid dpr = true -> 0 <= xScaleDensity <= 6 ->
  (8 <= fuel)%nat ->
  exists l,
    subtick_candidates xScaleDensity (#n / dpr)%js fuel = Some l /\
    drawTimeAxis LocalTZA timeWindow showXSubScale xScaleDensity now
                 (#n / dpr)%js H fuel ctx =
    Some (ctx ++ baseline (#n / dpr)%js H
              ++ (if showXSubScale
                  then subtick_marks now (#n / dpr)%js l else [])
              ++ label_style
              ++ major_marks LocalTZA timeWindow now (#n / dpr)%js
              ++ badges LocalTZA timeWindow now (#n / dpr)%js).
Proof.
  intros Hn Hv Hd Hf.
  destruct (subtick_candidates_canvas n dpr xScaleDensity fuel Hn Hv Hd Hf)
    as [l [Hl _]].
  exists l. split; [exact Hl|].
  rewrite drawTimeAxis_calls. destruct showXSubScale; [|reflexivity].
  now rewrite Hl.
Qed.

(** A width that is not above 0 keeps the loop from being entered. *)
Lemma leb_zero_not_above (W : num) :
  (W <=? #0)%js = true -> (#0 <? W)%js = false.
Proof.
  destruct W as [[|]|[|]| |[|] m e]; try discriminate; reflexivity.
Qed.

(** The sub-tick loop at every width that is not above 0 or not below
    [2^-1024]. *)
Lemma subtick_candidates_wide (W : num) (d : Z) (fuel : nat) :
  valid W = true ->
  (W <=? #0)%js = true \/ (min_width <=? W)%js = true ->
  0 <= d <= 6 -> (8 <= fuel)%nat ->
  exists l, subtick_candidates d W fuel = Some l /\
            Z.of_nat (List.length l) <= d + 1.
Proof.
  intros Hv [H0|Hm] Hd Hf.
  - exists []. split.
    + apply subtick_candidates_not_entered; [now apply leb_zero_not_above|lia].
    + cbn [List.length]. lia.
  - destruct (min_width_units W Hv Hm) as [Hn Hu].
    destruct (subtick_candidates_units W d fuel Hv Hn Hu Hd Hf)
      as [l [Hl [Hhi _]]].
    now exists l.
Qed.

(** At the container width 441 and the pixel ratio 1.5 the canvas is
    661 pixels wide and the overlay 440.67 wide; with density 3 the
    third addition of the step stays below the width and the counter
    takes 4 values. *)
Lemma subtick_candidates_one_more :
  option_map (@List.length num)
             (subtick_candidates 3 (#661 / lit_1_5)%js 8) = Some 4%nat.
Proof. vm_compute. reflexivity. Qed.

(** The smallest positive number is no width of an overlay: at density
    2 the step [width / 2] would round to 0 there and the counter stay
    at 0. *)
Lemma subtick_step_vanishes :
  (min_subnormal / #2)%js = (#0)%js /\
  (min_subnormal <? min_width)%js = true /\
  forall (n : Z) (dpr : num),
    0 <= n < 2 ^ 32 -> valid dpr = true -> (#n / dpr)%js <> min_subnormal.
Proof.
  split; [reflexivity|]. split; [reflexivity|].
  intros n dpr Hn Hv E.
  destruct (overlay_width_cases n dpr Hn Hv) as [H0|[_ [_ Hu]]].
  - rewrite E in H0. discriminate.
  - rewrite E in Hu. revert Hu. apply Z.lt_nge. reflexivity.
Qed.

(** ** The major ticks and the badges *)

(** C5.  A redraw with clock value [now] and width [W] uses the scroll
    offset [(now % 2000)/2000 * (W/5)].  It returns, with the sub-scale
    hidden at every width and with the sub-scale shown at every width a
    canvas can have (its [width] attribute, a whole number below
    [2^32], over the device pixel ratio); after the baseline and the
    sub-ticks it has drawn, for [i] from 0 to 6 in turn, a major tick
    at [x = i*(W/5) - offset] exactly when [0 <= x <= W], and under it
    the time of day of
    [now - (timeWindow/1000 - i*(timeWindow/5000))*1000]; for a window
    of 10000 ms that is [now - 10000] at [i = 0] and [now + 2000] at
    [i = 6]. *)
Theorem C5_major_ticks
        (LocalTZA : Z -> Z) (timeWindow : num) (xScaleDensity : Z)
        (now W H : num) :
  let offset := (now rem #2000 / #2000 * (W / #5))%js in
  let label (i : Z) :=
    Date.timeStr LocalTZA
      (Date.make (now - (timeWindow / #1000 - #i * (timeWindow / #5000))
                        * #1000)%js) in
  let tick (i : Z) :=
    let x := (#i * (W / #5) - offset)%js in
    if ((x >=? #0) && (x <=? W))%js
    then [beginPath; moveTo x #0; lineTo x #6; stroke;
          fillText (label i) x #20]%js
    else [] in
  (forall fuel ctx,
      drawTimeAxis LocalTZA timeWindow false xScaleDensity now W H fuel ctx
      = Some (ctx ++ baseline W H ++ label_style
                  ++ flat_map tick [0; 1; 2; 3; 4; 5; 6]
                  ++ badges LocalTZA timeWindow now W)) /\
  (forall (n : Z) (dpr : num) fuel ctx,
      0 <= n < 2 ^ 32 -> valid dpr = true -> W = (#n / dpr)%js ->
      0 <= xScaleDensity <= 6 -> (8 <= fuel)%nat ->
      exists l,
        subtick_candidates xScaleDensity W fuel = Some l /\
        drawTimeAxis LocalTZA timeWindow true xScaleDensity now W H fuel ctx
        = Some (ctx ++ baseline W H ++ subtick_marks now W l ++ label_style
                    ++ flat_map tick [0; 1; 2; 3; 4; 5; 6]
                    ++ badges LocalTZA timeWindow now W)) /\
  (timeWindow = (#10000)%js ->
   label 0 = Date.timeStr LocalTZA (Date.make (now - #10000)%js) /\
   label 6 = Date.timeStr LocalTZA (Date.make (now + #2000)%js)).
Proof.
  cbv zeta. split; [|split].
  - intros fuel ctx. rewrite drawTimeAxis_calls. reflexivity.
  - intros n dpr fuel ctx Hn Hv -> Hd Hf.
    destruct (subtick_candidates_canvas n dpr xScaleDensity fuel Hn Hv Hd Hf)
      as [l [Hl _]].
    exists l. split; [exact Hl|].
    rewrite drawTimeAxis_calls, Hl. reflexivity.
  - intros ->. split.
    + change ((#10000 / #1000 - #0 * (#10000 / #5000)) * #1000)%js
        with (#10000)%js. reflexivity.
    + change ((#10000 / #1000 - #6 * (#10000 / #5000)) * #1000)%js
        with (S754_finite true 8796093022208000 (-42)).
      rewrite sub_negative. reflexivity.
Qed.

Lemma C5_major_ticks_witness :
  exists l ctx',
    subtick_candidates 3 (#500 / #1)%js 8 = Some l /\
    drawTimeAxis utc_offset (#10000)%js true 3 (#1700000000321)%js
                 (#500 / #1)%js (#30)%js 8 [] = Some ctx' /\
    In (fillText "22:13:12.32"
                 (#1 * (#500 / #5) - #321 / #2000 * (#500 / #5))%js
                 (#20)%js) ctx' /\
    Date.timeStr utc_offset
      (Date.make (#1700000000321 -
                  (#10000 / #1000 - #6 * (#10000 / #5000)) * #1000)%js)
    = "22:13:22.32".
Proof.
  destruct (C5_major_ticks utc_offset (#10000)%js 3 (#1700000000321)%js
              (#500 / #1)%js (#30)%js) as [_ [Hon Hlabel]].
  destruct (Hon 500 (#1)%js 8%nat [] ltac:(lia) eq_refl eq_refl
                ltac:(lia) ltac:(lia)) as [l [Hl Hd]].
  exists l. eexists. split; [exact Hl|]. split; [exact Hd|].
  destruct (Hlabel eq_refl) as [_ H6].
  split.
  - apply in_or_app. right. apply in_or_app. right.
    apply in_or_app. right. apply in_or_app. right.
    apply in_or_app. left. vm_compute. tauto.
  - rewrite H6. vm_compute. reflexivity.
Defined.

(** The last calls of a redraw. *)
Lemma drawTimeAxis_ends_with_badges
      (LocalTZA : Z -> Z) (timeWindow : num) (showXSubScale : bool)
      (xScaleDensity : Z) (now W H : num) (fuel : nat)
      (ctx ctx' : list CanvasOp) :
  drawTimeAxis LocalTZA timeWindow showXSubScale xScaleDensity
               now W H fuel ctx = Some ctx' ->
  exists before, ctx' = before ++ badges LocalTZA timeWindow now W.
Proof.
  intros Hd. rewrite drawTimeAxis_calls in Hd.
  destruct showXSubScale.
  - destruct (subtick_candidates xScaleDensity W fuel) as [l|];
      [|discriminate].
    cbn [option_map] in Hd. apply Some_inj in Hd. rewrite <- Hd.
    exists (ctx ++ baseline W H ++ subtick_marks now W l ++ label_style
                ++ major_marks LocalTZA timeWindow now W).
    rewrite <- !app_assoc. reflexivity.
  - apply Some_inj in Hd. rewrite <- Hd.
    exists (ctx ++ baseline W H ++ label_style
                ++ major_marks LocalTZA timeWindow now W).
    rewrite <- !app_assoc. reflexivity.
Qed.

(** C6.  Every redraw ends with the two badges: at the left edge the
    text ["["] followed by the time of day of [now - timeWindow], at
    the right edge the time of day of [now] followed by ["]"].  The
    redraw returns, with the sub-scale hidden at every width and with
    the sub-scale shown at every width a canvas can have, and the two
    texts are fixed by [now] and [timeWindow]: they are the same for
    every width, hence for every scroll offset, and whatever the
    sub-scale settings. *)
Theorem C6_badges (LocalTZA : Z -> Z) (timeWindow now : num) :
  exists left right : string,
    left = ("[" ++ Date.timeStr LocalTZA
                     (Date.make (now - timeWindow)%js))%string /\
    right = (Date.timeStr LocalTZA (Date.make now) ++ "]")%string /\
    forall (showXSubScale : bool) (xScaleDensity : Z) (W H : num)
           (fuel : nat) (ctx : list CanvasOp),
      (showXSubScale = false \/
       (exists (n : Z) (dpr : num),
           0 <= n < 2 ^ 32 /\ valid dpr = true /\ W = (#n / dpr)%js) /\
       0 <= xScaleDensity <= 6 /\ (8 <= fuel)%nat) ->
      exists before,
        drawTimeAxis LocalTZA timeWindow showXSubScale xScaleDensity
                     now W H fuel ctx =
        Some (before ++
          [fillStyle "#333"; font "bold 13px Arial";
           textAlign "left"; fillRect #0 #0 #2 #10;
           fillText left #4 #20;
           textAlign "right"; fillRect (W - #2) #0 #2 #10;
           fillText right (W - #4) #20;
           fillStyle "rgba(0, 0, 0, 0.05)";
           fillRect #0 #0 #80 #25; fillRect (W - #80) #0 #80 #25]%js).
Proof.
  eexists. eexists. split; [reflexivity|]. split; [reflexivity|].
  intros showXSubScale xScaleDensity W H fuel ctx Hcase.
  rewrite drawTimeAxis_calls.
  destruct Hcase as [->|[[n [dpr [Hn [Hv ->]]]] [Hd Hf]]].
  - exists (ctx ++ baseline W H ++ label_style
                ++ major_marks LocalTZA timeWindow now W).
    rewrite <- !app_assoc. reflexivity.
  - destruct (subtick_candidates_canvas n dpr xScaleDensity fuel Hn Hv Hd Hf)
      as [l [Hl _]].
    rewrite Hl.
    exists (ctx ++ baseline (#n / dpr)%js H
                ++ (if showXSubScale
                    then subtick_marks now (#n / dpr)%js l else [])
                ++ label_style
                ++ major_marks LocalTZA timeWindow now (#n / dpr)%js).
    destruct showXSubScale; cbn [option_map]; rewrite <- !app_assoc;
      reflexivity.
Qed.

Lemma C6_badges_witness :
  exists before,
    drawTimeAxis utc_offset (#10000)%js true 3 (#1700000000321)%js
                 (#500 / #1)%js (#30)%js 8 [] =
    Some (before ++
      [fillStyle "#333"; font "bold 13px Arial";
       textAlign "left"; fillRect #0 #0 #2 #10;
       fillText "[22:13:10.32" #4 #20;
       textAlign "right"; fillRect #498 #0 #2 #10;
       fillText "22:13:20.32]" #496 #20;
       fillStyle "rgba(0, 0, 0, 0.05)";
       fillRect #0 #0 #80 #25; fillRect #420 #0 #80 #25]%js).
Proof.
  destruct (C6_badges utc_offset (#10000)%js (#1700000000321)%js)
    as [left [right [Hl [Hr Hdraw]]]].
  destruct (Hdraw true 3 (#500 / #1)%js (#30)%js 8%nat []) as [before Hb].
  { right. split; [|split; lia].
    exists 500, (#1)%js. split; [lia|]. split; reflexivity. }
  exists before. rewrite Hb, Hl, Hr. reflexivity.
Defined.

(** ** The sub-ticks *)




(** C9.  The sub-tick loop is left for every density from 0 to 6.  With
    density 0 the step is [width / 0]: for every width the body is
    executed once at most, so the redraw returns and draws one
    sub-tick at most.  With a density up to 6 the body is executed
    [density + 1] times at most and the redraw returns, at every width
    that is not above 0 or not below [2^-1024], and so at every width
    a canvas can have: its [width] attribute, a whole number below
    [2^32], over the device pixel ratio. *)
Theorem C9_subtick_loop_terminates
        (LocalTZA : Z -> Z) (timeWindow now H : num) (ctx : list CanvasOp) :
  (forall (W : num) (fuel : nat),
      (2 <= fuel)%nat ->
      exists l ctx',
        subtick_candidates 0 W fuel = Some l /\
        (List.length l <= 1)%nat /\
        drawTimeAxis LocalTZA timeWindow true 0 now W H fuel ctx = Some ctx' /\
        (List.length (flat_map (subtick_mark now W) l) <= 2)%nat) /\
  (forall (W : num) (d : Z) (fuel : nat),
      valid W = true ->
      (W <=? #0)%js = true \/ (min_width <=? W)%js = true ->
      0 <= d <= 6 -> (8 <= fuel)%nat ->
      exists l ctx',
        subtick_candidates d W fuel = Some l /\
        Z.of_nat (List.length l) <= d + 1 /\
        drawTimeAxis LocalTZA timeWindow true d now W H fuel ctx = Some ctx') /\
  (forall (n : Z) (dpr : num) (d : Z) (fuel : nat),
      0 <= n < 2 ^ 32 -> valid dpr = true ->
      0 <= d <= 6 -> (8 <= fuel)%nat ->
      exists l ctx',
        subtick_candidates d (#n / dpr)%js fuel = Some l /\
        Z.of_nat (List.length l) <= d + 1 /\
        drawTimeAxis LocalTZA timeWindow true d now (#n / dpr)%js H fuel ctx
        = Some ctx').
Proof.
  split; [|split].
  - intros W fuel Hf.
    assert (Hl := subtick_candidates_density_0 W fuel Hf).
    eexists. eexists. split; [exact Hl|].
    split; [destruct (#0 <? W)%js; simpl; lia|].
    split; [rewrite drawTimeAxis_calls, Hl; reflexivity|].
    destruct (#0 <? W)%js; cbn [flat_map]; [|simpl; lia].
    rewrite app_nil_r. unfold subtick_mark.
    destruct ((#0 - offset now W >=? #0) && (#0 - offset now W <=? W))%js;
      simpl; lia.
  - intros W d fuel Hv Hw Hd Hf.
    destruct (subtick_candidates_wide W d fuel Hv Hw Hd Hf) as [l [Hl Hlen]].
    exists l. eexists. split; [exact Hl|]. split; [exact Hlen|].
    rewrite drawTimeAxis_calls, Hl. reflexivity.
  - intros n dpr d fuel Hn Hv Hd Hf.
    destruct (subtick_candidates_canvas n dpr d fuel Hn Hv Hd Hf)
      as [l [Hl [Hlen _]]].
    exists l. eexists. split; [exact Hl|]. split; [exact Hlen|].
    rewrite drawTimeAxis_calls, Hl. reflexivity.
Qed.

Lemma C9_subtick_loop_terminates_witness :
  exists l ctx',
    subtick_candidates 6 (#500)%js 8 = Some l /\
    Z.of_nat (List.length l) <= 6 + 1 /\
    drawTimeAxis utc_offset (#10000)%js true 6 (#1700000000000)%js
                 (#500)%js (#30)%js 8 [] = Some ctx'.
Proof.
  destruct (C9_subtick_loop_terminates utc_offset (#10000)%js
              (#1700000000000)%js (#30)%js []) as [_ [Hwide _]].
  exact (Hwide (#500)%js 6 8%nat eq_refl (or_intror eq_refl)
               ltac:(lia) ltac:(lia)).
Defined.

(** ** The density inputs *)

(** C8.  On change, the empty string commits 0, a string in which
    [parseInt] finds no number commits nothing, and any other string
    commits the parsed integer clamped to [[0, 6]]; on blur the text
    ["9"] commits 6 and the text ["-3"] commits 0, and a committed
    value within [[0, 6]] stays within it.  The handlers are total:
    they return a state for every text. *)
Theorem C8_density_inputs {St : Type} (setter : Z -> St -> St) (st : St) :
  handleDensityChange "" setter st = setter 0 st /\
  (forall value, value <> "" -> parseInt value = None ->
                 handleDensityChange value setter st = st) /\
  (forall value n, value <> "" -> parseInt value = Some n ->
                   exists v, 0 <= v <= 6 /\ v = Z.max 0 (Z.min 6 n) /\
                             handleDensityChange value setter st = setter v st) /\
  handleDensityChange "9" setter st = setter 6 st /\
  handleDensityChange "-3" setter st = setter 0 st /\
  onBlur "9" setter st = setter 6 st /\
  onBlur "-3" setter st = setter 0 st /\
  (forall value, onBlur value setter st = st \/
                 onBlur value setter st = setter 0 st \/
                 onBlur value setter st = setter 6 st).
Proof.
  split; [reflexivity|]. split.
  { intros value Hne Hp. unfold handleDensityChange.
    destruct (String.eqb_spec value ""); [contradiction|].
    now rewrite Hp. }
  split.
  { intros value n Hne Hp. exists (Z.max 0 (Z.min 6 n)).
    split; [lia|]. split; [reflexivity|].
    unfold handleDensityChange.
    destruct (String.eqb_spec value ""); [contradiction|].
    now rewrite Hp. }
  repeat split; try reflexivity.
  intros value. unfold onBlur.
  destruct (parseInt value) as [n|]; [|auto].
  destruct (n <? 0); [auto|]. destruct (n >? 6); auto.
Qed.

(** The committed density of a component whose setter stores it. *)
Lemma C8_committed_density (d : Z) :
  0 <= d <= 6 ->
  forall value : string,
    0 <= handleDensityChange value (fun v _ => v) d <= 6 /\
    0 <= onBlur value (fun v _ => v) d <= 6.
Proof.
  intros Hd value. split.
  - unfold handleDensityChange. destruct (String.eqb value ""); [lia|].
    destruct (parseInt value); lia.
  - unfold onBlur. destruct (parseInt value) as [n|]; [|lia].
    destruct (n <? 0); [lia|]. destruct (n >? 6); lia.
Qed.

(** ** The life cycle *)

Lemma config_eqb_eq (c c' : Config) : config_eqb c c' = true -> c = c'.
Proof.
  destruct c, c'. unfold config_eqb. cbn [timeWindow amplitude showXSubScale
    showYSubScale xScaleDensity yScaleDensity].
  intros H. repeat (apply andb_prop in H; destruct H as [H ?]).
  f_equal; try (now apply num_eqb_eq); try (now apply Bool.eqb_prop);
    now apply Z.eqb_eq.
Qed.

Section LifecycleFacts.
Variable Math_sin : num -> num.
Variable LocalTZA : Z -> Z.
Variable clock : nat -> Z.
Variable devicePixelRatio : num.
Variable fuel : nat.

Local Abbreviation updateFrame' := (updateFrame Math_sin LocalTZA clock devicePixelRatio fuel).
Local Abbreviation step' := (step Math_sin LocalTZA clock devicePixelRatio fuel).
Local Abbreviation run' := (run Math_sin LocalTZA clock devicePixelRatio fuel).
Local Abbreviation setState' := (setState clock devicePixelRatio).

(** The ref [startTime] is written by [mount] alone. *)
Lemma effect_setup_startTime (st : App) :
  startTime_current (effect_setup devicePixelRatio st) = startTime_current st.
Proof. reflexivity. Qed.

Lemma effect_cleanup_startTime (st : App) :
  startTime_current (effect_cleanup st) = startTime_current st.
Proof.
  unfold effect_cleanup.
  destruct (animationFrameRef st) as [h|]; [|reflexivity].
  destruct (Nat.eqb h 0); reflexivity.
Qed.

Lemma setState_startTime (f : Config -> Config) (st : App) :
  startTime_current (setState' f st) = startTime_current st.
Proof.
  unfold setState. destruct (config_eqb (config st) (f (config st)));
    [reflexivity|].
  cbn [Date_now]. rewrite effect_setup_startTime, effect_cleanup_startTime.
  reflexivity.
Qed.

Lemma setState_config (f : Config -> Config) (st : App) :
  config (setState' f st) = f (config st).
Proof.
  unfold setState.
  destruct (config_eqb (config st) (f (config st))) eqn:E.
  - now apply config_eqb_eq in E.
  - cbn [Date_now]. unfold effect_setup, effect_cleanup.
    destruct (animationFrameRef _) as [h|]; [|reflexivity].
    destruct (Nat.eqb h 0); reflexivity.
Qed.

(** The density events of the component commit what the handlers
    compute. *)
Lemma density_change_config (value : string) (st : App) :
  config (handleDensityChange value
            (fun v => setState' (set_xScaleDensity v)) st)
  = set_xScaleDensity
      (handleDensityChange value (fun v _ => v) (xScaleDensity (config st)))
      (config st).
Proof.
  unfold handleDensityChange. destruct (String.eqb value "").
  - now rewrite setState_config.
  - destruct (parseInt value); [now rewrite setState_config|].
    now destruct (config st).
Qed.

Lemma density_blur_config (value : string) (st : App) :
  config (onBlur value (fun v => setState' (set_xScaleDensity v)) st)
  = set_xScaleDensity
      (onBlur value (fun v _ => v) (xScaleDensity (config st)))
      (config st).
Proof.
  unfold onBlur. destruct (parseInt value) as [n|].
  - destruct (n <? 0); [now rewrite setState_config|].
    destruct (n >? 6); [now rewrite setState_config|].
    now destruct (config st).
  - now rewrite setState_config.
Qed.

Lemma updateFrame_startTime (st st' : App) :
  updateFrame' st = Some st' -> startTime_current st' = startTime_current st.
Proof.
  unfold updateFrame. cbn [Date_now].
  destruct (generate _ _ _ _ _ _) as [newData|]; [|discriminate].
  destruct (drawTimeAxis _ _ _ _ _ _ _ _ _) as [ctx'|]; [|discriminate].
  intros H. apply Some_inj in H. subst st'.
  destruct (chartInstanceRef _); reflexivity.
Qed.

Lemma handleDensityChange_startTime (value : string) (f : Z -> Config -> Config)
      (st : App) :
  startTime_current (handleDensityChange value (fun v => setState' (f v)) st)
  = startTime_current st.
Proof.
  unfold handleDensityChange. destruct (String.eqb value "").
  - apply setState_startTime.
  - destruct (parseInt value); [apply setState_startTime|reflexivity].
Qed.

Lemma onBlur_startTime (value : string) (f : Z -> Config -> Config)
      (st : App) :
  startTime_current (onBlur value (fun v => setState' (f v)) st)
  = startTime_current st.
Proof.
  unfold onBlur. destruct (parseInt value) as [n|].
  - destruct (n <? 0); [apply setState_startTime|].
    destruct (n >? 6); [apply setState_startTime|reflexivity].
  - apply setState_startTime.
Qed.

Lemma step_startTime (e : Event) (st st' : App) :
  step' e st = Some st' -> startTime_current st' = startTime_current st.
Proof.
  unfold step. destruct (negb (mounted st)).
  { intros H. apply Some_inj in H. now subst. }
  destruct e.
  - destruct (pending_frames st) as [|h rest].
    + intros H. apply Some_inj in H. now subst.
    + intros H. now rewrite (updateFrame_startTime _ _ H).
  - intros H. apply Some_inj in H. subst. apply setState_startTime.
  - intros H. apply Some_inj in H. subst. apply setState_startTime.
  - intros H. apply Some_inj in H. subst. apply setState_startTime.
  - intros H. apply Some_inj in H. subst. apply setState_startTime.
  - destruct (showXSubScale (config st)); intros H; apply Some_inj in H;
      subst; [apply handleDensityChange_startTime|reflexivity].
  - destruct (showXSubScale (config st)); intros H; apply Some_inj in H;
      subst; [apply onBlur_startTime|reflexivity].
  - destruct (showYSubScale (config st)); intros H; apply Some_inj in H;
      subst; [apply handleDensityChange_startTime|reflexivity].
  - destruct (showYSubScale (config st)); intros H; apply Some_inj in H;
      subst; [apply onBlur_startTime|reflexivity].
  - intros H. apply Some_inj in H. subst. reflexivity.
  - intros H. apply Some_inj in H. subst. cbn [with_mounted startTime_current].
    apply effect_cleanup_startTime.
Qed.

Lemma run_startTime (es : list Event) :
  forall st st', run' es st = Some st' ->
                 startTime_current st' = startTime_current st.
Proof.
  induction es as [|e es IH]; intros st st' H; cbn [run] in H.
  - apply Some_inj in H. now subst.
  - destruct (step' e st) as [st1|] eqn:E; [|discriminate].
    rewrite (IH _ _ H). exact (step_startTime _ _ _ E).
Qed.
End LifecycleFacts.

(** The component is mounted when the clock reads 1700000000000 and
    the amplitude is then set to 4, when the clock reads 1700000001000.
    The effect has run a second time: a second chart exists, not
    disposed, and a new frame is pending.  The ref [startTime] still
    holds the reading of the mount, and the new chart is anchored
    there. *)
Lemma C3_startTime_not_refixed :
  exists st',
    run sin_taylor utc_offset second_clock (#1)%js frame_fuel
        [SelectAmplitude (#4)%js]
        (mount second_clock (#1)%js (#500)%js (#300)%js 0) = Some st' /\
    charts_created st' = 2%nat /\
    option_map disposed (chartInstanceRef st') = Some false /\
    pending_frames st' = [2%nat] /\
    clock_reads st' = 2%nat /\
    startTime_current st' = second_clock 0 /\
    startTime_current st' <> second_clock 1 /\
    option_map xAxis_max (chartInstanceRef st') = Some (#(second_clock 0))%js.
Proof.
  eexists. split; [vm_compute; reflexivity|].
  repeat split; try reflexivity. discriminate.
Qed.

(** C3 (amended).  The clock reference [startTime] is fixed once, at
    the mount of the component, to the clock value read by that first
    render; no event changes it afterwards, in particular no change of
    a configuration field, although each one tears the pipeline down
    and sets it up again.  Every frame computes its samples with the
    elapsed time [(now - startTime) / 1000], [now] being the clock
    value it has read. *)
Theorem C3_startTime_fixed_at_mount
        (Math_sin : num -> num) (LocalTZA : Z -> Z) (clock : nat -> Z)
        (devicePixelRatio : num) (fuel : nat) (w h : num) (reads : nat) :
  startTime_current (mount clock devicePixelRatio w h reads) = clock reads /\
  (forall es st',
      run Math_sin LocalTZA clock devicePixelRatio fuel es
          (mount clock devicePixelRatio w h reads) = Some st' ->
      startTime_current st' = clock reads) /\
  (forall st st',
      updateFrame Math_sin LocalTZA clock devicePixelRatio fuel st = Some st' ->
      let now := (#(clock (clock_reads st)))%js in
      let start := (#(startTime_current st))%js in
      exists ts,
        offsets (timeWindow (config st)) fuel = Some ts /\
        dataRef st' =
        map (fun t => ((now + t * #1000)%js,
                       clamp (amplitude (config st) *
                              Math_sin (#2 * PI *
                                        (t + (now - start) / #1000) / #2))%js))
            (filter (fun t => (t >=? - ((now - start) / #1000))%js) ts)).
Proof.
  split; [reflexivity|]. split.
  - intros es st' H.
    now rewrite (run_startTime _ _ _ _ _ es _ _ H).
  - intros st st' H now start. unfold updateFrame in H. cbn [Date_now] in H.
    destruct (generate _ _ _ _ _ _) as [newData|] eqn:G; [|discriminate].
    destruct (drawTimeAxis _ _ _ _ _ _ _ _ _) as [ctx'|]; [|discriminate].
    apply Some_inj in H. subst st'.
    cbn [with_clock_reads config startTime_current] in G.
    rewrite generate_offsets in G.
    destruct (offsets (timeWindow (config st)) fuel) as [ts|]; [|discriminate].
    exists ts. split; [reflexivity|].
    apply Some_inj in G. rewrite <- G.
    destruct (chartInstanceRef _); reflexivity.
Qed.

Lemma C3_startTime_fixed_at_mount_witness :
  exists st',
    run sin_taylor utc_offset second_clock (#1)%js frame_fuel
        [AnimationFrame; SelectTimeWindow (#5000)%js; AnimationFrame]
        (mount second_clock (#1)%js (#500)%js (#300)%js 0) = Some st' /\
    startTime_current st' = 1700000000000.
Proof.
  destruct (run sin_taylor utc_offset second_clock (#1)%js frame_fuel
              [AnimationFrame; SelectTimeWindow (#5000)%js; AnimationFrame]
              (mount second_clock (#1)%js (#500)%js (#300)%js 0))
    as [st'|] eqn:E; [|vm_compute in E; discriminate].
  exists st'. split; [reflexivity|].
  destruct (C3_startTime_fixed_at_mount sin_taylor utc_offset second_clock
              (#1)%js frame_fuel (#500)%js (#300)%js 0) as [_ [Hrun _]].
  exact (Hrun _ _ E).
Defined.

(** C4.  A frame reads the clock once.  With the value [now] it has
    read it computes the samples, sets the horizontal range of the
    chart to [[now - timeWindow, now]] together with those samples, and
    redraws the overlay with [currentTime = now]: the dates of the two
    badges are made from the two ends of the range of the chart, and
    so are, for the windows the select offers, the dates of the labels
    of the ticks 0 and 5. *)
Theorem C4_one_clock_value_per_frame
        (Math_sin : num -> num) (LocalTZA : Z -> Z) (clock : nat -> Z)
        (devicePixelRatio : num) (fuel : nat) (st st' : App) (ch : Chart) :
  chartInstanceRef st = Some ch ->
  updateFrame Math_sin LocalTZA clock devicePixelRatio fuel st = Some st' ->
  let now := (#(clock (clock_reads st)))%js in
  let c := config st in
  let W := (#(canvas_width st) / devicePixelRatio)%js in
  let H := (#(canvas_height st) / devicePixelRatio)%js in
  clock_reads st' = Datatypes.S (clock_reads st) /\
  generate Math_sin now (#(startTime_current st))%js (timeWindow c)
           (amplitude c) fuel = Some (dataRef st') /\
  (exists ch',
      chartInstanceRef st' = Some ch' /\
      xAxis_min ch' = (now - timeWindow c)%js /\
      xAxis_max ch' = now /\
      series_data ch' = dataRef st' /\
      (exists before,
          ctx st' = before ++
            [fillStyle "#333"; font "bold 13px Arial";
             textAlign "left"; fillRect #0 #0 #2 #10;
             fillText ("[" ++ Date.timeStr LocalTZA
                                (Date.make (xAxis_min ch')))%string #4 #20;
             textAlign "right"; fillRect (W - #2) #0 #2 #10;
             fillText (Date.timeStr LocalTZA (Date.make (xAxis_max ch'))
                         ++ "]")%string (W - #4) #20;
             fillStyle "rgba(0, 0, 0, 0.05)";
             fillRect #0 #0 #80 #25; fillRect (W - #80) #0 #80 #25]%js) /\
      (In (timeWindow c) timeWindow_options ->
       labelTime (timeWindow c) now 0 = Date.make (xAxis_min ch') /\
       labelTime (timeWindow c) now 5 = Date.make (xAxis_max ch'))) /\
  drawTimeAxis LocalTZA (timeWindow c) (showXSubScale c) (xScaleDensity c)
               now W H fuel (ctx st) = Some (ctx st').
Proof.
  intros Hch Hf now c W H. unfold updateFrame in Hf. cbn [Date_now] in Hf.
  cbn [with_clock_reads config startTime_current] in Hf.
  fold c now in Hf.
  destruct (generate Math_sin now _ (timeWindow c) (amplitude c) fuel)
    as [newData|] eqn:G; [|discriminate].
  assert (Hch' : chartInstanceRef
                   (with_dataRef newData
                      (with_clock_reads (Datatypes.S (clock_reads st)) st))
                 = Some ch) by exact Hch.
  rewrite Hch' in Hf. clear Hch'.
  change (canvas_width (with_chartInstanceRef _ _))
    with (canvas_width st) in Hf.
  change (canvas_height (with_chartInstanceRef _ _))
    with (canvas_height st) in Hf.
  change (ctx (with_chartInstanceRef _ _)) with (ctx st) in Hf.
  fold W H in Hf.
  destruct (drawTimeAxis LocalTZA (timeWindow c) (showXSubScale c)
              (xScaleDensity c) now W H fuel (ctx st)) as [ctx'|] eqn:D;
    [|discriminate].
  apply Some_inj in Hf. subst st'.
  split; [reflexivity|]. split; [reflexivity|]. split; [|reflexivity].
  eexists. split; [reflexivity|].
  split; [reflexivity|]. split; [reflexivity|]. split; [reflexivity|].
  split; [exact (drawTimeAxis_ends_with_badges _ _ _ _ _ _ _ _ _ _ D)|].
  intros Hopt. exact (label_ends (timeWindow c) now Hopt).
Qed.

Lemma C4_one_clock_value_per_frame_witness :
  exists st',
    updateFrame sin_taylor utc_offset second_clock (#1)%js frame_fuel
                (mount second_clock (#1)%js (#500)%js (#300)%js 0)
    = Some st' /\
    clock_reads st' = 2%nat /\
    option_map xAxis_max (chartInstanceRef st') = Some (#1700000001000)%js.
Proof.
  destruct (updateFrame sin_taylor utc_offset second_clock (#1)%js frame_fuel
              (mount second_clock (#1)%js (#500)%js (#300)%js 0))
    as [st'|] eqn:E; [|vm_compute in E; discriminate].
  exists st'. split; [reflexivity|].
  destruct (C4_one_clock_value_per_frame sin_taylor utc_offset second_clock
              (#1)%js frame_fuel
              (mount second_clock (#1)%js (#500)%js (#300)%js 0) st'
              (init_chart (with_startTime_current (second_clock 0)
                             (mount second_clock (#1)%js (#500)%js
                                    (#300)%js 0)))
              eq_refl E)
    as [Hreads [_ [[ch' [Hch' [_ [Hmax _]]]] _]]].
  split; [exact Hreads|].
  rewrite Hch'. cbn [option_map]. now rewrite Hmax.
Defined.

(** * More of the component *)

(** ** The order of the numbers and the clamp *)

(** X5.  The clamp of line 250 saturates: it is idempotent, it sends
    every number above 10, [Infinity] included, to 10 and every number
    below -10 to -10, and it sends [NaN] to [NaN]. *)
Theorem X5_clamp_saturates (y : num) :
  clamp (clamp y) = clamp y /\
  ((y >? #10)%js = true -> clamp y = (#10)%js) /\
  ((y <? - #10)%js = true -> clamp y = (- #10)%js) /\
  (is_nan y = true -> clamp y = NaN).
Proof.
  split; [|split; [|split]].
  - destruct (is_nan y) eqn:E.
    + rewrite (clamp_nan y E). reflexivity.
    + apply clamp_id, clamp_in_range, E.
  - intros H. unfold gtb in H.
    assert (Hy : is_nan y = false) by (destruct y; try reflexivity; discriminate).
    rewrite (clamp_cases y Hy). cbv zeta.
    change Y_AXIS_MAX with (#10)%js. rewrite (ltb_asym _ _ H). reflexivity.
  - intros H.
    assert (Hy : is_nan y = false) by (destruct y; try reflexivity; discriminate).
    rewrite (clamp_cases y Hy). cbv zeta.
    assert (H10 : (y <? Y_AXIS_MAX)%js = true).
    { apply (ltb_trans y (- #10)%js); [exact H|reflexivity]. }
    rewrite H10. change (y >? Y_AXIS_MIN)%js with (- #10 <? y)%js.
    rewrite (ltb_asym _ _ H). reflexivity.
  - apply clamp_nan.
Qed.

Lemma X5_clamp_saturates_witness :
  clamp Infinity = (#10)%js /\ clamp (- Infinity)%js = (- #10)%js /\
  clamp (#12)%js = (#10)%js /\ clamp NaN = NaN.
Proof.
  split; [|split; [|split]].
  - exact (proj1 (proj2 (X5_clamp_saturates Infinity)) eq_refl).
  - exact (proj1 (proj2 (proj2 (X5_clamp_saturates (- Infinity)%js))) eq_refl).
  - exact (proj1 (proj2 (X5_clamp_saturates (#12)%js)) eq_refl).
  - exact (proj2 (proj2 (proj2 (X5_clamp_saturates NaN))) eq_refl).
Defined.

(** ** The samples of a frame, window by window *)

(** The counter of the loop of a frame, window by window. *)
Lemma offsets_per_window_checked :
  forallb (fun p : num * nat =>
             match offsets (fst p) frame_fuel with
             | Some ts =>
                 Nat.eqb (List.length ts) (snd p) &&
                 forallb (fun t => (first_offset (fst p) <=? t)%js &&
                                   (t <? #0)%js) ts &&
                 num_eqb (hd NaN ts) (first_offset (fst p)) &&
                 num_eqb (first_offset (fst p) * #1000)%js (- fst p)%js
             | None => false
             end) offsets_per_window = true.
Proof. vm_cast_no_check (eq_refl true). Qed.

(** The result of a loop does not depend on the fuel that suffices. *)
Lemma iterates_fuel_unique (cond : num -> bool) (step : num -> num)
      (fuel fuel' : nat) (i : num) (l l' : list num) :
  iterates cond step fuel i = Some l ->
  iterates cond step fuel' i = Some l' -> l = l'.
Proof.
  intros H H'. destruct (Nat.le_ge_cases fuel fuel') as [L|L].
  - rewrite (iterates_more_fuel _ _ _ _ _ _ H L) in H'. congruence.
  - rewrite (iterates_more_fuel _ _ _ _ _ _ H' L) in H. congruence.
Qed.

(** The same for the offsets of a frame, stated on [offsets]. *)
Lemma offsets_more_fuel (tw : num) (fuel fuel' : nat) (ts : list num) :
  offsets tw fuel = Some ts -> (fuel <= fuel')%nat ->
  offsets tw fuel' = Some ts.
Proof. unfold offsets. apply iterates_more_fuel. Qed.

Lemma offsets_fuel_unique (tw : num) (fuel fuel' : nat) (ts ts' : list num) :
  offsets tw fuel = Some ts -> offsets tw fuel' = Some ts' -> ts = ts'.
Proof. unfold offsets. apply iterates_fuel_unique. Qed.

Lemma offsets_length (tw : num) (fuel : nat) (ts : list num) :
  In tw timeWindow_options -> offsets tw fuel = Some ts ->
  (List.length ts <= max_samples)%nat.
Proof.
  intros Hin Hts.
  assert (Hn : exists n, In (tw, n) offsets_per_window /\
                         Nat.leb n max_samples = true).
  { unfold timeWindow_options in Hin. cbn [In] in Hin.
    unfold offsets_per_window. cbn [In].
    destruct Hin as [E|[E|[E|[E|[]]]]]; rewrite <- E.
    - exists 251%nat. split; [tauto|reflexivity].
    - exists 501%nat. split; [tauto|reflexivity].
    - exists 1501%nat. split; [tauto|reflexivity].
    - exists 3000%nat. split; [tauto|reflexivity]. }
  destruct Hn as [n [Hn Hle]]. apply Nat.leb_le in Hle.
  assert (H := offsets_per_window_checked). rewrite forallb_forall in H.
  specialize (H (tw, n) Hn). cbn [fst snd] in H.
  destruct (offsets tw frame_fuel) as [ts0|] eqn:E; [|discriminate].
  apply andb_prop in H. destruct H as [H _].
  apply andb_prop in H. destruct H as [H _].
  apply andb_prop in H. destruct H as [H _]. apply Nat.eqb_eq in H.
  now rewrite (offsets_fuel_unique _ _ _ _ _ Hts E), H.
Qed.

Lemma clamp_plottable (y : num) : plottable (clamp y) = true.
Proof.
  unfold plottable. destruct (is_nan y) eqn:E.
  - now rewrite (clamp_nan y E).
  - rewrite (clamp_in_range y E). apply orb_true_r.
Qed.

Lemma generate_plottable (Math_sin : num -> num) (now start tw amplitude : num)
      (fuel : nat) (s : list Sample) :
  generate Math_sin now start tw amplitude fuel = Some s ->
  Forall (fun p : Sample => plottable (snd p) = true) s.
Proof.
  rewrite generate_offsets.
  destruct (offsets tw fuel) as [ts|]; [|discriminate].
  intros H. apply Some_inj in H. subst s.
  apply Forall_forall. intros p Hp. apply in_map_iff in Hp.
  destruct Hp as [t [<- _]]. apply clamp_plottable.
Qed.

Lemma generate_length (Math_sin : num -> num) (now start tw amplitude : num)
      (fuel : nat) (s : list Sample) :
  In tw timeWindow_options ->
  generate Math_sin now start tw amplitude fuel = Some s ->
  (List.length s <= max_samples)%nat.
Proof.
  intros Hin. rewrite generate_offsets.
  destruct (offsets tw fuel) as [ts|] eqn:E; [|discriminate].
  intros H. apply Some_inj in H. subst s.
  rewrite length_map.
  assert (H1 := filter_length_le (emitted now start) ts).
  assert (H2 := offsets_length tw fuel ts Hin E). lia.
Qed.

(** X4.  Once the elapsed time covers the window, that is
    [-timeWindow/1000 >= -elapsedTime], a frame returns one sample for
    each value of the counter of its loop: 251, 501, 1501 and 3000
    samples for the windows of 5, 10, 30 and 60 s.  The first one has
    the time stamp [now - timeWindow], the left end of the range of the
    chart; every offset is below 0, and the window of 60 s holds one
    sample fewer than [60 / 0.02 + 1]. *)
Theorem X4_full_window_samples
        (Math_sin : num -> num) (now start amplitude tw : num) (n : nat) :
  In (tw, n) offsets_per_window ->
  (- tw / #1000 >=? - ((now - start) / #1000))%js = true ->
  exists ts samples,
    offsets tw frame_fuel = Some ts /\
    generate Math_sin now start tw amplitude frame_fuel = Some samples /\
    samples =
    map (fun t => ((now + t * #1000)%js,
                   clamp (amplitude *
                          Math_sin (#2 * PI *
                                    (t + (now - start) / #1000) / #2))%js))
        ts /\
    List.length samples = n /\
    option_map fst (hd_error samples) = Some (now - tw)%js /\
    Forall (fun t => (t <? #0)%js = true) ts.
Proof.
  intros Hin Hel.
  assert (H := offsets_per_window_checked).
  rewrite forallb_forall in H. specialize (H (tw, n) Hin).
  cbn [fst snd] in H.
  destruct (offsets tw frame_fuel) as [ts|] eqn:E; [|discriminate].
  apply andb_prop in H. destruct H as [H Hfirst].
  apply andb_prop in H. destruct H as [H Hhd].
  apply andb_prop in H. destruct H as [Hn Hts].
  apply Nat.eqb_eq in Hn. rewrite forallb_forall in Hts.
  apply num_eqb_eq in Hhd. apply num_eqb_eq in Hfirst.
  assert (Hall : filter (emitted now start) ts = ts).
  { apply filter_length_all. f_equal.
    apply forallb_filter_id. apply forallb_forall. intros t Ht.
    specialize (Hts t Ht). apply andb_prop in Hts. destruct Hts as [Hlo _].
    unfold emitted, geb, elapsedTime.
    exact (leb_trans _ _ _ Hel Hlo). }
  exists ts. eexists. split; [reflexivity|]. split.
  { rewrite generate_offsets, E. cbn [option_map]. rewrite Hall. reflexivity. }
  split; [reflexivity|]. split; [now rewrite length_map|]. split.
  - destruct ts as [|t0 ts0]; [subst n; destruct Hin as [Hin|[Hin|[Hin|[Hin|[]]]]];
                                discriminate Hin|].
    cbn [hd] in Hhd. subst t0. cbn [map hd_error option_map fst].
    unfold sample_at. cbn [fst]. now rewrite Hfirst, add_opp.
  - apply Forall_forall. intros t Ht. specialize (Hts t Ht).
    apply andb_prop in Hts. tauto.
Qed.

Lemma X4_full_window_samples_witness :
  exists ts samples,
    offsets (#60000)%js frame_fuel = Some ts /\
    generate sin_taylor (#1700000060000)%js (#1700000000000)%js (#60000)%js
             (#10)%js frame_fuel = Some samples /\
    List.length samples = 3000%nat /\
    option_map fst (hd_error samples) = Some (#1700000000000)%js.
Proof.
  assert (Hin : In ((#60000)%js, 3000%nat) offsets_per_window)
    by (cbn; tauto).
  destruct (X4_full_window_samples sin_taylor (#1700000060000)%js
              (#1700000000000)%js (#10)%js (#60000)%js 3000 Hin eq_refl)
    as [ts [samples [H1 [H2 [_ [H4 [H5 _]]]]]]].
  exists ts, samples.
  split; [exact H1|]. split; [exact H2|]. split; [exact H4|exact H5].
Defined.

(** ** The ticks and the labels of the overlay *)

Lemma zero_minus_positive (q o : num) :
  (#0 <? o)%js = true -> ((#0 * q - o) >=? #0)%js = false.
Proof.
  change (#0)%js with (S754_zero false).
  destruct o as [[|]|[|]| |[|] m e]; try discriminate; intros _;
    destruct q as [[|]|[|]| |[|] mq eq]; reflexivity.
Qed.

Lemma zero_sub_positive (o : num) :
  (#0 <? o)%js = true -> ((#0 - o) >=? #0)%js = false.
Proof.
  change (#0)%js with (S754_zero false).
  destruct o as [[|]|[|]| |[|] m e]; try discriminate; reflexivity.
Qed.

(** X9.  When the scroll offset is positive, the major tick of
    [i = 0] with its label and the sub-tick of the first value of the
    counter lie left of the canvas: neither is drawn. *)
Theorem X9_start_tick_clipped
        (LocalTZA : Z -> Z) (timeWindow now W : num) :
  (#0 <? now rem #2000 / #2000 * (W / #5))%js = true ->
  major_mark LocalTZA timeWindow now W 0 = [] /\
  subtick_mark now W (#0)%js = [].
Proof.
  intros H. fold (offset now W) in H. split.
  - unfold major_mark. cbv zeta.
    now rewrite (zero_minus_positive (W / #5)%js (offset now W) H).
  - unfold subtick_mark. cbv zeta.
    now rewrite (zero_sub_positive (offset now W) H).
Qed.

Lemma X9_start_tick_clipped_witness :
  major_mark utc_offset (#10000)%js (#1700000000321)%js (#500)%js 0 = [] /\
  subtick_mark (#1700000000321)%js (#500)%js (#0)%js = [].
Proof.
  exact (X9_start_tick_clipped utc_offset (#10000)%js (#1700000000321)%js
           (#500)%js eq_refl).
Defined.

Lemma label_offsets_checked :
  forallb (fun z =>
             forallb (fun i =>
                        num_eqb ((#z / #1000 - #i * (#z / #5000)) * #1000)%js
                                (#((5 - i) * (z / 5)))%js)
                     tick_indices &&
             num_eqb (#(- (z / 5)))%js (- #(z / 5))%js)
          timeWindow_ms = true.
Proof. vm_compute. reflexivity. Qed.

Lemma sub_opp (x y : num) : (x - - y)%js = (x + y)%js.
Proof.
  destruct y as [s|s| |s m e]; destruct x as [sx|sx| |sx mx ex];
    try reflexivity; destruct s; reflexivity.
Qed.

(** X10.  For each window of [z] ms that the select offers, the label
    of the tick [i] carries the time [now - (5 - i) * z / 5] exactly:
    the labels are [z / 5] ms apart, the tick 5 carries [now] and the
    tick 6 carries [now + z / 5]. *)
Theorem X10_label_schedule (now : num) (z i : Z) :
  In z timeWindow_ms -> 0 <= i <= 6 ->
  In (#z)%js timeWindow_options /\
  labelTime (#z)%js now i = Date.make (now - #((5 - i) * (z / 5)))%js /\
  labelTime (#z)%js now 5 = Date.make now /\
  labelTime (#z)%js now 6 = Date.make (now + #(z / 5))%js.
Proof.
  intros Hz Hi.
  assert (H := label_offsets_checked). rewrite forallb_forall in H.
  specialize (H z Hz). apply andb_prop in H. destruct H as [H Hopp].
  rewrite forallb_forall in H. apply num_eqb_eq in Hopp.
  assert (Hl : forall j, 0 <= j <= 6 ->
                 labelTime (#z)%js now j
                 = Date.make (now - #((5 - j) * (z / 5)))%js).
  { intros j Hj. unfold labelTime.
    assert (Hin : In j tick_indices) by (unfold tick_indices; cbn [In]; lia).
    now rewrite (num_eqb_eq _ _ (H j Hin)). }
  split; [|split; [|split]].
  - unfold timeWindow_ms in Hz. cbn [In] in Hz. unfold timeWindow_options.
    cbn [In]. destruct Hz as [<-|[<-|[<-|[<-|[]]]]]; tauto.
  - now apply Hl.
  - rewrite (Hl 5) by lia. replace ((5 - 5) * (z / 5)) with 0 by lia.
    now rewrite sub_zero.
  - rewrite (Hl 6) by lia. replace ((5 - 6) * (z / 5)) with (- (z / 5)) by lia.
    now rewrite Hopp, sub_opp.
Qed.

Lemma X10_label_schedule_witness :
  labelTime (#60000)%js (#1700000000321)%js 3
  = Date.make (#1700000000321 - #24000)%js /\
  labelTime (#60000)%js (#1700000000321)%js 6
  = Date.make (#1700000000321 + #12000)%js.
Proof.
  assert (Hz : In 60000 timeWindow_ms) by (cbn; tauto).
  split.
  - exact (proj1 (proj2 (X10_label_schedule (#1700000000321)%js 60000 3 Hz
                           ltac:(lia)))).
  - exact (proj2 (proj2 (proj2 (X10_label_schedule (#1700000000321)%js 60000 3 Hz
                                  ltac:(lia))))).
Defined.

Lemma pad2 (n : Z) :
  0 <= n < 100 -> padStart 2 "0" (Number_toString (Some n)) = two_digits n.
Proof.
  assert (H : forallb (fun n => String.eqb
                                  (padStart 2 "0" (Number_toString (Some n)))
                                  (two_digits n))
                      (whole_widths 99) = true) by (vm_compute; reflexivity).
  intros Hn. rewrite forallb_forall in H.
  apply String.eqb_eq, H, whole_widths_In. lia.
Qed.

Lemma pad3_slice (n : Z) :
  0 <= n < 1000 ->
  slice_0_2 (padStart 3 "0" (Number_toString (Some n))) = two_digits (n / 10).
Proof.
  assert (H : forallb (fun n => String.eqb
                                  (slice_0_2
                                     (padStart 3 "0" (Number_toString (Some n))))
                                  (two_digits (n / 10)))
                      (whole_widths 999) = true) by (vm_compute; reflexivity).
  intros Hn. rewrite forallb_forall in H.
  apply String.eqb_eq, H, whole_widths_In. lia.
Qed.

(** X11.  The text of a time label.  For a valid date it is the eleven
    characters [HH:MM:SS.CC] of the local time of day, the hundredths
    of a second being truncated, not rounded; for an invalid date it is
    ["NaN:NaN:NaN.Na"]. *)
Theorem X11_timeStr_shape (LocalTZA : Z -> Z) (tv : Z) :
  let lt := tv + LocalTZA tv in
  Date.timeStr LocalTZA (Some tv) =
    (two_digits (lt / 3600000 mod 24) ++ ":" ++
     two_digits (lt / 60000 mod 60) ++ ":" ++
     two_digits (lt / 1000 mod 60) ++ "." ++
     two_digits (lt mod 1000 / 10))%string /\
  String.length (Date.timeStr LocalTZA (Some tv)) = 11%nat /\
  Date.timeStr LocalTZA None = "NaN:NaN:NaN.Na".
Proof.
  intros lt.
  assert (E : Date.timeStr LocalTZA (Some tv) =
    (two_digits (lt / 3600000 mod 24) ++ ":" ++
     two_digits (lt / 60000 mod 60) ++ ":" ++
     two_digits (lt / 1000 mod 60) ++ "." ++
     two_digits (lt mod 1000 / 10))%string).
  { unfold Date.timeStr, Date.getHours, Date.getMinutes, Date.getSeconds,
      Date.getMilliseconds, Date.LocalTime, Date.msPerHour, Date.msPerMinute,
      Date.msPerSecond. cbn [option_map]. fold lt.
    assert (H1 := Z.mod_pos_bound (lt / 3600000) 24 ltac:(lia)).
    assert (H2 := Z.mod_pos_bound (lt / 60000) 60 ltac:(lia)).
    assert (H3 := Z.mod_pos_bound (lt / 1000) 60 ltac:(lia)).
    assert (H4 := Z.mod_pos_bound lt 1000 ltac:(lia)).
    rewrite !pad2, pad3_slice by lia. reflexivity. }
  split; [exact E|]. split; [|reflexivity].
  rewrite E. reflexivity.
Qed.

Lemma zero_width_marks (LocalTZA : Z -> Z) (timeWindow now : num) :
  is_finite (now rem #2000 / #2000)%js = true ->
  major_marks LocalTZA timeWindow now (#0)%js =
  flat_map (fun i => [beginPath; moveTo #0 #0; lineTo #0 #6; stroke;
                      fillText (Date.timeStr LocalTZA
                                  (labelTime timeWindow now i)) #0 #20]%js)
           [0; 1; 2; 3; 4; 5; 6].
Proof.
  unfold major_marks, major_mark, offset. cbv zeta.
  destruct (now rem #2000 / #2000)%js as [[|]|s| |[|] m e]; try discriminate;
    intros _; reflexivity.
Qed.

(** X16.  An overlay of width 0, that of a canvas in a collapsed
    container.  The redraw returns for every density, the sub-tick loop
    not being entered, and draws the seven major ticks with their seven
    labels one upon the other at [x = 0], the tick of [i = 6]
    included. *)
Theorem X16_zero_width_ticks
        (LocalTZA : Z -> Z) (timeWindow now H : num) (showXSubScale : bool)
        (xScaleDensity : Z) (fuel : nat) (ctx : list CanvasOp) :
  is_finite (now rem #2000 / #2000)%js = true ->
  (1 <= fuel)%nat ->
  drawTimeAxis LocalTZA timeWindow showXSubScale xScaleDensity
               now (#0)%js H fuel ctx =
  Some (ctx ++ baseline (#0)%js H
            ++ (if showXSubScale
                then [beginPath; strokeStyle "#999"; lineWidth lit_0_5; stroke]
                else [])
            ++ label_style
            ++ flat_map
                 (fun i => [beginPath; moveTo #0 #0; lineTo #0 #6; stroke;
                            fillText (Date.timeStr LocalTZA
                                        (Date.make
                                           (now - (timeWindow / #1000
                                                   - #i * (timeWindow / #5000))
                                                  * #1000)%js)) #0 #20]%js)
                 [0; 1; 2; 3; 4; 5; 6]
            ++ badges LocalTZA timeWindow now (#0)%js).
Proof.
  intros Hr Hf. rewrite drawTimeAxis_calls, (zero_width_marks _ _ _ Hr).
  destruct showXSubScale; [|reflexivity].
  destruct fuel as [|k]; [lia|]. reflexivity.
Qed.

Lemma X16_zero_width_ticks_witness :
  option_map (fun ops => List.length (filter (fun op =>
                                                match op with
                                                | fillText _ _ _ => true
                                                | _ => false
                                                end) ops))
    (drawTimeAxis utc_offset (#10000)%js true 3 (#1700000000321)%js (#0)%js
                  (#30)%js 1 [])
  = Some 9%nat.
Proof.
  rewrite (X16_zero_width_ticks utc_offset (#10000)%js (#1700000000321)%js
             (#30)%js true 3 1 [] eq_refl (Nat.le_refl 1)).
  reflexivity.
Defined.

(** ** The life cycle of the effect: what it keeps with the host *)

Section LifecycleInvariants.
Variable Math_sin : num -> num.
Variable LocalTZA : Z -> Z.
Variable clock : nat -> Z.
Variable devicePixelRatio : num.
Variable fuel : nat.

Local Abbreviation updateFrame' := (updateFrame Math_sin LocalTZA clock devicePixelRatio fuel).
Local Abbreviation step' := (step Math_sin LocalTZA clock devicePixelRatio fuel).
Local Abbreviation run' := (run Math_sin LocalTZA clock devicePixelRatio fuel).
Local Abbreviation setState' := (setState clock devicePixelRatio).
Local Abbreviation effect_setup' := (effect_setup devicePixelRatio).

Lemma effect_setup_live (st : App) : idle st -> live (effect_setup' st).
Proof.
  intros [Hp [Hl Hn]]. unfold live, effect_setup.
  eexists. eexists. cbn. rewrite Hp, Hl. cbn.
  repeat split; try reflexivity; lia.
Qed.

Lemma effect_cleanup_idle (st : App) : live st -> idle (effect_cleanup st).
Proof.
  intros [h [ch [Hp [Ha [Hh [Hl [Hc Hd]]]]]]]. unfold idle, effect_cleanup.
  rewrite Ha. destruct (Nat.eqb_spec h 0) as [E|E]; [lia|].
  cbn. rewrite Hp, Hl. cbn. rewrite Nat.eqb_refl. cbn.
  repeat split; lia.
Qed.

Lemma effect_cleanup_released (st : App) :
  live st -> released (effect_cleanup st).
Proof.
  intros [h [ch [Hp [Ha [Hh [Hl [Hc Hd]]]]]]]. unfold released, effect_cleanup.
  rewrite Ha. destruct (Nat.eqb_spec h 0) as [E|E]; [lia|].
  cbn. rewrite Hp, Hl, Hc. cbn. rewrite Nat.eqb_refl. cbn.
  repeat split.
Qed.

Lemma effect_cleanup_mounted (st : App) :
  mounted (effect_cleanup st) = mounted st.
Proof.
  unfold effect_cleanup.
  destruct (animationFrameRef st) as [h|]; [|reflexivity].
  destruct (Nat.eqb h 0); reflexivity.
Qed.

Lemma setState_mounted (f : Config -> Config) (st : App) :
  mounted (setState' f st) = mounted st.
Proof.
  unfold setState. destruct (config_eqb _ _); [reflexivity|].
  cbn [Date_now].
  change (mounted (effect_setup devicePixelRatio ?x)) with (mounted x).
  now rewrite effect_cleanup_mounted.
Qed.

Lemma setState_live (f : Config -> Config) (st : App) :
  live st -> live (setState' f st).
Proof.
  intros H. unfold setState. destruct (config_eqb _ _); [exact H|].
  cbn [Date_now]. apply effect_setup_live, effect_cleanup_idle.
  exact H.
Qed.

Lemma updateFrame_mounted (st st' : App) :
  updateFrame' st = Some st' -> mounted st' = mounted st.
Proof.
  unfold updateFrame. cbn [Date_now].
  destruct (generate _ _ _ _ _ _) as [newData|]; [|discriminate].
  destruct (drawTimeAxis _ _ _ _ _ _ _ _ _) as [ctx'|]; [|discriminate].
  intros H. apply Some_inj in H. subst st'.
  destruct (chartInstanceRef _); reflexivity.
Qed.

(** A frame that has been taken from the queue arms the next one. *)
Lemma updateFrame_live (st st' : App) (h : nat) :
  live st -> pending_frames st = [h] ->
  updateFrame' (with_pending_frames [] st) = Some st' -> live st'.
Proof.
  intros [h0 [ch [Hp [Ha [Hh [Hl [Hc Hd]]]]]]] _.
  unfold updateFrame. cbn [Date_now].
  destruct (generate _ _ _ _ _ _) as [newData|]; [|discriminate].
  cbn. rewrite Hc. cbn.
  destruct (drawTimeAxis _ _ _ _ _ _ _ _ _) as [ctx'|]; [|discriminate].
  intros H. apply Some_inj in H. subst st'.
  unfold live. eexists. eexists. cbn.
  repeat split; try reflexivity; try lia; assumption.
Qed.

Lemma resizeHandler_live (st : App) (w h : num) :
  live st ->
  live (resizeHandler devicePixelRatio
          (with_container_height h (with_container_width w st))).
Proof.
  intros [h0 [ch [Hp [Ha [Hh [Hl [Hc Hd]]]]]]].
  unfold live, resizeHandler, updateCanvasSize. cbn. rewrite Hc. cbn.
  eexists. eexists. repeat split; try eassumption; try reflexivity; lia.
Qed.

Lemma handleDensityChange_live (value : string) (f : Z -> Config -> Config)
      (st : App) :
  live st -> live (handleDensityChange value (fun v => setState' (f v)) st).
Proof.
  intros H. unfold handleDensityChange. destruct (String.eqb value "").
  - now apply setState_live.
  - destruct (parseInt value); [now apply setState_live|exact H].
Qed.

Lemma onBlur_live (value : string) (f : Z -> Config -> Config) (st : App) :
  live st -> live (onBlur value (fun v => setState' (f v)) st).
Proof.
  intros H. unfold onBlur. destruct (parseInt value) as [n|].
  - destruct (n <? 0); [now apply setState_live|].
    destruct (n >? 6); [now apply setState_live|exact H].
  - now apply setState_live.
Qed.

Lemma handleDensityChange_mounted (value : string) (f : Z -> Config -> Config)
      (st : App) :
  mounted (handleDensityChange value (fun v => setState' (f v)) st)
  = mounted st.
Proof.
  unfold handleDensityChange. destruct (String.eqb value "").
  - apply setState_mounted.
  - destruct (parseInt value); [apply setState_mounted|reflexivity].
Qed.

Lemma onBlur_mounted (value : string) (f : Z -> Config -> Config) (st : App) :
  mounted (onBlur value (fun v => setState' (f v)) st) = mounted st.
Proof.
  unfold onBlur. destruct (parseInt value) as [n|].
  - destruct (n <? 0); [apply setState_mounted|].
    destruct (n >? 6); [apply setState_mounted|reflexivity].
  - apply setState_mounted.
Qed.

Lemma mount_armed (w h : num) (reads : nat) :
  armed (mount clock devicePixelRatio w h reads).
Proof.
  unfold armed, mount. cbn [Date_now].
  unfold effect_setup at 1. cbn [mounted with_resize_listeners
    with_animationFrameRef requestAnimationFrame with_next_handle
    with_pending_frames with_charts_created with_chartInstanceRef].
  fold (effect_setup devicePixelRatio).
  apply effect_setup_live. repeat split. cbn. lia.
Qed.

Lemma step_armed (e : Event) (st st' : App) :
  armed st -> step' e st = Some st' -> armed st'.
Proof.
  unfold armed, step. destruct (mounted st) eqn:M; cbn [negb].
  2:{ intros H E. apply Some_inj in E. subst. now rewrite M. }
  intros L. destruct e.
  - destruct (pending_frames st) as [|h rest] eqn:P.
    + intros E. apply Some_inj in E. subst. now rewrite M.
    + intros E. rewrite (updateFrame_mounted _ _ E). cbn. rewrite M.
      assert (R : rest = []).
      { destruct L as [h0 [ch [Hp _]]]. congruence. }
      subst rest. exact (updateFrame_live st st' h L P E).
  - intros E. apply Some_inj in E. subst.
    rewrite setState_mounted, M. now apply setState_live.
  - intros E. apply Some_inj in E. subst.
    rewrite setState_mounted, M. now apply setState_live.
  - intros E. apply Some_inj in E. subst.
    rewrite setState_mounted, M. now apply setState_live.
  - intros E. apply Some_inj in E. subst.
    rewrite setState_mounted, M. now apply setState_live.
  - destruct (showXSubScale (config st)); intros E; apply Some_inj in E; subst.
    + rewrite handleDensityChange_mounted, M.
      now apply handleDensityChange_live.
    + now rewrite M.
  - destruct (showXSubScale (config st)); intros E; apply Some_inj in E; subst.
    + rewrite onBlur_mounted, M. now apply onBlur_live.
    + now rewrite M.
  - destruct (showYSubScale (config st)); intros E; apply Some_inj in E; subst.
    + rewrite handleDensityChange_mounted, M.
      now apply handleDensityChange_live.
    + now rewrite M.
  - destruct (showYSubScale (config st)); intros E; apply Some_inj in E; subst.
    + rewrite onBlur_mounted, M. now apply onBlur_live.
    + now rewrite M.
  - intros E. apply Some_inj in E. subst.
    assert (Hm : mounted (resizeHandler devicePixelRatio
                   (with_container_height h (with_container_width w st)))
                 = mounted st) by reflexivity.
    rewrite Hm, M. now apply resizeHandler_live.
  - intros E. apply Some_inj in E. subst. cbn [mounted with_mounted].
    destruct (effect_cleanup_released st L) as [H1 [H2 H3]].
    repeat split; assumption.
Qed.

Lemma run_armed (es : list Event) :
  forall st st', armed st -> run' es st = Some st' -> armed st'.
Proof.
  induction es as [|e es IH]; intros st st' A H; cbn [run] in H.
  - apply Some_inj in H. now subst.
  - destruct (step' e st) as [st1|] eqn:E; [|discriminate].
    exact (IH _ _ (step_armed _ _ _ A E) H).
Qed.
End LifecycleInvariants.

(** X1.  After any sequence of events on a component that has been
    mounted: as long as it is mounted, exactly one animation frame is
    pending and [animationFrameRef] holds its handle, a positive one
    that the host has issued, exactly one resize listener is registered
    and the chart instance is in use; once it is unmounted, no frame is
    pending, no listener is registered and the chart instance is
    disposed. *)
Theorem X1_frame_loop_armed_once
        (Math_sin : num -> num) (LocalTZA : Z -> Z) (clock : nat -> Z)
        (devicePixelRatio : num) (fuel : nat) (w h : num) (reads : nat)
        (es : list Event) (st' : App) :
  run Math_sin LocalTZA clock devicePixelRatio fuel es
      (mount clock devicePixelRatio w h reads) = Some st' ->
  (mounted st' = true ->
   exists handle ch,
     pending_frames st' = [handle] /\ animationFrameRef st' = Some handle /\
     (0 < handle < next_handle st')%nat /\
     resize_listeners st' = 1%nat /\
     chartInstanceRef st' = Some ch /\ disposed ch = false) /\
  (mounted st' = false ->
   pending_frames st' = [] /\ resize_listeners st' = 0%nat /\
   option_map disposed (chartInstanceRef st') = Some true).
Proof.
  intros R.
  assert (A := run_armed Math_sin LocalTZA clock devicePixelRatio fuel es _ _
                 (mount_armed clock devicePixelRatio w h reads) R).
  unfold armed in A. split; intros M; rewrite M in A; exact A.
Qed.

Lemma X1_frame_loop_armed_once_witness :
  exists st',
    run sin_taylor utc_offset second_clock (#1)%js frame_fuel
        (session ++ [Unmount])
        (mount second_clock (#1)%js (#500)%js (#300)%js 0) = Some st' /\
    mounted st' = false /\
    pending_frames st' = [] /\ resize_listeners st' = 0%nat /\
    option_map disposed (chartInstanceRef st') = Some true.
Proof.
  destruct (run sin_taylor utc_offset second_clock (#1)%js frame_fuel
              (session ++ [Unmount])
              (mount second_clock (#1)%js (#500)%js (#300)%js 0))
    as [st'|] eqn:E; [|vm_compute in E; discriminate].
  exists st'. split; [reflexivity|].
  assert (M : mounted st' = false).
  { assert (H : option_map mounted
                  (run sin_taylor utc_offset second_clock (#1)%js frame_fuel
                     (session ++ [Unmount])
                     (mount second_clock (#1)%js (#500)%js (#300)%js 0))
                = Some false) by (vm_compute; reflexivity).
    rewrite E in H. now apply Some_inj in H. }
  split; [exact M|].
  exact (proj2 (X1_frame_loop_armed_once sin_taylor utc_offset second_clock
                  (#1)%js frame_fuel (#500)%js (#300)%js 0
                  (session ++ [Unmount]) st' E) M).
Defined.

(** ** The state variables under the events *)

Lemma num_eqb_refl (a : num) : num_eqb a a = true.
Proof.
  destruct a as [s|s| |s m e]; cbn; try reflexivity.
  - now destruct s.
  - now destruct s.
  - rewrite Pos.eqb_refl, Z.eqb_refl. now destruct s.
Qed.

Lemma config_eqb_refl (c : Config) : config_eqb c c = true.
Proof.
  unfold config_eqb. rewrite !num_eqb_refl, !Z.eqb_refl.
  now destruct (showXSubScale c), (showYSubScale c).
Qed.

Section ConfigFacts.
Variable Math_sin : num -> num.
Variable LocalTZA : Z -> Z.
Variable clock : nat -> Z.
Variable devicePixelRatio : num.
Variable fuel : nat.

Local Abbreviation updateFrame' := (updateFrame Math_sin LocalTZA clock devicePixelRatio fuel).
Local Abbreviation step' := (step Math_sin LocalTZA clock devicePixelRatio fuel).
Local Abbreviation run' := (run Math_sin LocalTZA clock devicePixelRatio fuel).
Local Abbreviation setState' := (setState clock devicePixelRatio).

Lemma effect_cleanup_config (st : App) :
  config (effect_cleanup st) = config st.
Proof.
  unfold effect_cleanup.
  destruct (animationFrameRef st) as [h|]; [|reflexivity].
  destruct (Nat.eqb h 0); reflexivity.
Qed.

Lemma effect_cleanup_dataRef (st : App) :
  dataRef (effect_cleanup st) = dataRef st.
Proof.
  unfold effect_cleanup.
  destruct (animationFrameRef st) as [h|]; [|reflexivity].
  destruct (Nat.eqb h 0); reflexivity.
Qed.

Lemma updateFrame_config (st st' : App) :
  updateFrame' st = Some st' -> config st' = config st.
Proof.
  unfold updateFrame. cbn [Date_now].
  destruct (generate _ _ _ _ _ _) as [newData|]; [|discriminate].
  destruct (drawTimeAxis _ _ _ _ _ _ _ _ _) as [ctx'|]; [|discriminate].
  intros H. apply Some_inj in H. subst st'.
  destruct (chartInstanceRef _); reflexivity.
Qed.

(** The handlers of a density input, on the component and on its state
    variables. *)
Lemma handleDensityChange_config (value : string)
      (f : Z -> Config -> Config) (st : App) :
  config (handleDensityChange value (fun v => setState' (f v)) st)
  = handleDensityChange value f (config st).
Proof.
  unfold handleDensityChange. destruct (String.eqb value "").
  - apply setState_config.
  - destruct (parseInt value); [apply setState_config|reflexivity].
Qed.

Lemma onBlur_config (value : string) (f : Z -> Config -> Config) (st : App) :
  config (onBlur value (fun v => setState' (f v)) st)
  = onBlur value f (config st).
Proof.
  unfold onBlur. destruct (parseInt value) as [n|].
  - destruct (n <? 0); [apply setState_config|].
    destruct (n >? 6); [apply setState_config|reflexivity].
  - apply setState_config.
Qed.

(** The state variables after an event. *)
Lemma step_config (e : Event) (st st' : App) :
  mounted st = true -> step' e st = Some st' ->
  config st' = requested e (config st).
Proof.
  intros M. unfold step. rewrite M. cbn [negb]. destruct e; cbn [requested].
  - destruct (pending_frames st) as [|h rest].
    + intros H. apply Some_inj in H. now subst.
    + intros H. now rewrite (updateFrame_config _ _ H).
  - intros H. apply Some_inj in H. subst. apply setState_config.
  - intros H. apply Some_inj in H. subst. apply setState_config.
  - intros H. apply Some_inj in H. subst. apply setState_config.
  - intros H. apply Some_inj in H. subst. apply setState_config.
  - destruct (showXSubScale (config st)); intros H; apply Some_inj in H;
      subst; [apply handleDensityChange_config|reflexivity].
  - destruct (showXSubScale (config st)); intros H; apply Some_inj in H;
      subst; [apply onBlur_config|reflexivity].
  - destruct (showYSubScale (config st)); intros H; apply Some_inj in H;
      subst; [apply handleDensityChange_config|reflexivity].
  - destruct (showYSubScale (config st)); intros H; apply Some_inj in H;
      subst; [apply onBlur_config|reflexivity].
  - intros H. apply Some_inj in H. subst. reflexivity.
  - intros H. apply Some_inj in H. subst. cbn [with_mounted config].
    apply effect_cleanup_config.
Qed.

Lemma step_unmounted (e : Event) (st : App) :
  mounted st = false -> step' e st = Some st.
Proof. intros M. unfold step. now rewrite M. Qed.

(** An invariant of the state variables that every request keeps holds
    after every run. *)
Lemma run_config_invariant (P : Config -> Prop) (Q : Event -> Prop) :
  (forall e c, Q e -> P c -> P (requested e c)) ->
  forall es st st',
    Forall Q es -> P (config st) -> run' es st = Some st' -> P (config st').
Proof.
  intros HP. induction es as [|e es IH]; intros st st' HQ H R; cbn [run] in R.
  - apply Some_inj in R. now subst.
  - inversion HQ as [|? ? Qe Qes]; subst.
    destruct (step' e st) as [st1|] eqn:E; [|discriminate].
    apply (IH st1 st' Qes); [|exact R].
    destruct (mounted st) eqn:M.
    + rewrite (step_config _ _ _ M E). now apply HP.
    + rewrite (step_unmounted e st M) in E. apply Some_inj in E. now subst.
Qed.
End ConfigFacts.

(** The densities a handler commits lie between 0 and 6. *)
Lemma handleDensityChange_range (value : string) (d : Z) :
  0 <= d <= 6 -> 0 <= handleDensityChange value (fun v _ => v) d <= 6.
Proof.
  intros Hd. unfold handleDensityChange. destruct (String.eqb value ""); [lia|].
  destruct (parseInt value); lia.
Qed.

Lemma onBlur_range (value : string) (d : Z) :
  0 <= d <= 6 -> 0 <= onBlur value (fun v _ => v) d <= 6.
Proof.
  intros Hd. unfold onBlur. destruct (parseInt value) as [n|]; [|lia].
  destruct (n <? 0); [lia|]. destruct (n >? 6); lia.
Qed.

Lemma handleDensityChange_x (value : string) (c : Config) :
  handleDensityChange value set_xScaleDensity c =
  set_xScaleDensity
    (handleDensityChange value (fun v _ => v) (xScaleDensity c)) c.
Proof.
  unfold handleDensityChange. destruct (String.eqb value ""); [reflexivity|].
  destruct (parseInt value); [reflexivity|]. now destruct c.
Qed.

Lemma handleDensityChange_y (value : string) (c : Config) :
  handleDensityChange value set_yScaleDensity c =
  set_yScaleDensity
    (handleDensityChange value (fun v _ => v) (yScaleDensity c)) c.
Proof.
  unfold handleDensityChange. destruct (String.eqb value ""); [reflexivity|].
  destruct (parseInt value); [reflexivity|]. now destruct c.
Qed.

Lemma onBlur_x (value : string) (c : Config) :
  onBlur value set_xScaleDensity c =
  set_xScaleDensity (onBlur value (fun v _ => v) (xScaleDensity c)) c.
Proof.
  unfold onBlur. destruct (parseInt value) as [n|]; [|reflexivity].
  destruct (n <? 0); [reflexivity|].
  destruct (n >? 6); [reflexivity|]. now destruct c.
Qed.

Lemma onBlur_y (value : string) (c : Config) :
  onBlur value set_yScaleDensity c =
  set_yScaleDensity (onBlur value (fun v _ => v) (yScaleDensity c)) c.
Proof.
  unfold onBlur. destruct (parseInt value) as [n|]; [|reflexivity].
  destruct (n <? 0); [reflexivity|].
  destruct (n >? 6); [reflexivity|]. now destruct c.
Qed.

Lemma requested_densities (e : Event) (c : Config) :
  0 <= xScaleDensity c <= 6 /\ 0 <= yScaleDensity c <= 6 ->
  0 <= xScaleDensity (requested e c) <= 6 /\
  0 <= yScaleDensity (requested e c) <= 6.
Proof.
  intros [Hx Hy]. destruct e; cbn [requested]; try (split; assumption).
  - destruct (showXSubScale c); [|split; assumption].
    rewrite handleDensityChange_x. cbn [set_xScaleDensity xScaleDensity yScaleDensity].
    split; [now apply handleDensityChange_range|assumption].
  - destruct (showXSubScale c); [|split; assumption].
    rewrite onBlur_x. cbn [set_xScaleDensity xScaleDensity yScaleDensity].
    split; [now apply onBlur_range|assumption].
  - destruct (showYSubScale c); [|split; assumption].
    rewrite handleDensityChange_y. cbn [set_yScaleDensity xScaleDensity yScaleDensity].
    split; [assumption|now apply handleDensityChange_range].
  - destruct (showYSubScale c); [|split; assumption].
    rewrite onBlur_y. cbn [set_yScaleDensity xScaleDensity yScaleDensity].
    split; [assumption|now apply onBlur_range].
Qed.

Lemma requested_timeWindow (e : Event) (c : Config) :
  offered e -> In (timeWindow c) timeWindow_options ->
  In (timeWindow (requested e c)) timeWindow_options.
Proof.
  intros Ho Hc. destruct e; cbn [requested]; try assumption.
  - destruct (showXSubScale c); [|assumption].
    now rewrite handleDensityChange_x.
  - destruct (showXSubScale c); [|assumption]. now rewrite onBlur_x.
  - destruct (showYSubScale c); [|assumption].
    now rewrite handleDensityChange_y.
  - destruct (showYSubScale c); [|assumption]. now rewrite onBlur_y.
Qed.

(** X6.  The densities of the two sub-scales stay between 0 and 6
    after any sequence of events, whatever texts the inputs report. *)
Theorem X6_densities_stay_in_range
        (Math_sin : num -> num) (LocalTZA : Z -> Z) (clock : nat -> Z)
        (devicePixelRatio : num) (fuel : nat) (w h : num) (reads : nat)
        (es : list Event) (st' : App) :
  run Math_sin LocalTZA clock devicePixelRatio fuel es
      (mount clock devicePixelRatio w h reads) = Some st' ->
  0 <= xScaleDensity (config st') <= 6 /\
  0 <= yScaleDensity (config st') <= 6.
Proof.
  intros R.
  apply (run_config_invariant Math_sin LocalTZA clock devicePixelRatio fuel
           (fun c => 0 <= xScaleDensity c <= 6 /\ 0 <= yScaleDensity c <= 6)
           (fun _ => True)
           (fun e c _ => requested_densities e c)
           es (mount clock devicePixelRatio w h reads) st');
    [|cbn; lia|exact R].
  apply Forall_forall. auto.
Qed.

Lemma X6_densities_stay_in_range_witness :
  exists st',
    run sin_taylor utc_offset second_clock (#1)%js frame_fuel session
        (mount second_clock (#1)%js (#500)%js (#300)%js 0) = Some st' /\
    0 <= xScaleDensity (config st') <= 6 /\
    0 <= yScaleDensity (config st') <= 6.
Proof.
  destruct (run sin_taylor utc_offset second_clock (#1)%js frame_fuel session
              (mount second_clock (#1)%js (#500)%js (#300)%js 0))
    as [st'|] eqn:E; [|vm_compute in E; discriminate].
  exists st'. split; [reflexivity|].
  exact (X6_densities_stay_in_range sin_taylor utc_offset second_clock (#1)%js
           frame_fuel (#500)%js (#300)%js 0 session st' E).
Defined.

(** A state setter called with the current value does nothing. *)
Lemma setState_same (clock : nat -> Z) (devicePixelRatio : num)
      (f : Config -> Config) (st : App) :
  f (config st) = config st -> setState clock devicePixelRatio f st = st.
Proof.
  intros H. unfold setState. now rewrite H, config_eqb_refl.
Qed.

Lemma parseInt_empty : parseInt "" = None.
Proof. reflexivity. Qed.

Lemma blur_after_change (clock : nat -> Z) (devicePixelRatio : num)
      (f : Z -> Config -> Config) (value : string) (st : App) :
  (forall v c, f v (f v c) = f v c) ->
  value = "" \/ parseInt value <> None ->
  let setter := fun v => setState clock devicePixelRatio (f v) in
  onBlur value setter (handleDensityChange value setter st)
  = handleDensityChange value setter st.
Proof.
  intros Hf Hv setter. unfold handleDensityChange.
  destruct (String.eqb_spec value "") as [->|Hne].
  - unfold onBlur. rewrite parseInt_empty. unfold setter.
    apply setState_same. rewrite setState_config. apply Hf.
  - destruct Hv as [Hv|Hv]; [contradiction|].
    destruct (parseInt value) as [n|] eqn:P; [|congruence].
    unfold onBlur. rewrite P.
    destruct (Z.ltb_spec n 0) as [L|L].
    + unfold setter. replace (Z.max 0 (Z.min 6 n)) with 0 by lia.
      apply setState_same. rewrite setState_config. apply Hf.
    + destruct (Z.gtb_spec n 6) as [G|G]; [|reflexivity].
      unfold setter. replace (Z.max 0 (Z.min 6 n)) with 6 by lia.
      apply setState_same. rewrite setState_config. apply Hf.
Qed.

(** X7.  A blur that follows a change with the same text commits
    nothing more: when the text is empty or [parseInt] finds a number in
    it, the component after the blur handler is the component after the
    change handler, so no second re-initialization takes place.  When
    the text is not empty and holds no number the two handlers
    disagree: the change handler leaves the component alone and the
    blur handler sets the density to 0. *)
Theorem X7_blur_confirms_change
        (clock : nat -> Z) (devicePixelRatio : num) (value : string)
        (st : App) :
  let setX := fun v => setState clock devicePixelRatio (set_xScaleDensity v) in
  let setY := fun v => setState clock devicePixelRatio (set_yScaleDensity v) in
  (value = "" \/ parseInt value <> None ->
   onBlur value setX (handleDensityChange value setX st)
   = handleDensityChange value setX st /\
   onBlur value setY (handleDensityChange value setY st)
   = handleDensityChange value setY st) /\
  (value <> "" -> parseInt value = None ->
   handleDensityChange value setX st = st /\
   config (onBlur value setX st) = set_xScaleDensity 0 (config st) /\
   handleDensityChange value setY st = st /\
   config (onBlur value setY st) = set_yScaleDensity 0 (config st)).
Proof.
  intros setX setY. split.
  - intros Hv. split.
    + apply (blur_after_change clock devicePixelRatio set_xScaleDensity);
        [reflexivity|exact Hv].
    + apply (blur_after_change clock devicePixelRatio set_yScaleDensity);
        [reflexivity|exact Hv].
  - intros Hne P. unfold handleDensityChange, onBlur. rewrite P.
    destruct (String.eqb_spec value ""); [contradiction|].
    unfold setX, setY. rewrite !setState_config. repeat split.
Qed.

Lemma X7_blur_confirms_change_witness :
  let setX := fun v => setState second_clock (#1)%js (set_xScaleDensity v) in
  onBlur "9" setX
         (handleDensityChange "9" setX
            (mount second_clock (#1)%js (#500)%js (#300)%js 0))
  = handleDensityChange "9" setX
      (mount second_clock (#1)%js (#500)%js (#300)%js 0) /\
  handleDensityChange "abc" setX
    (mount second_clock (#1)%js (#500)%js (#300)%js 0)
  = mount second_clock (#1)%js (#500)%js (#300)%js 0.
Proof.
  intros setX.
  assert (H9 : "9" = "" \/ parseInt "9" <> None).
  { right. vm_compute. discriminate. }
  assert (Hne : "abc" <> "") by discriminate.
  assert (Habc : parseInt "abc" = None) by reflexivity.
  split.
  - exact (proj1 (proj1 (X7_blur_confirms_change second_clock (#1)%js "9"
                           (mount second_clock (#1)%js (#500)%js (#300)%js 0))
                        H9)).
  - exact (proj1 (proj2 (X7_blur_confirms_change second_clock (#1)%js "abc"
                           (mount second_clock (#1)%js (#500)%js (#300)%js 0))
                        Hne Habc)).
Defined.

(** ** What every run keeps: the chart and the samples *)

Section StateInvariants.
Variable Math_sin : num -> num.
Variable LocalTZA : Z -> Z.
Variable clock : nat -> Z.
Variable devicePixelRatio : num.
Variable fuel : nat.

Local Abbreviation updateFrame' := (updateFrame Math_sin LocalTZA clock devicePixelRatio fuel).
Local Abbreviation step' := (step Math_sin LocalTZA clock devicePixelRatio fuel).
Local Abbreviation run' := (run Math_sin LocalTZA clock devicePixelRatio fuel).
Local Abbreviation setState' := (setState clock devicePixelRatio).

(** The handlers of a density input go through the state setter. *)
Lemma handleDensityChange_setState (value : string)
      (f : Z -> Config -> Config) (st : App) :
  handleDensityChange value (fun v => setState' (f v)) st
  = setState' (fun _ => handleDensityChange value f (config st)) st.
Proof.
  unfold handleDensityChange. destruct (String.eqb value ""); [reflexivity|].
  destruct (parseInt value); [reflexivity|].
  unfold setState. now rewrite config_eqb_refl.
Qed.

Lemma onBlur_setState (value : string) (f : Z -> Config -> Config) (st : App) :
  onBlur value (fun v => setState' (f v)) st
  = setState' (fun _ => onBlur value f (config st)) st.
Proof.
  unfold onBlur. destruct (parseInt value) as [n|]; [|reflexivity].
  destruct (n <? 0); [reflexivity|].
  destruct (n >? 6); [reflexivity|].
  unfold setState. now rewrite config_eqb_refl.
Qed.

(** What an event does to a mounted component. *)
Lemma step_cases (e : Event) (st st' : App) :
  mounted st = true -> step' e st = Some st' ->
  match e with
  | AnimationFrame =>
      match pending_frames st with
      | [] => st' = st
      | _ :: rest => updateFrame' (with_pending_frames rest st) = Some st'
      end
  | Resize w h =>
      st' = resizeHandler devicePixelRatio
              (with_container_height h (with_container_width w st))
  | Unmount => st' = with_mounted false (effect_cleanup st)
  | _ => st' = setState' (fun _ => requested e (config st)) st
  end.
Proof.
  intros M. unfold step. rewrite M. cbn [negb].
  destruct e; cbn [requested]; intros E.
  - destruct (pending_frames st); [now apply Some_inj in E|exact E].
  - now apply Some_inj in E.
  - now apply Some_inj in E.
  - now apply Some_inj in E.
  - now apply Some_inj in E.
  - destruct (showXSubScale (config st)); apply Some_inj in E; subst st'.
    + apply handleDensityChange_setState.
    + unfold setState. now rewrite config_eqb_refl.
  - destruct (showXSubScale (config st)); apply Some_inj in E; subst st'.
    + apply onBlur_setState.
    + unfold setState. now rewrite config_eqb_refl.
  - destruct (showYSubScale (config st)); apply Some_inj in E; subst st'.
    + apply handleDensityChange_setState.
    + unfold setState. now rewrite config_eqb_refl.
  - destruct (showYSubScale (config st)); apply Some_inj in E; subst st'.
    + apply onBlur_setState.
    + unfold setState. now rewrite config_eqb_refl.
  - now apply Some_inj in E.
  - now apply Some_inj in E.
Qed.

(** A property of the component that the frames, the state setter, the
    resize handler and the clean-up keep holds after every run. *)
Lemma run_invariant (P : App -> Prop) (Q : Event -> Prop) :
  (forall st st' rest,
      P st -> updateFrame' (with_pending_frames rest st) = Some st' -> P st') ->
  (forall e st, Q e -> P st ->
                P (setState' (fun _ => requested e (config st)) st)) ->
  (forall w h st, Q (Resize w h) -> P st ->
                  P (resizeHandler devicePixelRatio
                       (with_container_height h (with_container_width w st)))) ->
  (forall st, P st -> P (with_mounted false (effect_cleanup st))) ->
  forall es st st', Forall Q es -> P st -> run' es st = Some st' -> P st'.
Proof.
  intros Hframe Hset Hresize Hunmount.
  induction es as [|e es IH]; intros st st' HQ H R; cbn [run] in R.
  - apply Some_inj in R. now subst.
  - inversion HQ as [|? ? Qe Qes]; subst.
    destruct (step' e st) as [st1|] eqn:E; [|discriminate].
    apply (IH st1 st' Qes); [|exact R]. clear IH R.
    destruct (mounted st) eqn:M.
    2:{ unfold step in E. rewrite M in E. apply Some_inj in E. now subst. }
    assert (C := step_cases e st st1 M E).
    destruct e; try (subst st1; now apply Hset).
    + destruct (pending_frames st) as [|h rest]; [now subst|].
      exact (Hframe st st1 rest H C).
    + subst st1. now apply Hresize.
    + subst st1. now apply Hunmount.
Qed.

Lemma setState_dataRef (f : Config -> Config) (st : App) :
  dataRef (setState' f st) = dataRef st.
Proof.
  unfold setState. destruct (config_eqb _ _); [reflexivity|].
  cbn [Date_now].
  change (dataRef (effect_setup devicePixelRatio ?x)) with (dataRef x).
  now rewrite effect_cleanup_dataRef.
Qed.

Lemma updateFrame_dataRef (st st' : App) :
  updateFrame' st = Some st' ->
  generate Math_sin (#(clock (clock_reads st)))%js (#(startTime_current st))%js
           (timeWindow (config st)) (amplitude (config st)) fuel
  = Some (dataRef st').
Proof.
  unfold updateFrame. cbn [Date_now].
  cbn [with_clock_reads config startTime_current].
  destruct (generate _ _ _ _ _ _) as [newData|]; [|discriminate].
  destruct (drawTimeAxis _ _ _ _ _ _ _ _ _) as [ctx'|]; [|discriminate].
  intros H. apply Some_inj in H. subst st'.
  destruct (chartInstanceRef _); reflexivity.
Qed.

(** The samples held are plottable, and there are at most 3000 of them
    under a window that the select offers. *)
Lemma run_buffered (es : list Event) (st st' : App) :
  Forall offered es ->
  In (timeWindow (config st)) timeWindow_options /\ buffered st ->
  run' es st = Some st' ->
  In (timeWindow (config st')) timeWindow_options /\ buffered st'.
Proof.
  apply (run_invariant
           (fun st => In (timeWindow (config st)) timeWindow_options /\
                      buffered st) offered).
  - intros s s' rest [Hw _] F.
    rewrite (updateFrame_config _ _ _ _ _ _ _ F).
    split; [exact Hw|]. apply updateFrame_dataRef in F.
    split.
    + exact (generate_length _ _ _ _ _ _ _ Hw F).
    + exact (generate_plottable _ _ _ _ _ _ _ F).
  - intros e s Qe [Hw Hb]. rewrite setState_config. split.
    + now apply requested_timeWindow.
    + unfold buffered. now rewrite setState_dataRef.
  - intros w h s _ H. exact H.
  - intros s [Hw Hb]. cbn [with_mounted config dataRef].
    rewrite effect_cleanup_config. split; [exact Hw|].
    unfold buffered. cbn [with_mounted dataRef].
    now rewrite effect_cleanup_dataRef.
Qed.

(** The chart instance carries the options of the state variables. *)
Lemma init_chart_reflects (st : App) : reflects (init_chart st) (config st).
Proof. repeat split. Qed.

Lemma effect_setup_synced (st : App) :
  synced (effect_setup devicePixelRatio st).
Proof.
  unfold synced. eexists. split; [reflexivity|].
  apply (init_chart_reflects (updateCanvasSize devicePixelRatio st)).
Qed.

Lemma run_synced (es : list Event) (st st' : App) :
  synced st -> run' es st = Some st' -> synced st'.
Proof.
  intros H R.
  refine (run_invariant synced (fun _ => True) _ _ _ _ es st st' _ H R).
  - intros s s' rest [ch [Hc Hr]] F.
    assert (Hcfg := updateFrame_config _ _ _ _ _ _ _ F).
    cbn [with_pending_frames config] in Hcfg.
    unfold synced. rewrite Hcfg. clear Hcfg.
    unfold updateFrame in F. cbn [Date_now] in F.
    destruct (generate _ _ _ _ _ _) as [newData|]; [|discriminate].
    cbn in F. rewrite Hc in F. cbn in F.
    destruct (drawTimeAxis _ _ _ _ _ _ _ _ _) as [ctx'|]; [|discriminate].
    apply Some_inj in F. subst s'. eexists. split; [reflexivity|].
    destruct Hr as [H1 [H2 [H3 _]]]. repeat split; assumption.
  - intros e s _ Hs. unfold setState.
    destruct (config_eqb (config s) _) eqn:E.
    + exact Hs.
    + cbn [Date_now]. apply effect_setup_synced.
  - intros w h s _ [ch [Hc Hr]]. unfold synced, resizeHandler, updateCanvasSize.
    cbn. rewrite Hc. cbn. eexists. split; [reflexivity|exact Hr].
  - intros s [ch [Hc Hr]]. unfold synced. cbn [with_mounted chartInstanceRef config].
    rewrite effect_cleanup_config. unfold effect_cleanup.
    destruct (animationFrameRef s) as [h|].
    + destruct (Nat.eqb h 0); cbn; rewrite Hc; cbn;
        (eexists; split; [reflexivity|exact Hr]).
    + cbn. rewrite Hc. cbn. eexists. split; [reflexivity|exact Hr].
  - apply Forall_forall. auto.
Qed.
End StateInvariants.

(** X8.  After any sequence of events the chart instance carries the
    options of the current state variables: the kind of its split
    lines, its minor ticks and their number follow [showYSubScale] and
    [yScaleDensity], and its vertical axis runs from -10 to 10. *)
Theorem X8_chart_reflects_state
        (Math_sin : num -> num) (LocalTZA : Z -> Z) (clock : nat -> Z)
        (devicePixelRatio : num) (fuel : nat) (w h : num) (reads : nat)
        (es : list Event) (st' : App) :
  run Math_sin LocalTZA clock devicePixelRatio fuel es
      (mount clock devicePixelRatio w h reads) = Some st' ->
  exists ch,
    chartInstanceRef st' = Some ch /\
    splitLine_type ch
    = (if showYSubScale (config st') then "solid" else "dashed") /\
    minorTick_show ch = showYSubScale (config st') /\
    minorTick_splitNumber ch = yScaleDensity (config st') /\
    yAxis_min ch = (- #10)%js /\ yAxis_max ch = (#10)%js.
Proof.
  intros R.
  assert (S0 : synced (mount clock devicePixelRatio w h reads)).
  { unfold mount. cbn [Date_now]. apply effect_setup_synced. }
  exact (run_synced Math_sin LocalTZA clock devicePixelRatio fuel es _ _ S0 R).
Qed.

Lemma X8_chart_reflects_state_witness :
  exists st' ch,
    run sin_taylor utc_offset second_clock (#1)%js frame_fuel session
        (mount second_clock (#1)%js (#500)%js (#300)%js 0) = Some st' /\
    chartInstanceRef st' = Some ch /\
    minorTick_show ch = showYSubScale (config st') /\
    minorTick_splitNumber ch = yScaleDensity (config st').
Proof.
  destruct (run sin_taylor utc_offset second_clock (#1)%js frame_fuel session
              (mount second_clock (#1)%js (#500)%js (#300)%js 0))
    as [st'|] eqn:E; [|vm_compute in E; discriminate].
  destruct (X8_chart_reflects_state sin_taylor utc_offset second_clock (#1)%js
              frame_fuel (#500)%js (#300)%js 0 session st' E)
    as [ch [H1 [_ [H3 [H4 _]]]]].
  exists st', ch. repeat split; assumption.
Defined.

(** X3.  The samples held.  After any sequence of events in which the
    selects report options of theirs, the window is one of the four,
    [dataRef] holds at most 3000 samples, and the value of each of them
    is [NaN] or lies in [[-10, 10]], whatever [Math.sin] returns. *)
Theorem X3_samples_buffer_bounded
        (Math_sin : num -> num) (LocalTZA : Z -> Z) (clock : nat -> Z)
        (devicePixelRatio : num) (fuel : nat) (w h : num) (reads : nat)
        (es : list Event) (st' : App) :
  Forall offered es ->
  run Math_sin LocalTZA clock devicePixelRatio fuel es
      (mount clock devicePixelRatio w h reads) = Some st' ->
  In (timeWindow (config st')) timeWindow_options /\
  (List.length (dataRef st') <= 3000)%nat /\
  Forall (fun p : Sample => (is_nan (snd p) || in_range (snd p)) = true)
         (dataRef st').
Proof.
  intros Ho R.
  assert (B0 : In (timeWindow (config (mount clock devicePixelRatio w h reads)))
                  timeWindow_options /\
               buffered (mount clock devicePixelRatio w h reads)).
  { split; [cbn; tauto|]. split; [cbn; lia|constructor]. }
  destruct (run_buffered Math_sin LocalTZA clock devicePixelRatio fuel es _ _
              Ho B0 R) as [Hw [Hl Hp]].
  repeat split; assumption.
Qed.

Lemma X3_samples_buffer_bounded_witness :
  exists st',
    run sin_taylor utc_offset second_clock (#1)%js frame_fuel session
        (mount second_clock (#1)%js (#500)%js (#300)%js 0) = Some st' /\
    (List.length (dataRef st') <= 3000)%nat.
Proof.
  destruct (run sin_taylor utc_offset second_clock (#1)%js frame_fuel session
              (mount second_clock (#1)%js (#500)%js (#300)%js 0))
    as [st'|] eqn:E; [|vm_compute in E; discriminate].
  exists st'. split; [reflexivity|].
  assert (Ho : Forall offered session).
  { repeat constructor; cbn; tauto. }
  exact (proj1 (proj2 (X3_samples_buffer_bounded sin_taylor utc_offset
                         second_clock (#1)%js frame_fuel (#500)%js (#300)%js 0
                         session st' Ho E))).
Defined.

(** ** The size of the canvas and the width of the overlay *)

Lemma canvas_sizes_checked :
  forallb (fun w =>
             forallb (fun dpr =>
                        num_eqb (#(to_unsigned_long (#w * dpr)) / dpr)%js (#w)%js)
                     [#1; #2; #3]%js &&
             (negb (Z.odd w) ||
              ((to_unsigned_long (#w * lit_1_5)%js =? (3 * w - 1) / 2) &&
               (#(to_unsigned_long (#w * lit_1_5)) / lit_1_5 <? #w)%js &&
               (#w - #1 <? #(to_unsigned_long (#w * lit_1_5)) / lit_1_5)%js)))
          (whole_widths 1024) = true.
Proof. vm_cast_no_check (eq_refl true). Qed.

Lemma updateCanvasSize_width (dpr : num) (st : App) :
  falsy dpr = false ->
  canvas_width (updateCanvasSize dpr st)
  = to_unsigned_long (container_width st * dpr)%js.
Proof. intros H. unfold updateCanvasSize. rewrite H. reflexivity. Qed.

(** X12.  The width of the overlay.  For a container of a whole number
    of pixels up to 1024 and a device pixel ratio of 1, 2 or 3, the
    width [canvas.width / devicePixelRatio] that a frame draws with is
    the width of the container.  At the ratio 1.5 and an odd width the
    [width] attribute of the canvas is truncated to [(3 w - 1) / 2],
    and the overlay is narrower than the container, by less than one
    pixel. *)
Theorem X12_overlay_width_round_trip (st : App) (w : Z) (dpr : num) :
  0 <= w <= 1024 -> container_width st = (#w)%js ->
  (In dpr [#1; #2; #3]%js ->
   (#(canvas_width (updateCanvasSize dpr st)) / dpr)%js = (#w)%js) /\
  (dpr = lit_1_5 -> Z.odd w = true ->
   canvas_width (updateCanvasSize dpr st) = (3 * w - 1) / 2 /\
   (#(canvas_width (updateCanvasSize dpr st)) / dpr <? #w)%js = true /\
   (#w - #1 <? #(canvas_width (updateCanvasSize dpr st)) / dpr)%js = true).
Proof.
  intros Hw Hc.
  assert (H := canvas_sizes_checked). rewrite forallb_forall in H.
  specialize (H w (whole_widths_In 1024 w ltac:(lia))).
  apply andb_prop in H. destruct H as [Hint Hfrac]. split.
  - intros Hd. rewrite forallb_forall in Hint. specialize (Hint dpr Hd).
    rewrite updateCanvasSize_width, Hc.
    + now apply num_eqb_eq.
    + cbn [In] in Hd.
      destruct Hd as [<-|[<-|[<-|[]]]]; reflexivity.
  - intros -> Hodd. rewrite Hodd in Hfrac. cbn [negb orb] in Hfrac.
    apply andb_prop in Hfrac. destruct Hfrac as [Hfrac H3].
    apply andb_prop in Hfrac. destruct Hfrac as [H1 H2].
    rewrite updateCanvasSize_width, Hc by reflexivity.
    apply Z.eqb_eq in H1. repeat split; assumption.
Qed.

Lemma X12_overlay_width_round_trip_witness :
  (#(canvas_width (updateCanvasSize (#2)%js
                     (mount second_clock (#2)%js (#500)%js (#300)%js 0))) / #2)%js
  = (#500)%js /\
  canvas_width (updateCanvasSize lit_1_5
                  (mount second_clock lit_1_5 (#301)%js (#300)%js 0)) = 451.
Proof.
  split.
  - refine (proj1 (X12_overlay_width_round_trip
                     (mount second_clock (#2)%js (#500)%js (#300)%js 0) 500
                     (#2)%js _ eq_refl) _); [lia|cbn; tauto].
  - refine (proj1 (proj2 (X12_overlay_width_round_trip
                     (mount second_clock lit_1_5 (#301)%js (#300)%js 0) 301
                     lit_1_5 _ eq_refl) eq_refl eq_refl)). lia.
Defined.

Lemma div_nan (x d : num) : is_nan d = true -> (x / d)%js = NaN.
Proof. destruct d; try discriminate. intros _. now destruct x. Qed.

Lemma leb_nan (x : num) : (x <=? NaN)%js = false.
Proof. now destruct x. Qed.

Lemma major_marks_nan (LocalTZA : Z -> Z) (timeWindow now : num) :
  major_marks LocalTZA timeWindow now NaN = [].
Proof.
  unfold major_marks, major_mark. cbv zeta.
  cbn [flat_map]. rewrite !leb_nan, !andb_false_r. reflexivity.
Qed.

(** X13.  With a device pixel ratio that is not a number,
    [updateCanvasSize] sizes the canvas with the ratio 1 (line 159)
    while a frame divides by the ratio itself (line 275): the overlay
    gets the width [NaN], and a frame that returns draws the baseline
    and the badges, and no tick, no sub-tick and no label. *)
Theorem X13_ratio_nan_draws_no_tick
        (Math_sin : num -> num) (LocalTZA : Z -> Z) (clock : nat -> Z)
        (devicePixelRatio : num) (fuel : nat) (st st' : App) :
  is_nan devicePixelRatio = true ->
  canvas_width (updateCanvasSize devicePixelRatio st)
  = to_unsigned_long (container_width st * #1)%js /\
  (updateFrame Math_sin LocalTZA clock devicePixelRatio fuel st = Some st' ->
   ctx st' =
   ctx st ++ baseline NaN NaN
          ++ (if showXSubScale (config st)
              then [beginPath; strokeStyle "#999"; lineWidth lit_0_5; stroke]
              else [])
          ++ label_style
          ++ badges LocalTZA (timeWindow (config st))
                    (#(clock (clock_reads st)))%js NaN).
Proof.
  intros Hn. split.
  { unfold updateCanvasSize. destruct devicePixelRatio; try discriminate.
    reflexivity. }
  unfold updateFrame. cbn [Date_now].
  cbn [with_clock_reads config startTime_current].
  destruct (generate _ _ _ _ _ _) as [newData|]; [|discriminate].
  cbn [chartInstanceRef with_dataRef with_clock_reads dataRef].
  destruct (chartInstanceRef st) as [ch|];
    cbn [canvas_width canvas_height ctx with_chartInstanceRef with_dataRef
         with_clock_reads];
    rewrite !(div_nan _ _ Hn), drawTimeAxis_calls, major_marks_nan;
    destruct (showXSubScale (config st));
    try (destruct fuel as [|k]; [discriminate|];
         unfold subtick_candidates; cbn [iterates];
         unfold subtick_cond at 1;
         change (#0 <? NaN)%js with false; cbn [option_map]);
    intros H; apply Some_inj in H; subst st'; reflexivity.
Qed.

Lemma X13_ratio_nan_draws_no_tick_witness :
  exists st',
    updateFrame (fun _ => (#0)%js) utc_offset second_clock NaN 502
                (with_config (set_showXSubScale true initial_config)
                   (mount second_clock NaN (#500)%js (#300)%js 0)) = Some st' /\
    subticks_drawn (ctx st') = 0%nat /\
    List.length (ctx st') = 26%nat.
Proof.
  destruct (updateFrame (fun _ => (#0)%js) utc_offset second_clock NaN 502
              (with_config (set_showXSubScale true initial_config)
                 (mount second_clock NaN (#500)%js (#300)%js 0)))
    as [st'|] eqn:E; [|vm_compute in E; discriminate].
  exists st'. split; [reflexivity|].
  rewrite (proj2 (X13_ratio_nan_draws_no_tick (fun _ => (#0)%js) utc_offset
                    second_clock NaN 502 _ st' eq_refl) E).
  split; reflexivity.
Defined.

(** ** Every frame returns *)

(** The sub-tick loop is left at each whole-pixel width up to 1024 for
    each density from 0 to 6. *)
Lemma subtick_candidates_terminate (w d : Z) (fuel : nat) :
  0 <= w <= 1024 -> 0 <= d <= 6 -> (9 <= fuel)%nat ->
  exists l, subtick_candidates d (#w)%js fuel = Some l.
Proof.
  intros Hw Hd Hf.
  destruct (Z.eq_dec d 0) as [->|Hd0].
  { eexists. apply subtick_candidates_density_0. lia. }
  destruct (Z.eq_dec w 0) as [->|Hw0].
  { exists []. destruct fuel; [lia|]. reflexivity. }
  destruct (subtick_counts_whole_widths w d ltac:(lia) ltac:(lia))
    as [l [Hl _]].
  exists l. exact (iterates_more_fuel _ _ _ _ _ _ Hl Hf).
Qed.

(** A frame returns when its two loops are left. *)
Lemma updateFrame_returns
        (Math_sin : num -> num) (LocalTZA : Z -> Z) (clock : nat -> Z)
        (devicePixelRatio : num) (fuel : nat) (st : App) (w : Z) :
  (frame_fuel <= fuel)%nat ->
  In (timeWindow (config st)) timeWindow_options ->
  0 <= xScaleDensity (config st) <= 6 ->
  0 <= w <= 1024 ->
  (#(canvas_width st) / devicePixelRatio)%js = (#w)%js ->
  exists st',
    updateFrame Math_sin LocalTZA clock devicePixelRatio fuel st
    = Some st' /\
    clock_reads st' = Datatypes.S (clock_reads st) /\
    next_handle st' = Datatypes.S (next_handle st) /\
    pending_frames st' = pending_frames st ++ [next_handle st] /\
    animationFrameRef st' = Some (next_handle st).
Proof.
  intros Hf Htw Hd Hw HW. unfold updateFrame. cbn [Date_now].
  cbn [with_clock_reads config startTime_current].
  destruct (offsets_terminate _ Htw) as [ts Hts].
  apply (offsets_more_fuel _ _ fuel) in Hts; [|exact Hf].
  rewrite generate_offsets, Hts. cbn [option_map].
  assert (Hf9 : (9 <= fuel)%nat).
  { apply (Nat.le_trans _ frame_fuel); [|exact Hf].
    apply Nat.leb_le. reflexivity. }
  destruct (subtick_candidates_terminate w (xScaleDensity (config st))
              fuel Hw Hd Hf9) as [l Hl].
  cbn [chartInstanceRef with_dataRef with_clock_reads dataRef].
  destruct (chartInstanceRef st) as [ch|];
    cbn [canvas_width canvas_height ctx with_chartInstanceRef with_dataRef
         with_clock_reads];
    rewrite HW, drawTimeAxis_calls, Hl; cbn [option_map];
    destruct (showXSubScale (config st));
    (eexists; split; [reflexivity|]); repeat split.
Qed.

(** X2.  A frame returns.  With a window that the select offers, a
    density of the horizontal sub-scale from 0 to 6 and an overlay whose
    width [canvas.width / devicePixelRatio] is a whole number of pixels
    up to 1024, the two loops of the frame are left within the fuel,
    for every fuel from 3002 on; the frame has read the clock once and
    has requested exactly one frame, whose handle it has stored. *)
Theorem X2_frame_returns
        (Math_sin : num -> num) (LocalTZA : Z -> Z) (clock : nat -> Z)
        (devicePixelRatio : num) (fuel : nat) (st : App) (w : Z) :
  (frame_fuel <= fuel)%nat ->
  In (timeWindow (config st)) timeWindow_options ->
  0 <= xScaleDensity (config st) <= 6 ->
  0 <= w <= 1024 ->
  (#(canvas_width st) / devicePixelRatio)%js = (#w)%js ->
  exists st',
    updateFrame Math_sin LocalTZA clock devicePixelRatio fuel st
    = Some st' /\
    clock_reads st' = Datatypes.S (clock_reads st) /\
    next_handle st' = Datatypes.S (next_handle st) /\
    pending_frames st' = pending_frames st ++ [next_handle st] /\
    animationFrameRef st' = Some (next_handle st).
Proof. exact (updateFrame_returns Math_sin LocalTZA clock devicePixelRatio fuel st w). Qed.

Lemma X2_frame_returns_witness :
  exists st',
    updateFrame sin_taylor utc_offset second_clock (#2)%js frame_fuel
                (mount second_clock (#2)%js (#500)%js (#300)%js 0) = Some st' /\
    pending_frames st' = [1%nat; 2%nat].
Proof.
  assert (Hin : In (timeWindow
                      (config (mount second_clock (#2)%js (#500)%js (#300)%js 0)))
                   timeWindow_options) by (cbn; tauto).
  assert (Hd : 0 <= xScaleDensity
                      (config (mount second_clock (#2)%js (#500)%js (#300)%js 0))
               <= 6) by (cbn; lia).
  assert (Hw : 0 <= 500 <= 1024) by lia.
  assert (HW : (#(canvas_width (mount second_clock (#2)%js (#500)%js
                                      (#300)%js 0)) / #2)%js = (#500)%js)
    by (vm_compute; reflexivity).
  destruct (X2_frame_returns sin_taylor utc_offset second_clock (#2)%js
              frame_fuel
              (mount second_clock (#2)%js (#500)%js (#300)%js 0) 500
              (Nat.le_refl _) Hin Hd Hw HW) as [st' [H1 [_ [_ [H4 _]]]]].
  exists st'. split; [exact H1|]. rewrite H4. reflexivity.
Defined.

Section Sizes.
Variable Math_sin : num -> num.
Variable LocalTZA : Z -> Z.
Variable clock : nat -> Z.
Variable devicePixelRatio : num.
Variable fuel : nat.
Hypothesis whole_ratio : In devicePixelRatio whole_ratios.

Local Abbreviation updateFrame' := (updateFrame Math_sin LocalTZA clock devicePixelRatio fuel).
Local Abbreviation step' := (step Math_sin LocalTZA clock devicePixelRatio fuel).
Local Abbreviation run' := (run Math_sin LocalTZA clock devicePixelRatio fuel).
Local Abbreviation setState' := (setState clock devicePixelRatio).

Lemma whole_ratio_truthy : falsy devicePixelRatio = false.
Proof.
  unfold whole_ratios in whole_ratio. cbn [In] in whole_ratio.
  destruct whole_ratio as [<-|[<-|[<-|[]]]]; reflexivity.
Qed.

Lemma updateCanvasSize_sized (st : App) (z : Z) :
  0 <= z <= 1024 -> container_width st = (#z)%js ->
  sized devicePixelRatio (updateCanvasSize devicePixelRatio st).
Proof.
  intros Hz Hc. exists z. split; [exact Hz|]. split; [exact Hc|].
  rewrite (updateCanvasSize_width _ _ whole_ratio_truthy), Hc.
  assert (H := canvas_sizes_checked). rewrite forallb_forall in H.
  specialize (H z (whole_widths_In 1024 z ltac:(lia))).
  apply andb_prop in H. destruct H as [H _]. rewrite forallb_forall in H.
  apply num_eqb_eq, H, whole_ratio.
Qed.

Lemma effect_cleanup_container (st : App) :
  container_width (effect_cleanup st) = container_width st.
Proof.
  unfold effect_cleanup.
  destruct (animationFrameRef st) as [h|]; [|reflexivity].
  destruct (Nat.eqb h 0); reflexivity.
Qed.

Lemma effect_cleanup_canvas (st : App) :
  canvas_width (effect_cleanup st) = canvas_width st.
Proof.
  unfold effect_cleanup.
  destruct (animationFrameRef st) as [h|]; [|reflexivity].
  destruct (Nat.eqb h 0); reflexivity.
Qed.

Lemma setState_sized (f : Config -> Config) (st : App) :
  sized devicePixelRatio st -> sized devicePixelRatio (setState' f st).
Proof.
  intros H. unfold setState. destruct (config_eqb _ _); [exact H|].
  cbn [Date_now]. destruct H as [z [Hz [Hc _]]].
  unfold effect_setup.
  set (s := effect_cleanup _).
  assert (Hs : container_width s = (#z)%js).
  { unfold s. now rewrite effect_cleanup_container. }
  destruct (updateCanvasSize_sized s z Hz Hs) as [z' [Hz' [Hc' Hw']]].
  exists z'. split; [exact Hz'|]. split; [exact Hc'|exact Hw'].
Qed.

Lemma updateFrame_sized (st st' : App) (rest : list nat) :
  sized devicePixelRatio st ->
  updateFrame' (with_pending_frames rest st) = Some st' ->
  sized devicePixelRatio st'.
Proof.
  intros [z [Hz [Hc Hw]]]. unfold updateFrame. cbn [Date_now].
  destruct (generate _ _ _ _ _ _) as [newData|]; [|discriminate].
  destruct (drawTimeAxis _ _ _ _ _ _ _ _ _) as [ctx'|]; [|discriminate].
  intros H. apply Some_inj in H. subst st'.
  exists z. split; [exact Hz|].
  cbn [chartInstanceRef with_dataRef with_clock_reads with_pending_frames].
  destruct (chartInstanceRef st); split; assumption.
Qed.

Lemma run_steady (es : list Event) (st st' : App) :
  Forall (fun e => offered e /\ fits e) es ->
  steady devicePixelRatio st -> run' es st = Some st' ->
  steady devicePixelRatio st'.
Proof.
  apply (run_invariant Math_sin LocalTZA clock devicePixelRatio fuel
           (steady devicePixelRatio) (fun e => offered e /\ fits e)).
  - intros s s' rest [Hw [Hd Hs]] F. unfold steady.
    assert (Hcfg := updateFrame_config _ _ _ _ _ _ _ F).
    cbn [with_pending_frames config] in Hcfg. rewrite Hcfg.
    split; [exact Hw|]. split; [exact Hd|].
    exact (updateFrame_sized s s' rest Hs F).
  - intros e s [Ho _] [Hw [Hd Hs]]. unfold steady. rewrite setState_config.
    split; [now apply requested_timeWindow|].
    split; [|now apply setState_sized].
    now apply requested_densities.
  - intros w h s [Ho Hf] [Hw [Hd Hs]]. unfold steady.
    split; [exact Hw|]. split; [exact Hd|].
    cbn [fits] in Hf. destruct Hf as [z [Hz ->]].
    unfold resizeHandler.
    apply (updateCanvasSize_sized _ z Hz). reflexivity.
  - intros s [Hw [Hd Hs]]. unfold steady. cbn [with_mounted config].
    rewrite effect_cleanup_config. split; [exact Hw|]. split; [exact Hd|].
    destruct Hs as [z [Hz [Hc Hcw]]]. exists z. split; [exact Hz|].
    cbn [with_mounted container_width canvas_width].
    now rewrite effect_cleanup_container, effect_cleanup_canvas.
Qed.

Lemma mount_steady (z : Z) (h : num) (reads : nat) :
  0 <= z <= 1024 ->
  steady devicePixelRatio (mount clock devicePixelRatio (#z)%js h reads).
Proof.
  intros Hz. split; [cbn; tauto|]. split; [cbn; lia|].
  unfold mount. cbn [Date_now]. unfold effect_setup.
  set (s := with_startTime_current _ _).
  destruct (updateCanvasSize_sized s z Hz eq_refl) as [z' [Hz' [Hc' Hw']]].
  exists z'. split; [exact Hz'|]. split; [exact Hc'|exact Hw'].
Qed.

Lemma step_returns (e : Event) (st : App) :
  (frame_fuel <= fuel)%nat -> steady devicePixelRatio st ->
  exists st', step' e st = Some st'.
Proof.
  intros Hf [Hw [[Hd _] [z [Hz [_ Hcw]]]]]. unfold step.
  destruct (negb (mounted st)); [now eexists|].
  destruct e; try (now eexists).
  - destruct (pending_frames st) as [|h rest]; [now eexists|].
    destruct (updateFrame_returns Math_sin LocalTZA clock devicePixelRatio
                fuel (with_pending_frames rest st) z Hf Hw Hd Hz Hcw)
      as [st' [H _]].
    now exists st'.
  - destruct (showXSubScale (config st)); now eexists.
  - destruct (showXSubScale (config st)); now eexists.
  - destruct (showYSubScale (config st)); now eexists.
  - destruct (showYSubScale (config st)); now eexists.
Qed.

Lemma run_returns (es : list Event) :
  (frame_fuel <= fuel)%nat ->
  Forall (fun e => offered e /\ fits e) es ->
  forall st, steady devicePixelRatio st -> exists st', run' es st = Some st'.
Proof.
  intros Hf. induction es as [|e es IH]; intros HQ st Hs; cbn [run].
  - now eexists.
  - inversion HQ as [|? ? Qe Qes]; subst.
    destruct (step_returns e st Hf Hs) as [st1 E]. rewrite E.
    apply (IH Qes).
    apply (run_steady [e] st st1); [now constructor|exact Hs|].
    cbn [run]. now rewrite E.
Qed.
End Sizes.

(** X15.  The component never hangs.  At a device pixel ratio of 1, 2
    or 3, mounted in a container of a whole number of pixels up to
    1024, it comes through every sequence of events in which the
    selects report options of theirs and the resizes keep the width a
    whole number of pixels up to 1024: every frame on the way returns,
    for every fuel from 3002 on, and the component is left with a
    window of the select, a density of the horizontal sub-scale from 0
    to 6 and an overlay of a whole number of pixels. *)
Theorem X15_run_returns
        (Math_sin : num -> num) (LocalTZA : Z -> Z) (clock : nat -> Z)
        (devicePixelRatio : num) (fuel : nat) (z : Z) (h : num) (reads : nat)
        (es : list Event) :
  In devicePixelRatio [#1; #2; #3]%js ->
  (frame_fuel <= fuel)%nat ->
  0 <= z <= 1024 ->
  Forall (fun e => offered e /\ fits e) es ->
  exists st',
    run Math_sin LocalTZA clock devicePixelRatio fuel es
        (mount clock devicePixelRatio (#z)%js h reads) = Some st' /\
    In (timeWindow (config st')) timeWindow_options /\
    0 <= xScaleDensity (config st') <= 6 /\
    exists z', 0 <= z' <= 1024 /\
               (#(canvas_width st') / devicePixelRatio)%js = (#z')%js.
Proof.
  intros Hr Hf Hz HQ.
  assert (S0 := mount_steady Math_sin LocalTZA clock devicePixelRatio fuel Hr
                  z h reads Hz).
  destruct (run_returns Math_sin LocalTZA clock devicePixelRatio fuel Hr es
              Hf HQ _ S0) as [st' R].
  exists st'. split; [exact R|].
  destruct (run_steady Math_sin LocalTZA clock devicePixelRatio fuel Hr es
              _ st' HQ S0 R) as [Hw [[Hd _] [z' [Hz' [_ Hcw]]]]].
  split; [exact Hw|]. split; [exact Hd|]. now exists z'.
Qed.

Lemma X15_run_returns_witness :
  exists st',
    run sin_taylor utc_offset second_clock (#2)%js frame_fuel
        [AnimationFrame; CheckXSubScale true; ChangeXDensity "0";
         Resize (#640)%js (#200)%js; AnimationFrame]
        (mount second_clock (#2)%js (#500)%js (#300)%js 0) = Some st' /\
    0 <= xScaleDensity (config st') <= 6.
Proof.
  assert (HQ : Forall (fun e => offered e /\ fits e)
                 [AnimationFrame; CheckXSubScale true; ChangeXDensity "0";
                  Resize (#640)%js (#200)%js; AnimationFrame]).
  { repeat constructor. exists 640. split; [lia|reflexivity]. }
  destruct (X15_run_returns sin_taylor utc_offset second_clock (#2)%js
              frame_fuel 500 (#300)%js 0 _ ltac:(cbn; tauto) (Nat.le_refl _)
              ltac:(lia) HQ) as [st' [R [_ [Hd _]]]].
  exists st'. split; [exact R|exact Hd].
Defined.

(** ** The tooltip *)

Lemma fixed_2_shape (n : Z) :
  0 <= n <= 1000 ->
  fixed_2 n = (Number_toString (Some (n / 100)) ++ "."
               ++ two_digits (n mod 100))%string.
Proof.
  assert (H : forallb (fun n => String.eqb (fixed_2 n)
                         (Number_toString (Some (n / 100)) ++ "."
                          ++ two_digits (n mod 100))%string)
                      (whole_widths 1000) = true) by (vm_compute; reflexivity).
  intros Hn. rewrite forallb_forall in H.
  apply String.eqb_eq, H, whole_widths_In. lia.
Qed.

Lemma pad3 (n : Z) :
  0 <= n < 1000 -> padStart 3 "0" (Number_toString (Some n)) = three_digits n.
Proof.
  assert (H : forallb (fun n => String.eqb
                                  (padStart 3 "0" (Number_toString (Some n)))
                                  (three_digits n))
                      (whole_widths 999) = true) by (vm_compute; reflexivity).
  intros Hn. rewrite forallb_forall in H.
  apply String.eqb_eq, H, whole_widths_In. lia.
Qed.

(** A double of magnitude at most 10 has at most 1000 hundredths. *)
Lemma hundredths_in_range (s : bool) (m : positive) (e : Z) :
  valid (S754_finite s m e) = true ->
  in_range (S754_finite s m e) = true ->
  at_least_1e21 m e = false /\ 0 <= hundredths m e <= 1000.
Proof.
  intros Hv Hr.
  change (in_range (S754_finite s m e))
    with (within (#10)%js (S754_finite s m e)) in Hr.
  rewrite ten_bound in Hr.
  assert (Hs := within_small 5 1 _ ltac:(lia) Hv Hr).
  cbn [small] in Hs. destruct Hs as [He Hm].
  assert (P : 0 < 2 ^ (- e)) by (apply Z.pow_pos_nonneg; lia).
  assert (E1 : 2 ^ (1 - e) = 2 * 2 ^ (- e)).
  { replace (1 - e) with (1 + - e) by lia. rewrite Z.pow_add_r by lia.
    reflexivity. }
  unfold at_least_1e21, hundredths.
  destruct (Z.leb_spec 0 e) as [L|L]; [lia|]. rewrite E1 in *.
  split.
  - apply Z.leb_gt. assert (10 < 10 ^ 21) by reflexivity. nia.
  - split.
    + apply Z.div_pos; lia.
    + assert (H : (200 * Zpos m + 2 ^ (- e)) / (2 * 2 ^ (- e)) < 1001).
      { apply Z.div_lt_upper_bound; nia. }
      lia.
Qed.

(** X14.  The tooltip formatter throws on an empty list and reads
    nothing but the first entry of any other one.  For a valid date its
    text is the first label, the locale time, a point, the three digits
    of the milliseconds of the local time, the second label and the
    value with two decimals.  For a double between -10 and 10 that last
    part is a minus sign when the value is negative, one or two digits,
    a point and two digits, the nearest hundredth and 10.00 at most;
    for [NaN] it is ["NaN"]. *)
Theorem X14_tooltip_formatter
        (LocalTZA : Z -> Z) (toLocaleTimeString : Z -> string)
        (ToString_large : positive -> Z -> string) :
  let format := formatter LocalTZA toLocaleTimeString ToString_large in
  let fixed := toFixed_2 ToString_large in
  format [] = None /\
  (forall first rest, format (first :: rest) = format [first] /\
                      format [first] <> None) /\
  (forall first tv,
      Date.make (fst (data first)) = Some tv ->
      format [first] =
      Some ("时间: " ++ toLocaleTimeString tv ++ "."
            ++ three_digits ((tv + LocalTZA tv) mod 1000)
            ++ "<br/>振幅: " ++ fixed (snd (data first)))%string) /\
  (forall v,
      valid v = true -> in_range v = true ->
      exists n,
        0 <= n <= 1000 /\
        fixed v =
        ((if (v <? #0)%js then "-" else "")
         ++ Number_toString (Some (n / 100)) ++ "."
         ++ two_digits (n mod 100))%string) /\
  fixed NaN = "NaN".
Proof.
  intros format fixed. split; [reflexivity|].
  split; [intros first rest; split; [reflexivity|discriminate]|].
  split; [|split; [|reflexivity]].
  - intros first tv Hd. unfold format, formatter. cbv zeta. rewrite Hd.
    cbn [localeTime Date.getMilliseconds option_map].
    unfold Date.LocalTime, Date.msPerSecond.
    rewrite pad3; [reflexivity|]. apply Z.mod_pos_bound. lia.
  - intros v Hv Hr. destruct v as [s|[|]| |s m e]; try discriminate.
    + exists 0. split; [lia|]. now destruct s.
    + destruct (hundredths_in_range s m e Hv Hr) as [Hbig Hn].
      exists (hundredths m e). split; [exact Hn|].
      unfold fixed, toFixed_2. rewrite Hbig, (fixed_2_shape _ Hn).
      now destruct s.
Qed.

Lemma X14_tooltip_formatter_witness :
  formatter utc_offset (fun _ => "22:13:20") (fun _ _ => "")
            [{| data := ((#1700000000321)%js, (- lit_0_5)%js);
                componentIndex := (#0)%js; seriesIndex := (#0)%js;
                seriesName := "" |}]
  = Some ("时间: 22:13:20.321<br/>振幅: -0.50") /\
  toFixed_2 (fun _ _ => "") (#10)%js = "10.00" /\
  toFixed_2 (fun _ _ => "") (S754_finite true 5764607523034235 (-61)) = "-0.00".
Proof.
  destruct (X14_tooltip_formatter utc_offset (fun _ => "22:13:20") (fun _ _ => ""))
    as [_ [_ [Hdate _]]].
  split; [|split; reflexivity].
  exact (Hdate {| data := ((#1700000000321)%js, (- lit_0_5)%js);
                  componentIndex := (#0)%js; seriesIndex := (#0)%js;
                  seriesName := "" |} 1700000000321 eq_refl).
Defined.
